(** * CircuitVerse leaderboard: aggregation, period derivation and fetching

    A shallow embedding of the two leaderboard generator scripts of the
    repository and the properties their specification states about them.

    - [Year] embeds the year generator (fetch in date chunks, aggregate,
      derive the shorter periods from the year document).
    - [PerPeriod] embeds [src/scripts/generateLeaderboard.ts], the generator
      that queries every period on its own.
    - [Freshness] is the cache freshness classifier, which is not among the
      sources and is modelled from the specification.

    JavaScript numbers are modelled by [Z]: every number the scripts add up is
    an integer far below 2^53, where double arithmetic is exact.  Strings are
    [string]; the two string operations used, [split("T")[0]] and
    [endsWith("[bot]")], look for ASCII text only and so act on the UTF-8 bytes
    exactly as they act on UTF-16 code units. *)

From Stdlib Require Import ZArith List String Ascii Bool Lia Sorted Permutation.
Import ListNotations.
Open Scope string_scope.
Open Scope list_scope.
Open Scope Z_scope.

Set Implicit Arguments.

(* ================================================================== *)
(** * Part I: the model *)
(* ================================================================== *)

(** ** JavaScript library functions used by the scripts *)

Module Js.

(** [s.split("T")[0]]: the text before the first capital T, the whole of
    [s] when it has none. *)
Fixpoint beforeT (s : string) : string :=
  match s with
  | EmptyString => EmptyString
  | String c rest =>
      if Ascii.eqb c "T"%char then EmptyString else String c (beforeT rest)
  end.

(** [s.endsWith(suffix)]: some tail of [s] is [suffix]. *)
Fixpoint endsWith (s suffix : string) : bool :=
  if String.eqb s suffix then true
  else match s with
       | EmptyString => false
       | String _ rest => endsWith rest suffix
       end.

(** Truthiness of an optional string: [undefined], [null] and the empty
    string are falsy. *)
Definition truthy (s : option string) : bool :=
  match s with
  | Some s => negb (String.eqb s EmptyString)
  | None => false
  end.

(** [xs.map(f).filter(e => e !== null)] keeps the non-null results. *)
Fixpoint nonNull {A : Type} (l : list (option A)) : list A :=
  match l with
  | [] => []
  | Some x :: rest => x :: nonNull rest
  | None :: rest => nonNull rest
  end.

(** *** Insertion-ordered dictionaries

    A [Map] enumerates its keys in insertion order; assigning to a key
    that exists keeps its place.  An object used as a record of buckets is
    kept the same way, in the order its keys were added; what
    [Object.values] makes of that order is [objectValues] below.  (The keys
    of such an object are taken not to be names inherited from
    [Object.prototype]; those used here are the three activity names and the
    text before the T of a timestamp.) *)
Section Dict.
Variables K V : Type.
Variable eqb : K -> K -> bool.

Fixpoint get (k : K) (o : list (K * V)) : option V :=
  match o with
  | [] => None
  | (k', v) :: rest => if eqb k k' then Some v else get k rest
  end.

(** [o[k] ??= v0], and [if (!m.has(k)) m.set(k, v0)]. *)
Definition ensure (k : K) (v0 : V) (o : list (K * V)) : list (K * V) :=
  match get k o with
  | Some _ => o
  | None => o ++ [(k, v0)]
  end.

(** In-place update of the value stored under [k]. *)
Fixpoint alter (f : V -> V) (k : K) (o : list (K * V)) : list (K * V) :=
  match o with
  | [] => []
  | (k', v) :: rest =>
      if eqb k k' then (k', f v) :: rest else (k', v) :: alter f k rest
  end.

(** [Object.values(o)], [[...m.values()]]. *)
Definition values (o : list (K * V)) : list V := map snd o.
End Dict.

(** *** [Array.prototype.sort] with a comparator

    The sort is stable; with a consistent comparator its result is the one
    of any stable sort, here insertion from the right.  [cmp a b <= 0] keeps
    [a] before [b]. *)
Section Sort.
Variable A : Type.
Variable cmp : A -> A -> Z.

Fixpoint insert (x : A) (l : list A) : list A :=
  match l with
  | [] => [x]
  | y :: rest => if cmp x y <=? 0 then x :: y :: rest else y :: insert x rest
  end.

Definition sort (l : list A) : list A := fold_right insert [] l.
End Sort.

(** *** The own properties of an object, as enumerated

    [Object.values(o)] lists the properties whose key is an array index
    first, in ascending numeric order, and the others after them in the order
    they were added.  An array index is the canonical decimal text of an
    integer from 0 to 2^32 - 2: digits only, no leading zero. *)
Definition digitOf (c : ascii) : option Z :=
  let n := Z.of_N (N_of_ascii c) in
  if (48 <=? n) && (n <=? 57) then Some (n - 48) else None.

Fixpoint decimal (s : string) (acc : Z) : option Z :=
  match s with
  | EmptyString => Some acc
  | String c rest =>
      match digitOf c with
      | Some d => decimal rest (10 * acc + d)
      | None => None
      end
  end.

Definition arrayIndex (k : string) : option Z :=
  match k with
  | EmptyString => None
  | String c rest =>
      if Ascii.eqb c "0"%char && negb (String.eqb rest EmptyString) then None
      else
        match decimal k 0 with
        | Some n => if n <? 4294967295 then Some n else None
        | None => None
        end
  end.

Definition isArrayIndex (k : string) : bool :=
  match arrayIndex k with
  | Some _ => true
  | None => false
  end.

Definition indexOf (k : string) : Z :=
  match arrayIndex k with
  | Some n => n
  | None => 0
  end.

Section Own.
Variable V : Type.

(** The own properties of an object kept in insertion order [o], in the
    order [Object.keys], [Object.values] and [Object.entries] list them. *)
Definition ownEntries (o : list (string * V)) : list (string * V) :=
  sort (fun a b => indexOf (fst a) - indexOf (fst b))
    (filter (fun p => isArrayIndex (fst p)) o)
  ++ filter (fun p => negb (isArrayIndex (fst p))) o.

(** [Object.values(o)] *)
Definition objectValues (o : list (string * V)) : list V :=
  map snd (ownEntries o).
End Own.

(** In-place update of the first array element satisfying [p]
    ([const e = xs.find(p); if (e) { e.f += ... }]). *)
Fixpoint updateFirst {A : Type} (p : A -> bool) (f : A -> A) (l : list A)
  : list A :=
  match l with
  | [] => []
  | x :: rest => if p x then f x :: rest else x :: updateFirst p f rest
  end.

End Js.

(** ** The year generator *)

Module Year.

Inductive ActivityType := PR_opened | PR_merged | Issue_opened.

Definition ActivityType_eqb (a b : ActivityType) : bool :=
  match a, b with
  | PR_opened, PR_opened | PR_merged, PR_merged
  | Issue_opened, Issue_opened => true
  | _, _ => false
  end.

(** [POINTS] *)
Definition POINTS_PR_OPENED : Z := 2.
Definition POINTS_PR_MERGED : Z := 5.
Definition POINTS_ISSUE_OPENED : Z := 1.

Record Bucket := { count : Z; points : Z }.

Record DailyEntry := { date : string; day_count : Z; day_points : Z }.

Record RawActivity := {
  type : ActivityType;
  occured_at : string;
  title : option string;
  link : option string;
  act_points : Z
}.

Record UserEntry := {
  username : string;
  name : option string;
  avatar_url : option string;
  role : option string;
  total_points : Z;
  activity_breakdown : list (ActivityType * Bucket);
  daily_activity : list DailyEntry;
  raw_activities : list RawActivity
}.

(** The [user] object of a search result.  The declared type makes [login]
    a string, [isBotUser] allows for its absence. *)
Record GitHubUser := {
  login : option string;
  user_name : option string;
  user_avatar_url : option string;
  user_type : option string
}.

Record GitHubItem := {
  user : GitHubUser;
  created_at : string;
  closed_at : string;
  item_title : option string;
  html_url : option string
}.

Record Meta := { meta_title : option string; meta_link : option string }.

(** [user.login] and [user.type] read as strings; an absent field reads
    as the empty text, which is falsy like [undefined]. *)
Definition loginOf (u : GitHubUser) : string :=
  match login u with Some l => l | None => EmptyString end.

Definition typeOf (u : GitHubUser) : string :=
  match user_type u with Some t => t | None => EmptyString end.

(** [isBotUser] *)
Definition isBotUser (u : GitHubUser) : bool :=
  if negb (Js.truthy (login u)) then true
  else if Js.truthy (user_type u) && negb (String.eqb (typeOf u) "User")
  then true
  else Js.endsWith (loginOf u) "[bot]".

(** [ensureUser]: the map after the call; the entry it returns is the one
    stored under the login. *)
Definition ensureUser (users : list (string * UserEntry)) (u : GitHubUser)
  : list (string * UserEntry) :=
  Js.ensure String.eqb (loginOf u)
    {| username := loginOf u;
       name := user_name u;
       avatar_url := user_avatar_url u;
       role := Some "Contributor";
       total_points := 0;
       activity_breakdown := [];
       daily_activity := [];
       raw_activities := [] |}
    users.

Section Aggregation.
(** [sanitizeTitle] rewrites a title with regular expressions over Unicode
    white space; no property below depends on what it returns. *)
Variable sanitizeTitle : option string -> option string.

(** [addActivity] *)
Definition addActivity (entry : UserEntry) (ty : ActivityType)
    (when : string) (pts : Z) (meta : option Meta) : UserEntry :=
  let day := Js.beforeT when in
  let bd0 := Js.ensure ActivityType_eqb ty {| count := 0; points := 0 |}
               (activity_breakdown entry) in
  let bd1 := Js.alter ActivityType_eqb
               (fun b => {| count := count b + 1; points := points b |})
               ty bd0 in
  let bd2 := Js.alter ActivityType_eqb
               (fun b => {| count := count b; points := points b + pts |})
               ty bd1 in
  let sameDay := fun d => String.eqb (date d) day in
  let daily :=
    match find sameDay (daily_activity entry) with
    | Some _ =>
        Js.updateFirst sameDay
          (fun d => {| date := date d;
                       day_count := day_count d + 1;
                       day_points := day_points d + pts |})
          (daily_activity entry)
    | None =>
        daily_activity entry
          ++ [{| date := day; day_count := 1; day_points := pts |}]
    end in
  {| username := username entry;
     name := name entry;
     avatar_url := avatar_url entry;
     role := role entry;
     total_points := total_points entry + pts;
     activity_breakdown := bd2;
     daily_activity := daily;
     raw_activities :=
       raw_activities entry
         ++ [{| type := ty;
                occured_at := when;
                title := sanitizeTitle
                           (match meta with
                            | Some m => meta_title m
                            | None => None
                            end);
                link := match meta with
                        | Some m => meta_link m
                        | None => None
                        end;
                act_points := pts |}] |}.

(** One turn of a [for (const pr of ...)] loop of [generateYear]. *)
Definition foldItem (ty : ActivityType) (when : GitHubItem -> string)
    (pts : Z) (users : list (string * UserEntry)) (it : GitHubItem)
  : list (string * UserEntry) :=
  if isBotUser (user it) then users
  else
    Js.alter String.eqb
      (fun entry =>
         addActivity entry ty (when it) pts
           (Some {| meta_title := item_title it; meta_link := html_url it |}))
      (loginOf (user it))
      (ensureUser users (user it)).

(** The three loops of [generateYear] over the fetched categories. *)
Definition foldCategories (opened merged issues : list GitHubItem)
  : list (string * UserEntry) :=
  let users0 := [] in
  let users1 :=
    fold_left (foldItem PR_opened created_at POINTS_PR_OPENED) opened users0 in
  let users2 :=
    fold_left (foldItem PR_merged closed_at POINTS_PR_MERGED) merged users1 in
  fold_left (foldItem Issue_opened created_at POINTS_ISSUE_OPENED) issues users2.

(** [entries] of [year.json]. *)
Definition yearEntries (opened merged issues : list GitHubItem)
  : list UserEntry :=
  Js.sort (fun a b => total_points b - total_points a)
    (filter (fun u => 0 <? total_points u)
       (Js.values (foldCategories opened merged issues))).
End Aggregation.

(** *** Derived periods *)

Module Derived.
Record Activity := {
  type : ActivityType;
  title : option string;
  occured_at : string;
  link : option string;
  points : Z;
  contributor : string;
  contributor_name : option string;
  contributor_avatar_url : option string
}.

Record Entry := {
  username : string;
  name : option string;
  avatar_url : option string;
  role : option string;
  total_points : Z;
  activity_breakdown : list (ActivityType * Bucket);
  daily_activity : list DailyEntry;
  activities : list Activity
}.
End Derived.

(** The three accumulators of the [for (const a of acts)] loop. *)
Record Rebuilt := {
  breakdown : list (ActivityType * Bucket);
  daily : list (string * DailyEntry);
  total : Z
}.

Definition rebuildStep (acc : Rebuilt) (a : RawActivity) : Rebuilt :=
  let day := Js.beforeT (occured_at a) in
  let bd0 := Js.ensure ActivityType_eqb (type a) {| count := 0; points := 0 |}
               (breakdown acc) in
  let bd1 := Js.alter ActivityType_eqb
               (fun b => {| count := count b + 1; points := points b |})
               (type a) bd0 in
  let bd2 := Js.alter ActivityType_eqb
               (fun b => {| count := count b; points := points b + act_points a |})
               (type a) bd1 in
  let dl0 := Js.ensure String.eqb day
               {| date := day; day_count := 0; day_points := 0 |}
               (daily acc) in
  let dl1 := Js.alter String.eqb
               (fun d => {| date := date d;
                            day_count := day_count d + 1;
                            day_points := day_points d |})
               day dl0 in
  let dl2 := Js.alter String.eqb
               (fun d => {| date := date d;
                            day_count := day_count d;
                            day_points := day_points d + act_points a |})
               day dl1 in
  {| breakdown := bd2; daily := dl2; total := total acc + act_points a |}.

Definition rebuild (acts : list RawActivity) : Rebuilt :=
  fold_left rebuildStep acts {| breakdown := []; daily := []; total := 0 |}.

Definition toActivity (entry : UserEntry) (a : RawActivity) : Derived.Activity :=
  {| Derived.type := type a;
     Derived.title := title a;
     Derived.occured_at := occured_at a;
     Derived.link := link a;
     Derived.points := act_points a;
     Derived.contributor := username entry;
     Derived.contributor_name := name entry;
     Derived.contributor_avatar_url := avatar_url entry |}.

Section Derivation.
(** [new Date(s).getTime()], [None] for an invalid date (whose
    comparisons are all false). *)
Variable parseDate : string -> option Z.

(** [new Date(a.occured_at) >= cutoff] *)
Definition inRange (cutoff : Z) (a : RawActivity) : bool :=
  match parseDate (occured_at a) with
  | Some t => cutoff <=? t
  | None => false
  end.

(** The callback of [source.entries.map] in [derivePeriod]. *)
Definition deriveEntry (cutoff : Z) (entry : UserEntry) : option Derived.Entry :=
  let acts := filter (inRange cutoff) (raw_activities entry) in
  match acts with
  | [] => None
  | _ :: _ =>
      let r := rebuild acts in
      Some {| Derived.username := username entry;
              Derived.name := name entry;
              Derived.avatar_url := avatar_url entry;
              Derived.role := role entry;
              Derived.total_points := total r;
              Derived.activity_breakdown := breakdown r;
              Derived.daily_activity := Js.objectValues (daily r);
              Derived.activities := map (toActivity entry) acts |}
  end.

(** [entries] of the document [derivePeriod] writes, for the cutoff
    [daysAgo(days)] it computed. *)
Definition derivePeriod (cutoff : Z) (entries : list UserEntry)
  : list Derived.Entry :=
  Js.sort (fun a b => Derived.total_points b - Derived.total_points a)
    (Js.nonNull (map (deriveEntry cutoff) entries)).
End Derivation.

(** *** The event fetcher

    Dates are their time values, milliseconds since the epoch.  A search
    request is the URL's variable parts: the base query, the two dates of
    [created:from..to] and the page number ([per_page] is always 100). *)

(** [iso]: the UTC calendar day of a date, as the number of the day; it
    stands for the text [YYYY-MM-DD] of that day. *)
Definition iso (d : Z) : Z := d / 86400000.

Record Request := {
  rq_query : string;
  rq_from : Z;
  rq_to : Z;
  rq_page : Z
}.

(** What the script reads of a response: [res.ok], [res.status],
    [res.text()] and [res.json()]; [json] is [None] when the body does not
    parse, and else holds the optional [items]. *)
Record Response := {
  ok : bool;
  status : Z;
  text : string;
  json : option (option (list GitHubItem))
}.

(** [Error("GitHub API <status>: <text>")], and the rejection of
    [res.json()]. *)
Inductive Error :=
| GitHubApiError (status : Z) (text : string)
| JsonSyntaxError.

Inductive Event :=
| EvFetch (rq : Request) (res : Response)
| EvSleep (ms : Z).

Inductive Outcome (A : Type) :=
| Done (a : A)
| Thrown (e : Error)
| OutOfFuel.
Arguments Thrown {A} e.
Arguments OutOfFuel {A}.

Section Fetcher.
(** The world outside the script: the search endpoint, the passing of
    time and the clock. *)
Variable World : Type.
Variable respond : World -> Request -> Response * World.
Variable elapse : Z -> World -> World.
Variable clock : World -> Z.
(** [d.setDate(d.getDate() + n)], days of local time. *)
Variable addDays : Z -> Z -> Z.
Variable sanitizeTitle : option string -> option string.
Variable parseDate : string -> option Z.

Record State := { world : World; trace : list Event }.

Definition M (A : Type) : Type := State -> Outcome A * State.

Definition ret {A} (a : A) : M A := fun s => (Done a, s).

Definition bind {A B} (m : M A) (k : A -> M B) : M B :=
  fun s =>
    match m s with
    | (Done a, s') => k a s'
    | (Thrown e, s') => (Thrown e, s')
    | (OutOfFuel, s') => (OutOfFuel, s')
    end.

Definition throw {A} (e : Error) : M A := fun s => (Thrown e, s).

Definition outOfFuel {A} : M A := fun s => (OutOfFuel, s).

Local Notation "x <- m ;; k" := (bind m (fun x => k))
  (at level 61, m at next level, right associativity).

(** [fetch(url, ...)] *)
Definition fetch (rq : Request) : M Response :=
  fun s =>
    let (res, w) := respond (world s) rq in
    (Done res, {| world := w; trace := trace s ++ [EvFetch rq res] |}).

(** [sleep] *)
Definition sleep (ms : Z) : M unit :=
  fun s =>
    (Done tt, {| world := elapse ms (world s); trace := trace s ++ [EvSleep ms] |}).

Definition newDate : M Z := fun s => (Done (clock (world s)), s).

(** [ghSearch] *)
Definition ghSearch (rq : Request) : M (option (list GitHubItem)) :=
  res <- fetch rq ;;
  if negb (ok res) then throw (GitHubApiError (status res) (text res))
  else
    _ <- sleep 2500 ;;
    match json res with
    | Some items => ret items
    | None => throw JsonSyntaxError
    end.

(** [daysAgo] *)
Definition daysAgo (n : Z) : M Z :=
  d <- newDate ;; ret (addDays d (- n)).

(** The [while (true)] loop over the pages of one sub-range. *)
Fixpoint pages (fuel : nat) (baseQuery : string) (from to : Z) (page : Z)
    (all : list GitHubItem) : M (list GitHubItem) :=
  match fuel with
  | O => outOfFuel
  | S fuel' =>
      res <- ghSearch {| rq_query := baseQuery; rq_from := from;
                         rq_to := to; rq_page := page |} ;;
      match res with
      | None => ret all
      | Some items =>
          if Z.of_nat (List.length items) <? 100 then ret (all ++ items)
          else pages fuel' baseQuery from to (page + 1) (all ++ items)
      end
  end.

(** The [while (cursor < end)] loop of [searchByDateChunks]. *)
Fixpoint chunks (fuel pageFuel : nat) (baseQuery : string)
    (cursor end_ stepDays : Z) (all : list GitHubItem) : M (list GitHubItem) :=
  if cursor <? end_ then
    match fuel with
    | O => outOfFuel
    | S fuel' =>
        let from := iso cursor in
        let next := addDays cursor stepDays in
        let to := if end_ <? next then end_ else next in
        all' <- pages pageFuel baseQuery from (iso to) 1 all ;;
        chunks fuel' pageFuel baseQuery to end_ stepDays all'
    end
  else ret all.

(** [searchByDateChunks] *)
Definition searchByDateChunks (fuel pageFuel : nat) (baseQuery : string)
    (start end_ stepDays : Z) : M (list GitHubItem) :=
  chunks fuel pageFuel baseQuery start end_ stepDays [].

(** The sub-ranges [(cursor, to)] of the successive turns of the outer
    loop, which do not depend on what the searches return. *)
Fixpoint dateChunks (fuel : nat) (cursor end_ stepDays : Z)
  : option (list (Z * Z)) :=
  if cursor <? end_ then
    match fuel with
    | O => None
    | S fuel' =>
        let next := addDays cursor stepDays in
        let to := if end_ <? next then end_ else next in
        option_map (cons (cursor, to)) (dateChunks fuel' to end_ stepDays)
    end
  else Some [].

(** The documents written by one run. *)
Record Documents := {
  year : list UserEntry;
  week : list Derived.Entry;
  twoWeek : list Derived.Entry;
  threeWeek : list Derived.Entry;
  month : list Derived.Entry;
  twoMonth : list Derived.Entry
}.

Definition derive (source : list UserEntry) (days : Z) : M (list Derived.Entry) :=
  cutoff <- daysAgo days ;;
  ret (derivePeriod parseDate cutoff source).

(** [generateYear]; the three loops over the fetched items are
    [foldItem], the documents are returned in place of being written. *)
Definition generateYear (fuel pageFuel : nat) : M Documents :=
  since <- daysAgo 365 ;;
  now <- newDate ;;
  let users0 : list (string * UserEntry) := [] in
  opened <- searchByDateChunks fuel pageFuel "org:CircuitVerse+is:pr" since now 30 ;;
  let users1 :=
    fold_left (foldItem sanitizeTitle PR_opened created_at POINTS_PR_OPENED)
      opened users0 in
  merged <- searchByDateChunks fuel pageFuel "org:CircuitVerse+is:pr+is:merged"
              since now 30 ;;
  let users2 :=
    fold_left (foldItem sanitizeTitle PR_merged closed_at POINTS_PR_MERGED)
      merged users1 in
  issues <- searchByDateChunks fuel pageFuel "org:CircuitVerse+is:issue"
              since now 30 ;;
  let users3 :=
    fold_left (foldItem sanitizeTitle Issue_opened created_at POINTS_ISSUE_OPENED)
      issues users2 in
  let entries :=
    Js.sort (fun a b => total_points b - total_points a)
      (filter (fun u => 0 <? total_points u) (Js.values users3)) in
  w1 <- derive entries 7 ;;
  w2 <- derive entries 14 ;;
  w3 <- derive entries 21 ;;
  m1 <- derive entries 30 ;;
  m2 <- derive entries 60 ;;
  ret {| year := entries; week := w1; twoWeek := w2; threeWeek := w3;
         month := m1; twoMonth := m2 |}.
End Fetcher.

End Year.

(** ** The per-period generator, [src/scripts/generateLeaderboard.ts] *)

Module PerPeriod.

Record Bucket := { count : Z; points : Z }.

Record DailyEntry := { date : string; day_count : Z; day_points : Z }.

Record UserEntry := {
  username : string;
  name : option string;
  avatar_url : option string;
  role : option string;
  total_points : Z;
  activity_breakdown : list (string * Bucket);
  daily_activity : list DailyEntry
}.

(** A search result; the script reads it untyped, so either timestamp may
    be missing. *)
Record Item := {
  user : Year.GitHubUser;
  created_at : option string;
  closed_at : option string
}.

(** [isBotUser] *)
Definition isBotUser (u : Year.GitHubUser) : bool :=
  if Js.truthy (Year.user_type u) && negb (String.eqb (Year.typeOf u) "User")
  then true
  else if negb (Js.truthy (Year.login u)) then true
  else Js.endsWith (Year.loginOf u) "[bot]".

(** [ensureUser] *)
Definition ensureUser (users : list (string * UserEntry)) (u : Year.GitHubUser)
  : list (string * UserEntry) :=
  Js.ensure String.eqb (Year.loginOf u)
    {| username := Year.loginOf u;
       name := Year.user_name u;
       avatar_url := Year.user_avatar_url u;
       role := Some "Contributor";
       total_points := 0;
       activity_breakdown := [];
       daily_activity := [] |}
    users.

(** [addActivity] *)
Definition addActivity (entry : UserEntry) (ty : string)
    (when : option string) (pts : Z) : UserEntry :=
  match when with
  | None => entry
  | Some d =>
      if String.eqb d EmptyString then entry
      else
        let bd0 := Js.ensure String.eqb ty {| count := 0; points := 0 |}
                     (activity_breakdown entry) in
        let bd1 := Js.alter String.eqb
                     (fun b => {| count := count b + 1; points := points b |})
                     ty bd0 in
        let bd2 := Js.alter String.eqb
                     (fun b => {| count := count b; points := points b + pts |})
                     ty bd1 in
        let day := Js.beforeT d in
        {| username := username entry;
           name := name entry;
           avatar_url := avatar_url entry;
           role := role entry;
           total_points := total_points entry + pts;
           activity_breakdown := bd2;
           daily_activity :=
             daily_activity entry
               ++ [{| date := day; day_count := 1; day_points := pts |}] |}
  end.

(** One turn of a [for (const pr of ...)] loop of [generate], as far as the
    contributor map goes. *)
Definition foldItem (ty : string) (when : Item -> option string) (pts : Z)
    (users : list (string * UserEntry)) (it : Item)
  : list (string * UserEntry) :=
  if isBotUser (user it) then users
  else
    Js.alter String.eqb (fun entry => addActivity entry ty (when it) pts)
      (Year.loginOf (user it)) (ensureUser users (user it)).

(** [entries] of the document [generate] writes, from the items of its
    three searches. *)
Definition entries (prs merged issues : list Item) : list UserEntry :=
  let users1 := fold_left (foldItem "PR opened" created_at 2) prs [] in
  let users2 := fold_left (foldItem "PR merged" closed_at 5) merged users1 in
  let users3 := fold_left (foldItem "Issue opened" created_at 1) issues users2 in
  Js.sort (fun a b => total_points b - total_points a)
    (filter (fun u => 0 <? total_points u) (Js.values users3)).

End PerPeriod.

(** ** The freshness classifier *)

Module Freshness.

Inductive Classification := fresh | stale | expired.

(** Modelled from the spec: the cache controller of the API route that
    serves the leaderboard is not among the sources.  The spec gives three
    states per period, [fresh] (age < TTL), [stale] (TTL <= age <
    stale-ceiling) and [expired] (age >= stale-ceiling or no record exists);
    [age] is [None] when no cache record exists. *)
Definition classify (T S : Z) (age : option Z) : Classification :=
  match age with
  | None => expired
  | Some a =>
      if a <? T then fresh
      else if a <? S then stale
      else expired
  end.

End Freshness.

(** ** Notions the specification speaks of *)

(** Sum of a quantity over a list. *)
Definition sumOf {A : Type} (f : A -> Z) (l : list A) : Z :=
  fold_right (fun x acc => f x + acc) 0 l.

(** Descending order by a key. *)
Definition descendingBy {A : Type} (key : A -> Z) (l : list A) : Prop :=
  StronglySorted (fun a b => key b <= key a) l.

Module Invariant.

(** [total_points] agrees with the breakdown and with the activity log. *)
Definition yearEntry (e : Year.UserEntry) : Prop :=
  Year.total_points e
    = sumOf Year.points (Js.values (Year.activity_breakdown e))
  /\ sumOf Year.points (Js.values (Year.activity_breakdown e))
    = sumOf Year.act_points (Year.raw_activities e).

Definition derivedEntry (d : Year.Derived.Entry) : Prop :=
  Year.Derived.total_points d
    = sumOf Year.points (Js.values (Year.Derived.activity_breakdown d))
  /\ sumOf Year.points (Js.values (Year.Derived.activity_breakdown d))
    = sumOf Year.Derived.points (Year.Derived.activities d).

End Invariant.

Module Window.

(** The contributor has an activity at or after the cutoff. *)
Definition hasActivity (parseDate : string -> option Z) (cutoff : Z)
    (e : Year.UserEntry) : bool :=
  existsb (Year.inRange parseDate cutoff) (Year.raw_activities e).

(** A canonical entry with its aggregates blanked: identity and log only. *)
Definition logOnly (e : Year.UserEntry) : Year.UserEntry :=
  {| Year.username := Year.username e;
     Year.name := Year.name e;
     Year.avatar_url := Year.avatar_url e;
     Year.role := Year.role e;
     Year.total_points := 0;
     Year.activity_breakdown := [];
     Year.daily_activity := [];
     Year.raw_activities := Year.raw_activities e |}.

End Window.

Module Daily.

(** The activity falls on the calendar day [day]. *)
Definition onDay (day : string) (a : Year.RawActivity) : bool :=
  String.eqb (Js.beforeT (Year.occured_at a)) day.

(** One element per date, each holding the number and the points of the
    logged activities of its date, and every logged date present. *)
Definition consistent (e : Year.UserEntry) : Prop :=
  NoDup (map Year.date (Year.daily_activity e))
  /\ Forall
       (fun d =>
          Year.day_count d
            = Z.of_nat (List.length (filter (onDay (Year.date d)) (Year.raw_activities e)))
          /\ Year.day_points d
             = sumOf Year.act_points (filter (onDay (Year.date d)) (Year.raw_activities e)))
       (Year.daily_activity e)
  /\ Forall
       (fun a => In (Js.beforeT (Year.occured_at a)) (map Year.date (Year.daily_activity e)))
       (Year.raw_activities e).

End Daily.

Module Exclusion.

(** The actors the specification excludes: an account kind other than the
    human-user kind, a login ending in the bot suffix, or no login. *)
Definition asClaimed (u : Year.GitHubUser) : Prop :=
  (exists k, Year.user_type u = Some k /\ k <> "User")
  \/ (exists l, Year.login u = Some l /\ Js.endsWith l "[bot]" = true)
  \/ Year.login u = None.

(** The same with the account kind required to be a non-empty text. *)
Definition excluded (u : Year.GitHubUser) : Prop :=
  (exists k, Year.user_type u = Some k /\ k <> EmptyString /\ k <> "User")
  \/ (exists l, Year.login u = Some l /\ Js.endsWith l "[bot]" = true)
  \/ Year.login u = None.

End Exclusion.

Module Freshness_spec.

(** The three equivalences of the specification, for TTL [T], stale
    ceiling [S] and an artifact of age [age] ([None]: no cache record). *)
Definition asClaimed (T S : Z) (age : option Z) : Prop :=
  (Freshness.classify T S age = Freshness.fresh
     <-> exists a, age = Some a /\ a < T)
  /\ (Freshness.classify T S age = Freshness.stale
        <-> exists a, age = Some a /\ T <= a < S)
  /\ (Freshness.classify T S age = Freshness.expired
        <-> age = None \/ exists a, age = Some a /\ S <= a).

End Freshness_spec.

Module Pacing.

(** A sequence of calls that all succeeded, each followed by the delay. *)
Inductive paced : list Year.Event -> Prop :=
| paced_nil : paced []
| paced_call (rq : Year.Request) (res : Year.Response) (evs : list Year.Event) :
    Year.ok res = true ->
    paced evs ->
    paced (Year.EvFetch rq res :: Year.EvSleep 2500 :: evs).

(** The events of a run, by its outcome: paced calls, ended by a call with
    a non-success status, not followed by a delay, exactly when the run
    throws the HTTP error, which then carries that status and body. *)
Definition shaped {A : Type} (evs : list Year.Event) (o : Year.Outcome A) : Prop :=
  match o with
  | Year.Thrown (Year.GitHubApiError st tx) =>
      exists pre rq res,
        evs = pre ++ [Year.EvFetch rq res]
        /\ paced pre
        /\ Year.ok res = false
        /\ st = Year.status res
        /\ tx = Year.text res
  | _ => paced evs
  end.

(** A computation whose every run adds events of that shape. *)
Definition obeys {World A : Type} (m : Year.M World A) : Prop :=
  forall s, exists evs,
    Year.trace (snd (m s)) = Year.trace s ++ evs
    /\ shaped evs (fst (m s)).

(** Every call in the trace is directly followed by the 2.5 s delay. *)
Fixpoint delayAfterEveryCall (evs : list Year.Event) : bool :=
  match evs with
  | [] => true
  | Year.EvFetch _ _ :: rest =>
      match rest with
      | Year.EvSleep ms :: rest' => (ms =? 2500) && delayAfterEveryCall rest'
      | _ => false
      end
  | Year.EvSleep _ :: rest => delayAfterEveryCall rest
  end.

End Pacing.

Module Requests.

(** The requests of a trace, in the order they were sent. *)
Fixpoint sent (evs : list Year.Event) : list Year.Request :=
  match evs with
  | [] => []
  | Year.EvFetch rq _ :: rest => rq :: sent rest
  | Year.EvSleep _ :: rest => sent rest
  end.

(** The date ranges asked for, one per first page. *)
Definition ranges (rqs : list Year.Request) : list (Z * Z) :=
  map (fun rq => (Year.rq_from rq, Year.rq_to rq))
    (filter (fun rq => Year.rq_page rq =? 1) rqs).

(** The request asks for the events of the calendar day [day]: the search
    reads [created:from..to] as the days from [from] to [to], both
    included. *)
Definition covers (day : Z) (rq : Year.Request) : bool :=
  (Year.rq_from rq <=? day) && (day <=? Year.rq_to rq).

(** The same were the day [to] left out, as in a half-open range. *)
Definition coversBefore (day : Z) (rq : Year.Request) : bool :=
  (Year.rq_from rq <=? day) && (day <? Year.rq_to rq).

End Requests.

Module Chunks.

(** [t] lies in the half-open sub-range [c]. *)
Definition contains (t : Z) (c : Z * Z) : bool :=
  (fst c <=? t) && (t <? snd c).

(** The sub-ranges tile [lo, hi): each starts where the previous ended,
    none is empty, the first starts at [lo] and the last ends at [hi]. *)
Fixpoint tiles (lo hi : Z) (cs : list (Z * Z)) : Prop :=
  match cs with
  | [] => lo = hi
  | c :: rest => fst c = lo /\ lo < snd c /\ snd c <= hi /\ tiles (snd c) hi rest
  end.

End Chunks.

(** ** Sample data *)

Module Sample.

Definition human (l : string) : Year.GitHubUser :=
  {| Year.login := Some l; Year.user_name := None;
     Year.user_avatar_url := None; Year.user_type := Some "User" |}.

(** A login with an account kind that is the empty text. *)
Definition kindless (l : string) : Year.GitHubUser :=
  {| Year.login := Some l; Year.user_name := None;
     Year.user_avatar_url := None; Year.user_type := Some EmptyString |}.

Definition item (u : Year.GitHubUser) (at_ : string) : Year.GitHubItem :=
  {| Year.user := u; Year.created_at := at_; Year.closed_at := at_;
     Year.item_title := None; Year.html_url := None |}.

Definition untypedItem (u : Year.GitHubUser) (at_ : string) : PerPeriod.Item :=
  {| PerPeriod.user := u; PerPeriod.created_at := Some at_;
     PerPeriod.closed_at := Some at_ |}.

Definition keepTitle (t : option string) : option string := t.

(** A search endpoint that serves one full page and then answers 403; the
    world is the number of calls made so far. *)
Definition fullPage : Year.Response :=
  {| Year.ok := true; Year.status := 200; Year.text := "{...}";
     Year.json := Some (Some (repeat (item (human "alice") "2024-03-05T09:00:00Z") 100)) |}.

Definition rateLimited : Year.Response :=
  {| Year.ok := false; Year.status := 403; Year.text := "rate limit exceeded";
     Year.json := None |}.

Definition respond (calls : nat) (rq : Year.Request) : Year.Response * nat :=
  (match calls with O => fullPage | S _ => rateLimited end, S calls).

Definition elapse (ms : Z) (calls : nat) : nat := calls.

(** Days of 24 hours, as in a UTC environment. *)
Definition addDays (d n : Z) : Z := d + n * 86400000.

Definition start : Year.State nat := {| Year.world := O; Year.trace := [] |}.

Definition failing : Year.State nat := {| Year.world := 1%nat; Year.trace := [] |}.

Definition request : Year.Request :=
  {| Year.rq_query := "org:CircuitVerse+is:pr"; Year.rq_from := 19787;
     Year.rq_to := 19817; Year.rq_page := 1 |}.

End Sample.

(** ** The event stream of a run and what it holds of a contributor *)

Module Stream.

(** A fetched item with the kind, the timestamp and the points its loop of
    [generateYear] gives it. *)
Record Tagged := {
  tg_type : Year.ActivityType;
  tg_when : string;
  tg_points : Z;
  tg_item : Year.GitHubItem
}.

(** The items of the three searches in the order they are folded. *)
Definition tagged (opened merged issues : list Year.GitHubItem) : list Tagged :=
  map (fun it => {| tg_type := Year.PR_opened; tg_when := Year.created_at it;
                    tg_points := Year.POINTS_PR_OPENED; tg_item := it |}) opened
  ++ map (fun it => {| tg_type := Year.PR_merged; tg_when := Year.closed_at it;
                       tg_points := Year.POINTS_PR_MERGED; tg_item := it |}) merged
  ++ map (fun it => {| tg_type := Year.Issue_opened; tg_when := Year.created_at it;
                       tg_points := Year.POINTS_ISSUE_OPENED; tg_item := it |}) issues.

(** The item is not a bot's. *)
Definition human (t : Tagged) : bool :=
  negb (Year.isBotUser (Year.user (tg_item t))).

(** The item is the contributor's: not a bot's, and of that login. *)
Definition isFor (l : string) (t : Tagged) : bool :=
  human t && String.eqb (Year.loginOf (Year.user (tg_item t))) l.

(** The log line of an item. *)
Definition rawOf (sanitizeTitle : option string -> option string) (t : Tagged)
  : Year.RawActivity :=
  {| Year.type := tg_type t;
     Year.occured_at := tg_when t;
     Year.title := sanitizeTitle (Year.item_title (tg_item t));
     Year.link := Year.html_url (tg_item t);
     Year.act_points := tg_points t |}.

(** The contributor's items, in stream order, as log lines. *)
Definition logOf (sanitizeTitle : option string -> option string) (l : string)
    (ts : list Tagged) : list Year.RawActivity :=
  map (rawOf sanitizeTitle) (filter (isFor l) ts).

End Stream.

(** ** Aggregates as a function of a log *)

Module Buckets.

(** The aggregates of a canonical entry follow the rebuild loop of
    [derivePeriod] on the entry's log step by step: the array
    [daily_activity] holds the days in the order in which the loop adds them
    to its [daily] object. *)
Definition inStep (e : Year.UserEntry) : Prop :=
  Year.total_points e = Year.total (Year.rebuild (Year.raw_activities e))
  /\ Year.activity_breakdown e = Year.breakdown (Year.rebuild (Year.raw_activities e))
  /\ Year.daily_activity e
     = Js.values (Year.daily (Year.rebuild (Year.raw_activities e))).




(** One bucket per kind that occurs among the activities, holding the
    number and the points of the activities of its kind. *)
Definition breakdownCounts {A : Type} (kind : A -> Year.ActivityType) (pts : A -> Z)
    (bd : list (Year.ActivityType * Year.Bucket)) (acts : list A) : Prop :=
  NoDup (map fst bd)
  /\ Forall
       (fun tb =>
          let mine := filter (fun a => Year.ActivityType_eqb (kind a) (fst tb)) acts in
          mine <> []
          /\ Year.count (snd tb) = Z.of_nat (List.length mine)
          /\ Year.points (snd tb) = sumOf pts mine)
       bd
  /\ Forall (fun a => In (kind a) (map fst bd)) acts.


End Buckets.

(** ** More sample data *)

Module Sample2.

(** The time values of a few timestamps, as [new Date(s).getTime()] gives
    them; any other text is taken for an invalid date. *)
Definition parseDate (s : string) : option Z :=
  if String.eqb s "2024-03-04T08:00:00Z" then Some 1709539200000
  else if String.eqb s "2024-03-05T09:00:00Z" then Some 1709629200000
  else if String.eqb s "2024-03-12T10:00:00Z" then Some 1710237600000
  else if String.eqb s "2024-03-04" then Some 1709510400000
  else if String.eqb s "2024-03-05" then Some 1709596800000
  else if String.eqb s "2024-03-12" then Some 1710201600000
  else None.

Definition opened : list Year.GitHubItem :=
  [Sample.item (Sample.human "alice") "2024-03-04T08:00:00Z";
   Sample.item (Sample.human "bob") "2024-03-05T09:00:00Z";
   Sample.item (Sample.human "alice") "2024-03-12T10:00:00Z"].

Definition merged : list Year.GitHubItem :=
  [Sample.item (Sample.human "alice") "2024-03-12T10:00:00Z"].

Definition entries : list Year.UserEntry :=
  Year.yearEntries Sample.keepTitle opened merged [].

End Sample2.

Module Sample3.



End Sample3.

(** ** What a run received *)

Module Answers.

(** [res.items ?? []] of a response whose body parsed. *)
Definition itemsOf (res : Year.Response) : list Year.GitHubItem :=
  match Year.json res with
  | Some (Some items) => items
  | _ => []
  end.

(** The items of all responses of a trace, in the order received. *)
Fixpoint received (evs : list Year.Event) : list Year.GitHubItem :=
  match evs with
  | [] => []
  | Year.EvFetch _ res :: rest => itemsOf res ++ received rest
  | Year.EvSleep _ :: rest => received rest
  end.

(** The items of the responses to the requests of one base query. *)
Fixpoint receivedFor (q : string) (evs : list Year.Event) : list Year.GitHubItem :=
  match evs with
  | [] => []
  | Year.EvFetch rq res :: rest =>
      if String.eqb (Year.rq_query rq) q then itemsOf res ++ receivedFor q rest
      else receivedFor q rest
  | Year.EvSleep _ :: rest => receivedFor q rest
  end.

(** The responses of a trace, in the order received. *)
Fixpoint answers (evs : list Year.Event) : list Year.Response :=
  match evs with
  | [] => []
  | Year.EvFetch _ res :: rest => res :: answers rest
  | Year.EvSleep _ :: rest => answers rest
  end.

(** The response holds a full page: [items] is there and has 100 elements
    or more. *)
Definition fullPage (res : Year.Response) : bool :=
  match Year.json res with
  | Some (Some items) => 100 <=? Z.of_nat (List.length items)
  | _ => false
  end.

End Answers.

Module Sample4.

Definition one : Year.Response :=
  {| Year.ok := true; Year.status := 200; Year.text := "{...}";
     Year.json := Some (Some [Sample.item (Sample.human "alice") "2024-03-05T09:00:00Z"]) |}.

(** An endpoint that serves two full pages and then a page of one item. *)
Definition paged (w : unit) (rq : Year.Request) : Year.Response * unit :=
  (if Year.rq_page rq <? 3 then Sample.fullPage else one, w).

(** An endpoint that answers every request with one item. *)
Definition single (w : unit) (rq : Year.Request) : Year.Response * unit := (one, w).

Definition elapse (ms : Z) (w : unit) : unit := w.

Definition clock (w : unit) : Z := 1709596800005.

Definition start : Year.State unit := {| Year.world := tt; Year.trace := [] |}.

End Sample4.

(** ** [sanitizeTitle]

    The regular expressions of [sanitizeTitle] and [trim] work on UTF-16
    code units, and their white space is a set of code units that bytes do
    not show; so here a text is the list of its code units.  (The year
    generator above takes [sanitizeTitle] as a parameter.) *)

Module Title.

(** The code units [\s] matches and [trim] removes: white space and line
    terminators. *)
Definition isSpace (c : Z) : bool :=
  (c =? 9) || (c =? 10) || (c =? 11) || (c =? 12) || (c =? 13) || (c =? 32)
  || (c =? 160) || (c =? 5760) || ((8192 <=? c) && (c <=? 8202))
  || (c =? 8232) || (c =? 8233) || (c =? 8239) || (c =? 8287) || (c =? 12288)
  || (c =? 65279).

(** [.replace(/\[|\]/g, "")] *)
Definition removeBrackets (s : list Z) : list Z :=
  filter (fun c => negb ((c =? 91) || (c =? 93))) s.

(** [.replace(/:/g, " - ")] *)
Definition replaceColons (s : list Z) : list Z :=
  flat_map (fun c => if c =? 58 then [32; 45; 32] else [c]) s.

(** [.replace(/\s+/g, " ")]: every maximal run of white space becomes one
    space; [inRun] tells that the previous code unit was white space. *)
Fixpoint collapseFrom (inRun : bool) (s : list Z) : list Z :=
  match s with
  | [] => []
  | c :: rest =>
      if isSpace c then
        if inRun then collapseFrom true rest else 32 :: collapseFrom true rest
      else c :: collapseFrom false rest
  end.

Definition collapseSpaces (s : list Z) : list Z := collapseFrom false s.

Fixpoint trimStart (s : list Z) : list Z :=
  match s with
  | [] => []
  | c :: rest => if isSpace c then trimStart rest else s
  end.

Definition trimEnd (s : list Z) : list Z := rev (trimStart (rev s)).

(** [.trim()] *)
Definition trim (s : list Z) : list Z := trimEnd (trimStart s).

(** [sanitizeTitle]; [None] is [null] or [undefined]. *)
Definition sanitizeTitle (title : option (list Z)) : option (list Z) :=
  match title with
  | None => None
  | Some [] => None
  | Some s => Some (trim (collapseSpaces (replaceColons (removeBrackets s))))
  end.

(** No white space at the start. *)
Definition startsClean (s : list Z) : bool :=
  match s with
  | [] => true
  | c :: _ => negb (isSpace c)
  end.

(** Every white space is a plain space that no white space follows. *)
Fixpoint singleSpaced (s : list Z) : bool :=
  match s with
  | [] => true
  | c :: rest =>
      (if isSpace c then (c =? 32) && startsClean rest else true)
      && singleSpaced rest
  end.

(** The code units of "[Fix Commentator] : something". *)
Definition example : list Z :=
  [91; 70; 105; 120; 32; 67; 111; 109; 109; 101; 110; 116; 97; 116; 111; 114; 93;
   32; 58; 32; 115; 111; 109; 101; 116; 104; 105; 110; 103].

End Title.

(** ** Recent activities *)

Module Recent.

Record Item := {
  username : string;
  name : option string;
  title : option string;
  link : option string;
  avatar_url : option string;
  points : Z
}.

Record Group := { date : string; items : list Item }.

(** The object pushed for an activity of an entry. *)
Definition toItem (entry : Year.UserEntry) (act : Year.RawActivity) : Item :=
  {| username := Year.username entry;
     name := Year.name entry;
     title := Year.title act;
     link := Year.link act;
     avatar_url := Year.avatar_url entry;
     points := Year.act_points act |}.

Section Generate.
Variable parseDate : string -> option Z.
(** [a.localeCompare(b)], which depends on the locale of the run. *)
Variable localeCompare : string -> string -> Z.

(** [new Date(day) < cutoff]; false for an invalid date. *)
Definition tooOld (cutoff : Z) (day : string) : bool :=
  match parseDate day with
  | Some t => t <? cutoff
  | None => false
  end.

(** The body of the inner loop. *)
Definition addAct (cutoff : Z) (entry : Year.UserEntry)
    (groups : list (string * list Item)) (act : Year.RawActivity)
  : list (string * list Item) :=
  let day := Js.beforeT (Year.occured_at act) in
  if tooOld cutoff day then groups
  else
    Js.alter String.eqb (fun l => l ++ [toItem entry act]) day
      (Js.ensure String.eqb day [] groups).

(** The two loops. *)
Definition collect (cutoff : Z) (entries : list Year.UserEntry)
  : list (string * list Item) :=
  fold_left
    (fun groups entry => fold_left (addAct cutoff entry) (Year.raw_activities entry) groups)
    entries [].

(** [groups] of the document [generateRecentActivities] writes, for the
    cutoff [daysAgo(days)] it computed. *)
Definition generateRecentActivities (cutoff : Z) (entries : list Year.UserEntry)
  : list Group :=
  map (fun p => {| date := fst p; items := snd p |})
    (Js.sort (fun a b => localeCompare (fst b) (fst a)) (collect cutoff entries)).
End Generate.

(** Every activity of the source with the entry it belongs to, entries in
    document order and activities in log order. *)
Definition pairs (entries : list Year.UserEntry)
  : list (Year.UserEntry * Year.RawActivity) :=
  flat_map (fun e => map (pair e) (Year.raw_activities e)) entries.

Definition dayOf (p : Year.UserEntry * Year.RawActivity) : string :=
  Js.beforeT (Year.occured_at (snd p)).

(** The activity is listed: its day is not before the cutoff. *)
Definition kept (parseDate : string -> option Z) (cutoff : Z)
    (p : Year.UserEntry * Year.RawActivity) : bool :=
  negb (tooOld parseDate cutoff (dayOf p)).

End Recent.

(** ** The two generators side by side *)

Module Compare.

(** The activity names, the keys of [activity_breakdown] in both scripts. *)
Definition typeName (t : Year.ActivityType) : string :=
  match t with
  | Year.PR_opened => "PR opened"
  | Year.PR_merged => "PR merged"
  | Year.Issue_opened => "Issue opened"
  end.

(** A typed search result as the per-period script reads it. *)
Definition untyped (it : Year.GitHubItem) : PerPeriod.Item :=
  {| PerPeriod.user := Year.user it;
     PerPeriod.created_at := Some (Year.created_at it);
     PerPeriod.closed_at := Some (Year.closed_at it) |}.

Definition bucket (b : Year.Bucket) : PerPeriod.Bucket :=
  {| PerPeriod.count := Year.count b; PerPeriod.points := Year.points b |}.

(** A year entry in the shape of the per-period script, with one
    [daily_activity] element for each logged event. *)
Definition perEvent (e : Year.UserEntry) : PerPeriod.UserEntry :=
  {| PerPeriod.username := Year.username e;
     PerPeriod.name := Year.name e;
     PerPeriod.avatar_url := Year.avatar_url e;
     PerPeriod.role := Year.role e;
     PerPeriod.total_points := Year.total_points e;
     PerPeriod.activity_breakdown :=
       map (fun p => (typeName (fst p), bucket (snd p))) (Year.activity_breakdown e);
     PerPeriod.daily_activity :=
       map (fun a => {| PerPeriod.date := Js.beforeT (Year.occured_at a);
                        PerPeriod.day_count := 1;
                        PerPeriod.day_points := Year.act_points a |})
         (Year.raw_activities e) |}.

(** The actors whose events count: a login that is not empty and does
    not end in [[bot]], and an account kind that is absent, empty or
    [User]. *)
Definition admitted (u : Year.GitHubUser) : Prop :=
  exists l,
    Year.login u = Some l
    /\ l <> EmptyString
    /\ (forall p, l <> (p ++ "[bot]")%string)
    /\ (Year.user_type u = None
        \/ Year.user_type u = Some EmptyString
        \/ Year.user_type u = Some "User").

(** What holds of every entry the per-period script writes. *)
Definition consistent (e : PerPeriod.UserEntry) : Prop :=
  PerPeriod.total_points e
    = sumOf PerPeriod.points (Js.values (PerPeriod.activity_breakdown e))
  /\ PerPeriod.total_points e
     = sumOf PerPeriod.day_points (PerPeriod.daily_activity e)
  /\ sumOf PerPeriod.count (Js.values (PerPeriod.activity_breakdown e))
     = Z.of_nat (List.length (PerPeriod.daily_activity e))
  /\ Forall (fun d => PerPeriod.day_count d = 1) (PerPeriod.daily_activity e).

End Compare.

(** ** A run of the per-period generator

    [generate] and [run] of [src/scripts/generateLeaderboard.ts]: each
    period is fetched with three requests, the first page of each search
    only, and written before the next period is fetched. *)

Module Periods.

(** A search result as [generate] reads it; [id_text] is the text that
    [${pr.id}] gives in the slug. *)
Record Item := {
  base : PerPeriod.Item;
  id_text : string;
  title : option string;
  html_url : option string
}.

Record ActivityItem := {
  slug : string;
  type : string;
  act_title : option string;
  occured_at : option string;
  closed_at : option string;
  points : Z;
  link : option string;
  contributor : option string;
  contributor_name : option string;
  contributor_avatar_url : option string
}.

(** What differs between the three loops of [generate]: the search, the
    slug prefix, the breakdown key, the [type] of the listed activity, the
    timestamp read, the points, and whether the listed activity carries
    [closed_at] in place of [occured_at]. *)
Record Category := {
  cat_query : string;
  cat_slug : string;
  cat_key : string;
  cat_type : string;
  cat_when : PerPeriod.Item -> option string;
  cat_points : Z;
  cat_closed : bool
}.

Definition prsOpened : Category :=
  {| cat_query := "org:CircuitVerse+is:pr+created:>=";
     cat_slug := "pr-opened-";
     cat_key := "PR opened";
     cat_type := "PR opened";
     cat_when := PerPeriod.created_at;
     cat_points := 2;
     cat_closed := false |}.

Definition prsMerged : Category :=
  {| cat_query := "org:CircuitVerse+is:pr+is:merged+merged:>=";
     cat_slug := "pr-merged-";
     cat_key := "PR merged";
     cat_type := "PR Merged";
     cat_when := PerPeriod.closed_at;
     cat_points := 5;
     cat_closed := true |}.

Definition issuesOpened : Category :=
  {| cat_query := "org:CircuitVerse+is:issue+created:>=";
     cat_slug := "issue-opened-";
     cat_key := "Issue opened";
     cat_type := "Issue opened";
     cat_when := PerPeriod.created_at;
     cat_points := 1;
     cat_closed := false |}.

(** The object pushed to [activities]. *)
Definition toActivity (c : Category) (it : Item) : ActivityItem :=
  {| slug := cat_slug c ++ id_text it;
     type := cat_type c;
     act_title := title it;
     occured_at := if cat_closed c then None else PerPeriod.created_at (base it);
     closed_at := if cat_closed c then PerPeriod.closed_at (base it) else None;
     points := cat_points c;
     link := html_url it;
     contributor := Year.login (PerPeriod.user (base it));
     contributor_name := Year.login (PerPeriod.user (base it));
     contributor_avatar_url := Year.user_avatar_url (PerPeriod.user (base it)) |}.

(** One turn of a [for (const pr of ...)] loop: the contributor map and the
    list of activities after it. *)
Definition turn (c : Category)
    (st : list (string * PerPeriod.UserEntry) * list ActivityItem) (it : Item)
  : list (string * PerPeriod.UserEntry) * list ActivityItem :=
  let u := PerPeriod.user (base it) in
  if PerPeriod.isBotUser u then st
  else
    (Js.alter String.eqb
       (fun entry =>
          PerPeriod.addActivity entry (cat_key c) (cat_when c (base it)) (cat_points c))
       (Year.loginOf u) (PerPeriod.ensureUser (fst st) u),
     snd st ++ [toActivity c it]).

(** The document of a period, as far as it depends on the search results:
    [period], [entries] and [activities]. *)
Record Document := {
  period : string;
  entries : list PerPeriod.UserEntry;
  activities : list ActivityItem
}.

(** [entries] and [activities] of the document, from the contributor map
    and the list after the three loops. *)
Definition output (name : string)
    (st : list (string * PerPeriod.UserEntry) * list ActivityItem) : Document :=
  {| period := name;
     entries :=
       Js.sort (fun a b => PerPeriod.total_points b - PerPeriod.total_points a)
         (filter (fun u => 0 <? PerPeriod.total_points u) (Js.values (fst st)));
     activities := snd st |}.

(** The document as a function of the items of the three searches. *)
Definition document (name : string) (prs merged issues : list Item) : Document :=
  let st1 := fold_left (turn prsOpened) prs ([], []) in
  let st2 := fold_left (turn prsMerged) merged st1 in
  let st3 := fold_left (turn issuesOpened) issues st2 in
  output name st3.

(** The listed activity carries a timestamp. *)
Definition dated (a : ActivityItem) : bool :=
  Js.truthy (occured_at a) || Js.truthy (closed_at a).

(** The variable parts of a search URL: the query up to [>=] and the
    instant after it ([per_page] is always 100, no page is asked for). *)
Record Request := { rq_query : string; rq_since : Z }.

(** What the script reads of a response; [json] is [None] when the body
    does not parse, and else holds the optional [items]. *)
Record Response := {
  ok : bool;
  status : Z;
  text : string;
  json : option (option (list Item))
}.

(** [Error("GitHub API error <status>: <text>")], and the rejection of
    [res.json()]. *)
Inductive Error :=
| GitHubApiError (status : Z) (text : string)
| JsonSyntaxError.

Inductive Outcome (A : Type) :=
| Done (a : A)
| Thrown (e : Error).
Arguments Thrown {A} e.

Section Runner.
Variable World : Type.
Variable respond : World -> Request -> Response * World.
Variable clock : World -> Z.
(** [d.setDate(d.getDate() + n)], days of local time. *)
Variable addDays : Z -> Z -> Z.

(** The requests answered so far and the documents written so far, each in
    order. *)
Record State := {
  world : World;
  trace : list (Request * Response);
  written : list Document
}.

Definition M (A : Type) : Type := State -> Outcome A * State.

Definition ret {A} (a : A) : M A := fun s => (Done a, s).

Definition bind {A B} (m : M A) (k : A -> M B) : M B :=
  fun s =>
    match m s with
    | (Done a, s') => k a s'
    | (Thrown e, s') => (Thrown e, s')
    end.

Definition throw {A} (e : Error) : M A := fun s => (Thrown e, s).

Local Notation "x <- m ;; k" := (bind m (fun x => k))
  (at level 61, m at next level, right associativity).

(** [fetch(url, ...)] *)
Definition fetch (rq : Request) : M Response :=
  fun s =>
    let (res, w) := respond (world s) rq in
    (Done res, {| world := w; trace := trace s ++ [(rq, res)]; written := written s |}).

Definition newDate : M Z := fun s => (Done (clock (world s)), s).

(** [fs.writeFileSync(outPath, ...)] *)
Definition writeFile (d : Document) : M unit :=
  fun s =>
    (Done tt, {| world := world s; trace := trace s; written := written s ++ [d] |}).

(** [gh] *)
Definition gh (rq : Request) : M (option (list Item)) :=
  res <- fetch rq ;;
  if negb (ok res) then throw (GitHubApiError (status res) (text res))
  else
    match json res with
    | Some body => ret body
    | None => throw JsonSyntaxError
    end.

(** [dateISO]: the instant whose ISO text it returns. *)
Definition dateISO (daysAgo : Z) : M Z :=
  d <- newDate ;; ret (addDays d (- daysAgo)).

(** [prs.items ?? []] *)
Definition itemsOf (body : option (list Item)) : list Item :=
  match body with
  | Some items => items
  | None => []
  end.

(** [generate] *)
Definition generate (name : string) (days : Z) : M unit :=
  since <- dateISO days ;;
  let st0 : list (string * PerPeriod.UserEntry) * list ActivityItem := ([], []) in
  prs <- gh {| rq_query := cat_query prsOpened; rq_since := since |} ;;
  let st1 := fold_left (turn prsOpened) (itemsOf prs) st0 in
  merged <- gh {| rq_query := cat_query prsMerged; rq_since := since |} ;;
  let st2 := fold_left (turn prsMerged) (itemsOf merged) st1 in
  issues <- gh {| rq_query := cat_query issuesOpened; rq_since := since |} ;;
  let st3 := fold_left (turn issuesOpened) (itemsOf issues) st2 in
  writeFile (output name st3).

(** [run] *)
Definition run : M unit :=
  _ <- generate "week" 7 ;;
  _ <- generate "2week" 14 ;;
  _ <- generate "3week" 21 ;;
  _ <- generate "month" 30 ;;
  _ <- generate "2month" 60 ;;
  generate "year" 365.

(** [generate] for each period of a list in turn; [run] is the case of the
    six periods. *)
Fixpoint generateAll (ps : list (string * Z)) : M unit :=
  match ps with
  | [] => ret tt
  | [p] => generate (fst p) (snd p)
  | p :: rest => _ <- generate (fst p) (snd p) ;; generateAll rest
  end.
End Runner.

(** The periods in the order [run] generates them. *)
Definition periods : list (string * Z) :=
  [("week", 7); ("2week", 14); ("3week", 21); ("month", 30); ("2month", 60);
   ("year", 365)].

End Periods.

(** A search endpoint for the per-period generator that answers every
    request with the same two results, one of them a bot's. *)
Module Sample5.

Definition result (u : Year.GitHubUser) (id at_ : string) : Periods.Item :=
  {| Periods.base := Sample.untypedItem u at_;
     Periods.id_text := id;
     Periods.title := Some "Fix the simulator";
     Periods.html_url := None |}.

Definition bot : Year.GitHubUser :=
  {| Year.login := Some "dependabot[bot]"; Year.user_name := None;
     Year.user_avatar_url := None; Year.user_type := Some "Bot" |}.

Definition page : Periods.Response :=
  {| Periods.ok := true; Periods.status := 200; Periods.text := "{...}";
     Periods.json :=
       Some (Some [result (Sample.human "alice") "101" "2024-03-05T09:00:00Z";
                   result bot "102" "2024-03-05T10:00:00Z"]) |}.

Definition respond (w : unit) (rq : Periods.Request) : Periods.Response * unit :=
  (page, w).

Definition clock (w : unit) : Z := 1709596800005.

Definition start : Periods.State unit :=
  {| Periods.world := tt; Periods.trace := []; Periods.written := [] |}.

End Sample5.

(** ** A pull request on the boundary of two sub-ranges *)

Module Boundary.

(** The one pull request of the repository, opened by alice on 2023-04-05,
    which is day 19452. *)
Definition pr : Year.GitHubItem :=
  Sample.item (Sample.human "alice") "2023-04-05T12:00:00Z".

Definition prDay : Z := 19452.

(** A search endpoint over that repository: a request for pull requests
    whose [created:from..to] holds the day of the pull request is answered
    with it, on its first page; any other request with no item. *)
Definition respond (w : unit) (rq : Year.Request) : Year.Response * unit :=
  ({| Year.ok := true; Year.status := 200; Year.text := "{...}";
      Year.json :=
        Some (Some (if String.eqb (Year.rq_query rq) "org:CircuitVerse+is:pr"
                       && (Year.rq_page rq =? 1)
                       && Requests.covers prDay rq
                    then [pr] else [])) |},
   w).

Definition elapse (ms : Z) (w : unit) : unit := w.

(** The run starts at 2024-03-05T00:00:00.005Z. *)
Definition clock (w : unit) : Z := 1709596800005.

Definition start : Year.State unit := {| Year.world := tt; Year.trace := [] |}.

Definition request (from to : Z) : Year.Request :=
  {| Year.rq_query := "org:CircuitVerse+is:pr"; Year.rq_from := from;
     Year.rq_to := to; Year.rq_page := 1 |}.

End Boundary.

(** ** Timestamps that are a bare year *)

Module Sample6.

(** [new Date("2024")] is the first instant of 2024. *)
Definition parseDate (s : string) : option Z :=
  if String.eqb s "2024" then Some 1704067200000
  else if String.eqb s "2023" then Some 1672531200000
  else None.

Definition opened : list Year.GitHubItem :=
  [Sample.item (Sample.human "alice") "2024";
   Sample.item (Sample.human "alice") "2023"].

End Sample6.

(* ================================================================== *)
(** * Part II: properties *)
(* ================================================================== *)

(** ** Facts about the JavaScript library functions *)

Lemma endsWith_unfold (s suffix : string) :
  Js.endsWith s suffix
  = if String.eqb s suffix then true
    else match s with
         | EmptyString => false
         | String _ rest => Js.endsWith rest suffix
         end.
Proof. destruct s; reflexivity. Qed.

Lemma endsWith_spec (s suffix : string) :
  Js.endsWith s suffix = true <-> exists p, s = (p ++ suffix)%string.
Proof.
  split.
  - induction s as [|c s IH]; rewrite endsWith_unfold;
      destruct (String.eqb _ suffix) eqn:E; try discriminate.
    + apply String.eqb_eq in E. intros _. now exists EmptyString.
    + apply String.eqb_eq in E. intros _. now exists EmptyString.
    + intros H. destruct (IH H) as [p ->]. now exists (String c p).
  - intros [p ->]. induction p as [|c p IH]; rewrite endsWith_unfold.
    + cbn [String.append]. now rewrite String.eqb_refl.
    + cbn [String.append].
      destruct (String.eqb (String c (p ++ suffix)) suffix); [reflexivity|exact IH].
Qed.

Section DictFacts.
Variables K V : Type.
Variable eqb : K -> K -> bool.
Hypothesis eqb_refl : forall k, eqb k k = true.

Lemma get_app_fresh (k : K) (v0 : V) (o : list (K * V)) :
  Js.get eqb k o = None -> Js.get eqb k (o ++ [(k, v0)]) = Some v0.
Proof.
  induction o as [|[k' v] o IH]; simpl.
  - intros _. now rewrite eqb_refl.
  - destruct (eqb k k'); [discriminate | exact IH].
Qed.

Lemma ensure_cons_other (k k' : K) (v v0 : V) (o : list (K * V)) :
  eqb k k' = false ->
  Js.ensure eqb k v0 ((k', v) :: o) = (k', v) :: Js.ensure eqb k v0 o.
Proof.
  intros Hne. unfold Js.ensure. simpl. rewrite Hne.
  now destruct (Js.get eqb k o).
Qed.

Lemma ensure_cons_same (k k' : K) (v v0 : V) (o : list (K * V)) :
  eqb k k' = true -> Js.ensure eqb k v0 ((k', v) :: o) = (k', v) :: o.
Proof. intros He. unfold Js.ensure. simpl. now rewrite He. Qed.

Lemma Forall_values_ensure (P : V -> Prop) (k : K) (v0 : V) (o : list (K * V)) :
  P v0 -> Forall P (Js.values o) -> Forall P (Js.values (Js.ensure eqb k v0 o)).
Proof.
  intros H0 Ho. unfold Js.ensure. destruct (Js.get eqb k o); [exact Ho|].
  unfold Js.values in *. rewrite map_app. apply Forall_app. split; [exact Ho|].
  now constructor.
Qed.

Lemma Forall_values_alter (P : V -> Prop) (f : V -> V) (k : K) (o : list (K * V)) :
  (forall v, P v -> P (f v)) ->
  Forall P (Js.values o) -> Forall P (Js.values (Js.alter eqb f k o)).
Proof.
  intros Hf. unfold Js.values.
  induction o as [|[k' v] o IH]; simpl; intros Ho; [constructor|].
  inversion Ho as [|? ? Hv Hrest]; subst.
  destruct (eqb k k'); simpl; constructor; auto.
Qed.
End DictFacts.

Section SortFacts.
Variable A : Type.
Variable cmp : A -> A -> Z.

Lemma insert_perm (x : A) (l : list A) : Permutation (x :: l) (Js.insert cmp x l).
Proof.
  induction l as [|y l IH]; simpl; [reflexivity|].
  destruct (cmp x y <=? 0); [reflexivity|].
  rewrite perm_swap. now constructor.
Qed.

Lemma sort_perm (l : list A) : Permutation l (Js.sort cmp l).
Proof.
  induction l as [|x l IH]; simpl; [constructor|].
  rewrite <- insert_perm. now constructor.
Qed.

Lemma sort_In (x : A) (l : list A) : In x (Js.sort cmp l) <-> In x l.
Proof.
  split; apply Permutation_in; [symmetry|]; apply sort_perm.
Qed.
End SortFacts.

(** [Object.values] lists every value kept once, and in the order kept
    when no key is an array index. *)
Section OwnFacts.
Variable V : Type.





End OwnFacts.

Section SortByKey.
Variable A : Type.
Variable key : A -> Z.

Let cmp := fun a b : A => key b - key a.

Lemma insert_descending (x : A) (l : list A) :
  descendingBy key l -> descendingBy key (Js.insert cmp x l).
Proof.
  unfold descendingBy.
  induction l as [|y l IH]; simpl; intros Hs.
  - repeat constructor.
  - inversion Hs as [|? ? Hl Hy]; subst.
    destruct (cmp x y <=? 0) eqn:E; unfold cmp in E.
    + apply Z.leb_le in E. constructor; [exact Hs|].
      constructor; [lia|].
      eapply Forall_impl; [|exact Hy]. simpl. intros; lia.
    + apply Z.leb_gt in E. constructor; [auto|].
      apply Forall_forall. intros z Hz.
      apply (Permutation_in _ (Permutation_sym (insert_perm cmp x l))) in Hz.
      destruct Hz as [<-|Hz]; [lia|].
      rewrite Forall_forall in Hy. auto.
Qed.

Lemma sort_descending (l : list A) : descendingBy key (Js.sort cmp l).
Proof.
  induction l as [|x l IH]; simpl.
  - constructor.
  - now apply insert_descending.
Qed.
End SortByKey.

Section DictSums.
Variables K V : Type.
Variable eqb : K -> K -> bool.
Hypothesis eqb_refl : forall k, eqb k k = true.

Lemma alter_alter (f g : V -> V) (k : K) (o : list (K * V)) :
  Js.alter eqb g k (Js.alter eqb f k o) = Js.alter eqb (fun v => g (f v)) k o.
Proof.
  induction o as [|[k' v] o IH]; simpl; [reflexivity|].
  destruct (eqb k k') eqn:E; simpl; rewrite E; [reflexivity|].
  now rewrite IH.
Qed.

(** [o[k] ??= v0] followed by updates of [o[k]] that add [delta] to the
    measure [m] of the bucket adds [delta] to the sum over all buckets. *)
Lemma sum_ensure_alter (m : V -> Z) (h : V -> V) (delta : Z) (k : K) (v0 : V)
    (o : list (K * V)) :
  m v0 = 0 ->
  (forall v, m (h v) = m v + delta) ->
  sumOf m (Js.values (Js.alter eqb h k (Js.ensure eqb k v0 o)))
    = sumOf m (Js.values o) + delta.
Proof.
  intros H0 Hh. unfold sumOf, Js.values.
  induction o as [|[k' v] o IH].
  - unfold Js.ensure. simpl. rewrite eqb_refl. simpl. rewrite Hh, H0. lia.
  - destruct (eqb k k') eqn:E.
    + rewrite ensure_cons_same by exact E. simpl. rewrite E. simpl.
      rewrite Hh. lia.
    + rewrite ensure_cons_other by exact E. simpl. rewrite E. simpl.
      rewrite IH. lia.
Qed.
End DictSums.

Lemma sumOf_app {A : Type} (f : A -> Z) (l1 l2 : list A) :
  sumOf f (l1 ++ l2) = sumOf f l1 + sumOf f l2.
Proof. induction l1 as [|x l1 IH]; simpl; [reflexivity|]. rewrite IH. lia. Qed.

Lemma sumOf_map {A B : Type} (f : B -> Z) (g : A -> B) (l : list A) :
  sumOf f (map g l) = sumOf (fun x => f (g x)) l.
Proof. induction l as [|x l IH]; simpl; [reflexivity|]. now rewrite IH. Qed.

Lemma ActivityType_eqb_refl (t : Year.ActivityType) : Year.ActivityType_eqb t t = true.
Proof. now destruct t. Qed.

Lemma ActivityType_eqb_eq (a b : Year.ActivityType) :
  Year.ActivityType_eqb a b = true <-> a = b.
Proof. destruct a, b; simpl; split; congruence. Qed.

(** ** The aggregates agree with the activity log *)

Section TotalsAgree.
Variable sanitizeTitle : option string -> option string.
Variable parseDate : string -> option Z.

Lemma ensureUser_zero_entry (u : Year.GitHubUser) :
  Invariant.yearEntry
    {| Year.username := Year.loginOf u;
       Year.name := Year.user_name u;
       Year.avatar_url := Year.user_avatar_url u;
       Year.role := Some "Contributor";
       Year.total_points := 0;
       Year.activity_breakdown := [];
       Year.daily_activity := [];
       Year.raw_activities := [] |}.
Proof. split; reflexivity. Qed.

Lemma addActivity_invariant (e : Year.UserEntry) ty when pts meta :
  Invariant.yearEntry e ->
  Invariant.yearEntry (Year.addActivity sanitizeTitle e ty when pts meta).
Proof.
  intros [Ht Hb]. unfold Invariant.yearEntry, Year.addActivity. simpl.
  rewrite alter_alter.
  rewrite sum_ensure_alter with (delta := pts);
    [|apply ActivityType_eqb_refl|reflexivity|intros; simpl; lia].
  rewrite sumOf_app. simpl. lia.
Qed.

Lemma foldItem_invariant ty when pts users it :
  Forall Invariant.yearEntry (Js.values users) ->
  Forall Invariant.yearEntry
    (Js.values (Year.foldItem sanitizeTitle ty when pts users it)).
Proof.
  intros H. unfold Year.foldItem.
  destruct (Year.isBotUser (Year.user it)); [exact H|].
  apply Forall_values_alter; [intros; now apply addActivity_invariant|].
  apply Forall_values_ensure; [apply ensureUser_zero_entry | exact H].
Qed.

Lemma fold_foldItem_invariant ty when pts items users :
  Forall Invariant.yearEntry (Js.values users) ->
  Forall Invariant.yearEntry
    (Js.values (fold_left (Year.foldItem sanitizeTitle ty when pts) items users)).
Proof.
  revert users. induction items as [|it items IH]; simpl; intros users H.
  - exact H.
  - apply IH. now apply foldItem_invariant.
Qed.

Lemma yearEntries_invariant opened merged issues :
  Forall Invariant.yearEntry (Year.yearEntries sanitizeTitle opened merged issues).
Proof.
  unfold Year.yearEntries, Year.foldCategories.
  apply Forall_forall. intros e He.
  apply sort_In in He. apply filter_In in He. destruct He as [He _].
  revert e He. apply Forall_forall.
  do 3 apply fold_foldItem_invariant. constructor.
Qed.

(** The rebuild loop of [derivePeriod]. *)
Lemma rebuild_from acts acc :
  let r := fold_left Year.rebuildStep acts acc in
  Year.total r = Year.total acc + sumOf Year.act_points acts
  /\ sumOf Year.points (Js.values (Year.breakdown r))
     = sumOf Year.points (Js.values (Year.breakdown acc))
       + sumOf Year.act_points acts.
Proof.
  revert acc. induction acts as [|a acts IH]; intros acc; simpl.
  - lia.
  - destruct (IH (Year.rebuildStep acc a)) as [IH1 IH2].
    rewrite IH1, IH2. unfold Year.rebuildStep.
    cbn [Year.total Year.breakdown sumOf fold_right].
    rewrite alter_alter.
    rewrite sum_ensure_alter with (delta := Year.act_points a);
      [|apply ActivityType_eqb_refl|reflexivity|intros; simpl; lia].
    lia.
Qed.

Lemma rebuild_sums acts :
  Year.total (Year.rebuild acts) = sumOf Year.act_points acts
  /\ sumOf Year.points (Js.values (Year.breakdown (Year.rebuild acts)))
     = sumOf Year.act_points acts.
Proof.
  unfold Year.rebuild.
  destruct (rebuild_from acts {| Year.breakdown := []; Year.daily := []; Year.total := 0 |})
    as [H1 H2].
  simpl in *. lia.
Qed.

Lemma nonNull_In {A : Type} (x : A) (l : list (option A)) :
  In x (Js.nonNull l) <-> In (Some x) l.
Proof.
  induction l as [|[y|] l IH]; simpl.
  - tauto.
  - rewrite IH. split; intros [H|H]; auto; left; congruence.
  - rewrite IH. split; [auto|]. intros [H|H]; [discriminate|exact H].
Qed.

(** Every entry of a derived document is the image of a source entry. *)
Lemma derivePeriod_In cutoff entries d :
  In d (Year.derivePeriod parseDate cutoff entries) <->
  exists e, In e entries /\ Year.deriveEntry parseDate cutoff e = Some d.
Proof.
  unfold Year.derivePeriod. rewrite sort_In, nonNull_In, in_map_iff.
  split; intros [e He]; exists e; tauto.
Qed.

Lemma deriveEntry_invariant cutoff e d :
  Year.deriveEntry parseDate cutoff e = Some d -> Invariant.derivedEntry d.
Proof.
  unfold Year.deriveEntry.
  destruct (filter (Year.inRange parseDate cutoff) (Year.raw_activities e))
    as [|a acts] eqn:E; [discriminate|].
  intros [= <-]. unfold Invariant.derivedEntry. simpl.
  destruct (rebuild_sums (a :: acts)) as [H1 H2].
  rewrite H1, H2. split; [reflexivity|].
  change (Year.Derived.points (Year.toActivity e a)
          + sumOf Year.Derived.points (map (Year.toActivity e) acts))
    with (sumOf Year.Derived.points (map (Year.toActivity e) (a :: acts))).
  now rewrite sumOf_map.
Qed.
End TotalsAgree.

(** C1.  In the canonical year document and in every derived period
    document, each contributor entry's [total_points] equals the sum of the
    points of its [activity_breakdown] buckets, which equals the sum of the
    points of its activity log: [raw_activities] in the year document, and in
    a derived document the listed activities, which are the source entry's
    [raw_activities] filtered by the cutoff. *)
Theorem C1_total_points_agree_with_breakdown_and_log :
  forall (sanitizeTitle : option string -> option string)
         (parseDate : string -> option Z)
         (opened merged issues : list Year.GitHubItem) (cutoff : Z),
    let entries := Year.yearEntries sanitizeTitle opened merged issues in
    Forall Invariant.yearEntry entries
    /\ Forall
         (fun d =>
            Invariant.derivedEntry d
            /\ exists e,
                In e entries
                /\ Year.Derived.username d = Year.username e
                /\ Year.Derived.activities d
                   = map (Year.toActivity e)
                       (filter (Year.inRange parseDate cutoff) (Year.raw_activities e)))
         (Year.derivePeriod parseDate cutoff entries).
Proof.
  intros sanitizeTitle parseDate opened merged issues cutoff entries. split.
  - apply yearEntries_invariant.
  - apply Forall_forall. intros d Hd.
    apply derivePeriod_In in Hd. destruct Hd as [e [He Hd]].
    split; [eapply deriveEntry_invariant; exact Hd|].
    exists e. split; [exact He|].
    unfold Year.deriveEntry in Hd.
    destruct (filter (Year.inRange parseDate cutoff) (Year.raw_activities e));
      [discriminate|].
    injection Hd as <-. simpl. auto.
Qed.

(** The scenario of the specification: alice opens a pull request, it is
    merged, and a bot opens an issue. *)
Example scenario_alice_and_a_bot :
  map (fun e => (Year.username e, Year.total_points e, Year.activity_breakdown e))
    (Year.yearEntries Sample.keepTitle
       [Sample.item (Sample.human "alice") "2024-03-04T08:00:00Z"]
       [Sample.item (Sample.human "alice") "2024-03-05T09:00:00Z"]
       [Sample.item (Sample.human "bot[bot]") "2024-03-06T10:00:00Z"])
  = [("alice", 7,
      [(Year.PR_opened, {| Year.count := 1; Year.points := 2 |});
       (Year.PR_merged, {| Year.count := 1; Year.points := 5 |})])].
Proof. reflexivity. Qed.

(** ** Derived periods *)

Section DerivedPeriods.
Variable parseDate : string -> option Z.
Variable cutoff : Z.

Let acts (e : Year.UserEntry) : list Year.RawActivity :=
  filter (Year.inRange parseDate cutoff) (Year.raw_activities e).

Lemma filter_nil_existsb {A : Type} (p : A -> bool) (l : list A) :
  filter p l = [] <-> existsb p l = false.
Proof.
  induction l as [|x l IH]; simpl; [tauto|].
  destruct (p x); simpl; [split; discriminate | exact IH].
Qed.

Lemma deriveEntry_None (e : Year.UserEntry) :
  Year.deriveEntry parseDate cutoff e = None
  <-> Window.hasActivity parseDate cutoff e = false.
Proof.
  unfold Window.hasActivity. rewrite <- filter_nil_existsb.
  unfold Year.deriveEntry.
  destruct (filter (Year.inRange parseDate cutoff) (Year.raw_activities e));
    split; congruence.
Qed.

Lemma deriveEntry_Some (e : Year.UserEntry) (d : Year.Derived.Entry) :
  Year.deriveEntry parseDate cutoff e = Some d ->
  Window.hasActivity parseDate cutoff e = true
  /\ Year.Derived.username d = Year.username e
  /\ Year.Derived.total_points d = Year.total (Year.rebuild (acts e))
  /\ Year.Derived.activity_breakdown d = Year.breakdown (Year.rebuild (acts e))
  /\ Year.Derived.daily_activity d = Js.objectValues (Year.daily (Year.rebuild (acts e)))
  /\ Year.Derived.activities d = map (Year.toActivity e) (acts e).
Proof.
  intros H. split.
  - destruct (Window.hasActivity parseDate cutoff e) eqn:E; [reflexivity|].
    apply deriveEntry_None in E. congruence.
  - unfold Year.deriveEntry in H. fold (acts e) in H.
    destruct (acts e); [discriminate|]. injection H as <-. simpl. tauto.
Qed.

Lemma derived_usernames (entries : list Year.UserEntry) :
  map Year.Derived.username (Js.nonNull (map (Year.deriveEntry parseDate cutoff) entries))
  = map Year.username (filter (Window.hasActivity parseDate cutoff) entries).
Proof.
  induction entries as [|e entries IH]; simpl; [reflexivity|].
  destruct (Year.deriveEntry parseDate cutoff e) as [d|] eqn:E.
  - destruct (deriveEntry_Some _ E) as [-> [Hu _]]. simpl. now rewrite Hu, IH.
  - apply deriveEntry_None in E. now rewrite E.
Qed.

Lemma deriveEntry_logOnly (e : Year.UserEntry) :
  Year.deriveEntry parseDate cutoff (Window.logOnly e)
  = Year.deriveEntry parseDate cutoff e.
Proof. reflexivity. Qed.

Lemma hasActivity_witness (e : Year.UserEntry) :
  Window.hasActivity parseDate cutoff e = true ->
  exists a t, In a (Year.raw_activities e)
              /\ parseDate (Year.occured_at a) = Some t /\ cutoff <= t.
Proof.
  unfold Window.hasActivity. rewrite existsb_exists.
  intros [a [Ha Hr]]. unfold Year.inRange in Hr.
  destruct (parseDate (Year.occured_at a)) as [t|] eqn:E; [|discriminate].
  exists a, t. apply Z.leb_le in Hr. auto.
Qed.
End DerivedPeriods.

(** C3.  Deriving a period with cutoff [c]: the contributors of the derived
    document are exactly those of the source that have a raw activity at or
    after [c] (the others are absent); each of them has such an activity; each
    derived entry's [total_points], [activity_breakdown] and [daily_activity]
    are what the rebuild loop computes from the filtered list
    ([daily_activity] being [Object.values] of the loop's [daily] object), the
    total being the sum of the filtered points; the canonical aggregates are
    never read,
    the result is the same when they are blanked; and the entries are in
    descending order of the rebuilt [total_points]. *)
Theorem C3_derivePeriod_rebuilds_from_filtered_log :
  forall (parseDate : string -> option Z) (c : Z) (entries : list Year.UserEntry),
    let out := Year.derivePeriod parseDate c entries in
    let acts := fun e => filter (Year.inRange parseDate c) (Year.raw_activities e) in
    Permutation (map Year.Derived.username out)
      (map Year.username (filter (Window.hasActivity parseDate c) entries))
    /\ Forall
         (fun d =>
            exists e,
              In e entries
              /\ Year.Derived.username d = Year.username e
              /\ acts e <> []
              /\ (exists a t, In a (Year.raw_activities e)
                              /\ parseDate (Year.occured_at a) = Some t /\ c <= t)
              /\ Year.Derived.total_points d = sumOf Year.act_points (acts e)
              /\ Year.Derived.total_points d = Year.total (Year.rebuild (acts e))
              /\ Year.Derived.activity_breakdown d = Year.breakdown (Year.rebuild (acts e))
              /\ Year.Derived.daily_activity d
                 = Js.objectValues (Year.daily (Year.rebuild (acts e))))
         out
    /\ out = Year.derivePeriod parseDate c (map Window.logOnly entries)
    /\ descendingBy Year.Derived.total_points out.
Proof.
  intros parseDate c entries out acts. split; [|split; [|split]].
  - unfold out, Year.derivePeriod.
    rewrite <- derived_usernames.
    apply Permutation_map, Permutation_sym, sort_perm.
  - apply Forall_forall. intros d Hd.
    apply derivePeriod_In in Hd. destruct Hd as [e [He Hd]].
    destruct (deriveEntry_Some _ _ _ Hd) as (Hw & Hu & Ht & Hb & Hdl & _).
    exists e. split; [exact He|]. split; [exact Hu|]. split; [|split; [|split]].
    + intros Hnil. apply filter_nil_existsb in Hnil.
      unfold Window.hasActivity in Hw. congruence.
    + now apply hasActivity_witness.
    + rewrite Ht. apply rebuild_sums.
    + auto.
  - unfold out, Year.derivePeriod. rewrite map_map.
    do 2 f_equal.
  - apply sort_descending.
Qed.

(** ** One element per calendar date in the year generator *)

Section DailyActivity.
Variable sanitizeTitle : option string -> option string.

Lemma map_if_none {A : Type} (p : A -> bool) (f : A -> A) (l : list A) :
  (forall y, In y l -> p y = false) ->
  map (fun x => if p x then f x else x) l = l.
Proof.
  induction l as [|y l IH]; simpl; intros H; [reflexivity|].
  rewrite (H y) by now left. f_equal. apply IH. intros z Hz. apply H. now right.
Qed.

Lemma updateFirst_unique {A : Type} (key : A -> string) (day : string)
    (f : A -> A) (l : list A) :
  NoDup (map key l) ->
  Js.updateFirst (fun x => String.eqb (key x) day) f l
  = map (fun x => if String.eqb (key x) day then f x else x) l.
Proof.
  induction l as [|x l IH]; simpl; intros Hnd; [reflexivity|].
  inversion Hnd as [|? ? Hx Hl]; subst.
  destruct (String.eqb (key x) day) eqn:E.
  - f_equal. apply String.eqb_eq in E. subst day.
    symmetry. apply map_if_none. intros y Hy.
    apply String.eqb_neq. intros Heq. apply Hx. rewrite <- Heq. now apply in_map.
  - f_equal. now apply IH.
Qed.

Lemma addActivity_daily (e : Year.UserEntry) ty when pts meta :
  Daily.consistent e ->
  Daily.consistent (Year.addActivity sanitizeTitle e ty when pts meta).
Proof.
  intros (Hnd & Hcnt & Hcov).
  set (day := Js.beforeT when).
  set (e' := Year.addActivity sanitizeTitle e ty when pts meta).
  set (bump := fun d => {| Year.date := Year.date d;
                           Year.day_count := Year.day_count d + 1;
                           Year.day_points := Year.day_points d + pts |}).
  assert (Hdaily : Year.daily_activity e'
    = match find (fun d => String.eqb (Year.date d) day) (Year.daily_activity e) with
      | Some _ =>
          Js.updateFirst (fun d => String.eqb (Year.date d) day) bump
            (Year.daily_activity e)
      | None =>
          Year.daily_activity e
            ++ [{| Year.date := day; Year.day_count := 1; Year.day_points := pts |}]
      end) by reflexivity.
  assert (Hraw : exists a,
    Year.raw_activities e' = Year.raw_activities e ++ [a]
    /\ Year.occured_at a = when /\ Year.act_points a = pts).
  { eexists. split; [reflexivity|]. split; reflexivity. }
  destruct Hraw as (a & Hraw & Hwhen & Hpts).
  assert (Hnew : forall d,
    filter (Daily.onDay d) (Year.raw_activities e')
    = filter (Daily.onDay d) (Year.raw_activities e)
      ++ (if String.eqb day d then [a] else [])).
  { intros d. rewrite Hraw, filter_app. f_equal. simpl.
    unfold Daily.onDay. rewrite Hwhen. reflexivity. }
  clearbody e'. unfold Daily.consistent. rewrite Hdaily.
  destruct (find (fun d => String.eqb (Year.date d) day) (Year.daily_activity e))
    as [d0|] eqn:Efind.
  - (* the date already has its element *)
    apply find_some in Efind. destruct Efind as [Hin0 Heq0].
    rewrite (updateFirst_unique Year.date day _ _ Hnd).
    assert (Hdates :
      map Year.date
        (map (fun x => if String.eqb (Year.date x) day then bump x else x)
           (Year.daily_activity e))
      = map Year.date (Year.daily_activity e)).
    { rewrite map_map. apply map_ext. intros x.
      now destruct (String.eqb (Year.date x) day). }
    rewrite Hdates. split; [exact Hnd|]. split.
    + apply Forall_forall. intros d Hd. apply in_map_iff in Hd.
      destruct Hd as [x [<- Hx]].
      rewrite Forall_forall in Hcnt. destruct (Hcnt x Hx) as [Hc Hp].
      destruct (String.eqb (Year.date x) day) eqn:E;
        cbn [bump Year.date Year.day_count Year.day_points];
        rewrite !Hnew, String.eqb_sym, E.
      * rewrite length_app, sumOf_app. simpl. lia.
      * rewrite app_nil_r. auto.
    + rewrite Hraw. apply Forall_app. split.
      * exact Hcov.
      * constructor; [|constructor]. rewrite Hwhen. fold day.
        apply String.eqb_eq in Heq0. rewrite <- Heq0. now apply in_map.
  - (* first activity of the date *)
    assert (Hfresh : ~ In day (map Year.date (Year.daily_activity e))).
    { intros Hin. apply in_map_iff in Hin. destruct Hin as [x [Hx Hin]].
      apply (find_none _ _ Efind) in Hin. simpl in Hin.
      rewrite Hx, String.eqb_refl in Hin. discriminate. }
    assert (Hnone : filter (Daily.onDay day) (Year.raw_activities e) = []).
    { apply filter_nil_existsb. destruct (existsb _ _) eqn:E; [|reflexivity].
      apply existsb_exists in E. destruct E as [a0 [Ha Hon]].
      rewrite Forall_forall in Hcov. apply Hcov in Ha.
      unfold Daily.onDay in Hon. apply String.eqb_eq in Hon. congruence. }
    rewrite map_app. cbn [map Year.date]. split; [|split].
    + apply Permutation_NoDup with (l := day :: map Year.date (Year.daily_activity e)).
      * apply Permutation_cons_append.
      * now constructor.
    + apply Forall_app. split.
      * apply Forall_forall. intros d Hd.
        rewrite Forall_forall in Hcnt. destruct (Hcnt d Hd) as [Hc Hp].
        rewrite !Hnew.
        destruct (String.eqb day (Year.date d)) eqn:E.
        -- apply String.eqb_eq in E. exfalso. apply Hfresh. rewrite E.
           now apply in_map.
        -- rewrite app_nil_r. auto.
      * constructor; [|constructor]. cbn [Year.date Year.day_count Year.day_points].
        rewrite !Hnew, Hnone, String.eqb_refl. simpl. lia.
    + rewrite Hraw. apply Forall_app. split.
      * eapply Forall_impl; [|exact Hcov]. intros a0 Ha. simpl in Ha.
        apply in_or_app. now left.
      * constructor; [|constructor]. rewrite Hwhen. fold day.
        apply in_or_app. right. now left.
Qed.

Lemma fold_foldItem_daily ty when pts items users :
  Forall Daily.consistent (Js.values users) ->
  Forall Daily.consistent
    (Js.values (fold_left (Year.foldItem sanitizeTitle ty when pts) items users)).
Proof.
  revert users. induction items as [|it items IH]; simpl; intros users H.
  - exact H.
  - apply IH. unfold Year.foldItem.
    destruct (Year.isBotUser (Year.user it)); [exact H|].
    apply Forall_values_alter; [intros; now apply addActivity_daily|].
    apply Forall_values_ensure; [|exact H].
    repeat split; simpl; constructor.
Qed.

(** In the year document every contributor has at most one
    [daily_activity] element per calendar date, and the element of a date
    holds the count and the points of all the contributor's activities of
    that date. *)
Lemma yearEntries_daily opened merged issues :
  Forall Daily.consistent (Year.yearEntries sanitizeTitle opened merged issues).
Proof.
  unfold Year.yearEntries, Year.foldCategories.
  apply Forall_forall. intros e He.
  apply sort_In in He. apply filter_In in He. destruct He as [He _].
  revert e He. apply Forall_forall.
  do 3 apply fold_foldItem_daily. constructor.
Qed.
End DailyActivity.

(** ** The per-period generator *)

(** C4.  The claim: every aggregated contributor entry has at most one
    [daily_activity] element per calendar date, same-day events being added
    into it.  The per-period generator breaks it: two pull requests opened by
    one contributor on 2024-03-05 give two elements dated 2024-03-05, each
    with count 1, where the year generator gives one with count 2
    ([yearEntries_daily]). *)
Theorem C4_perPeriod_repeats_a_date :
  let prs := [Sample.untypedItem (Sample.human "alice") "2024-03-05T09:00:00Z";
              Sample.untypedItem (Sample.human "alice") "2024-03-05T17:30:00Z"] in
  exists e,
    PerPeriod.entries prs [] [] = [e]
    /\ PerPeriod.daily_activity e
       = [{| PerPeriod.date := "2024-03-05"; PerPeriod.day_count := 1;
             PerPeriod.day_points := 2 |};
          {| PerPeriod.date := "2024-03-05"; PerPeriod.day_count := 1;
             PerPeriod.day_points := 2 |}]
    /\ ~ NoDup (map PerPeriod.date (PerPeriod.daily_activity e)).
Proof.
  eexists. split; [reflexivity|]. split; [reflexivity|].
  simpl. intros H. inversion H as [|? ? Hin _]; subst. apply Hin. now left.
Qed.

(** The same two events in the year generator. *)
Example year_same_day_events_share_an_element :
  map Year.daily_activity
    (Year.yearEntries Sample.keepTitle
       [Sample.item (Sample.human "alice") "2024-03-05T09:00:00Z";
        Sample.item (Sample.human "alice") "2024-03-05T17:30:00Z"] [] [])
  = [[{| Year.date := "2024-03-05"; Year.day_count := 2; Year.day_points := 4 |}]].
Proof. reflexivity. Qed.

(** C10.  In the per-period generator, [addActivity] called with an
    undefined timestamp returns without touching the entry: [total_points],
    [activity_breakdown] and [daily_activity] keep their values, and nothing is
    raised.  (The empty text, falsy as well, is treated alike.) *)
Theorem C10_addActivity_without_timestamp_changes_nothing :
  forall (entry : PerPeriod.UserEntry) (ty : string) (pts : Z),
    PerPeriod.addActivity entry ty None pts = entry
    /\ PerPeriod.addActivity entry ty (Some EmptyString) pts = entry.
Proof. intros entry ty pts. split; reflexivity. Qed.

(** ** Excluded actors *)

Section ExcludedActors.
Variable sanitizeTitle : option string -> option string.

Lemma excluded_isBotUser (u : Year.GitHubUser) :
  Exclusion.excluded u -> Year.isBotUser u = true.
Proof.
  unfold Year.isBotUser, Year.loginOf, Year.typeOf, Js.truthy.
  intros [(k & Hk & Hne & Hnu) | [(l & Hl & Hbot) | Hnone]].
  - rewrite Hk. destruct (Year.login u) as [l|]; [|reflexivity].
    destruct (String.eqb l EmptyString); [reflexivity|]. simpl.
    apply String.eqb_neq in Hne, Hnu. now rewrite Hne, Hnu.
  - rewrite Hl, Hbot. destruct (negb (negb (String.eqb l EmptyString))); [reflexivity|].
    now destruct (_ && _).
  - now rewrite Hnone.
Qed.

Lemma fold_skips_bot ty when pts before it after users :
  Year.isBotUser (Year.user it) = true ->
  fold_left (Year.foldItem sanitizeTitle ty when pts) (before ++ it :: after) users
  = fold_left (Year.foldItem sanitizeTitle ty when pts) (before ++ after) users.
Proof.
  intros Hbot. rewrite !fold_left_app. simpl.
  unfold Year.foldItem at 2. now rewrite Hbot.
Qed.
End ExcludedActors.

(** C5, as the code has it.  An event whose actor has a non-empty account
    kind other than [User], or a login ending in [[bot]], or no login, is
    skipped by [isBotUser] without an error, and leaves no trace: whichever
    category it was fetched in and wherever it stood among the results, the
    year document, and so every period derived from it, is the one obtained
    without the event. *)
Theorem C5_excluded_events_leave_no_trace :
  forall (sanitizeTitle : option string -> option string)
         (parseDate : string -> option Z)
         (it : Year.GitHubItem),
    Exclusion.excluded (Year.user it) ->
    Year.isBotUser (Year.user it) = true
    /\ forall (before after xs ys : list Year.GitHubItem),
         Year.yearEntries sanitizeTitle (before ++ it :: after) xs ys
           = Year.yearEntries sanitizeTitle (before ++ after) xs ys
         /\ Year.yearEntries sanitizeTitle xs (before ++ it :: after) ys
            = Year.yearEntries sanitizeTitle xs (before ++ after) ys
         /\ Year.yearEntries sanitizeTitle xs ys (before ++ it :: after)
            = Year.yearEntries sanitizeTitle xs ys (before ++ after)
         /\ forall cutoff,
              Year.derivePeriod parseDate cutoff
                (Year.yearEntries sanitizeTitle (before ++ it :: after) xs ys)
              = Year.derivePeriod parseDate cutoff
                  (Year.yearEntries sanitizeTitle (before ++ after) xs ys).
Proof.
  intros sanitizeTitle parseDate it Hex.
  pose proof (excluded_isBotUser Hex) as Hbot.
  split; [exact Hbot|]. intros before after xs ys.
  unfold Year.yearEntries, Year.foldCategories.
  rewrite !(fold_skips_bot sanitizeTitle _ _ _ before it after _ Hbot).
  repeat split.
Qed.

(** A bot's issue among a contributor's events. *)
Lemma C5_witness :
  Exclusion.excluded (Year.user (Sample.item (Sample.human "dependabot[bot]") "2024-03-05T09:00:00Z"))
  /\ Year.yearEntries Sample.keepTitle
       ([Sample.item (Sample.human "alice") "2024-03-04T08:00:00Z"]
          ++ Sample.item (Sample.human "dependabot[bot]") "2024-03-05T09:00:00Z" :: [])
       [] []
     = Year.yearEntries Sample.keepTitle
         ([Sample.item (Sample.human "alice") "2024-03-04T08:00:00Z"] ++ []) [] [].
Proof.
  assert (H : Exclusion.excluded
                (Year.user (Sample.item (Sample.human "dependabot[bot]")
                              "2024-03-05T09:00:00Z"))).
  { right. left. exists "dependabot[bot]". split; reflexivity. }
  split; [exact H|].
  exact (proj1 (proj2 (@C5_excluded_events_leave_no_trace Sample.keepTitle
                         (fun _ => None) _ H) _ _ _ _)).
Defined.

(** The claim as worded fails for an account kind that is the empty text:
    [user.type && ...] takes it for absent, and the event is counted. *)
Lemma C5_counterexample_empty_account_kind :
  let it := Sample.item (Sample.kindless "alice") "2024-03-05T09:00:00Z" in
  Exclusion.asClaimed (Year.user it)
  /\ Year.isBotUser (Year.user it) = false
  /\ map (fun e => (Year.username e, Year.total_points e))
       (Year.yearEntries Sample.keepTitle [it] [] [])
     = [("alice", 2)]
  /\ Year.yearEntries Sample.keepTitle [it] [] []
     <> Year.yearEntries Sample.keepTitle [] [] [].
Proof.
  split; [|split; [|split]].
  - left. exists EmptyString. split; [reflexivity|discriminate].
  - reflexivity.
  - reflexivity.
  - discriminate.
Qed.

(** An actor with no account kind at all and an ordinary login is counted
    as well. *)
Example absent_account_kind_is_counted :
  let u := {| Year.login := Some "alice"; Year.user_name := None;
              Year.user_avatar_url := None; Year.user_type := None |} in
  Year.isBotUser u = false
  /\ map (fun e => (Year.username e, Year.total_points e))
       (Year.yearEntries Sample.keepTitle
          [Sample.item u "2024-03-05T09:00:00Z"] [] [])
     = [("alice", 2)].
Proof. split; reflexivity. Qed.

(** ** Freshness *)

(** C6.  For a TTL [T] and a stale ceiling [S] at or above it, as the two
    terms are meant (every configuration the documentation gives has the
    ceiling above the TTL), an artifact of age [a] is fresh iff [a < T],
    stale iff [T <= a < S], and expired iff [a >= S] or there is no cache
    record; the three cases are exhaustive and exclude one another. *)
Theorem C6_freshness_classification :
  forall (T S : Z) (age : option Z),
    T <= S ->
    Freshness_spec.asClaimed T S age
    /\ (forall a, a < T \/ T <= a < S \/ S <= a)
    /\ (forall a, ~ (a < T /\ T <= a < S) /\ ~ (a < T /\ S <= a)
                  /\ ~ (T <= a < S /\ S <= a)).
Proof.
  intros T S age HTS. split; [|split; intros; lia].
  unfold Freshness_spec.asClaimed, Freshness.classify.
  destruct age as [a|].
  - assert (Hsome : forall P : Z -> Prop, (exists a', Some a = Some a' /\ P a') <-> P a).
    { intros P. split; [intros [a' [[= <-] H]]; exact H | intros H; exists a; auto]. }
    assert (Hexp : forall P : Prop, (Some a = None \/ P) <-> P).
    { intros P. split; [intros [H|H]; [discriminate|exact H] | auto]. }
    rewrite Hexp, !Hsome.
    destruct (a <? T) eqn:E1; [apply Z.ltb_lt in E1 | apply Z.ltb_ge in E1].
    + split; [|split]; split; intros H0;
        try discriminate H0; try reflexivity; lia.
    + destruct (a <? S) eqn:E2; [apply Z.ltb_lt in E2 | apply Z.ltb_ge in E2];
        (split; [|split]); split; intros H0;
        try discriminate H0; try reflexivity; lia.
  - split; [|split]; split; intros H; try discriminate H.
    + destruct H as [a [H _]]. discriminate H.
    + destruct H as [a [H _]]. discriminate H.
    + now left.
    + reflexivity.
Qed.

Lemma C6_witness :
  3600 <= 86400 /\ Freshness_spec.asClaimed 3600 86400 (Some 7200).
Proof.
  split; [lia|].
  exact (proj1 (@C6_freshness_classification 3600 86400 (Some 7200) ltac:(lia))).
Defined.

(** ** The event fetcher *)

Section FetcherFacts.
Variable World : Type.
Variable respond : World -> Year.Request -> Year.Response * World.
Variable elapse : Z -> World -> World.
Variable clock : World -> Z.
Variable addDays : Z -> Z -> Z.
Variable sanitizeTitle : option string -> option string.
Variable parseDate : string -> option Z.

Lemma paced_app (evs1 evs2 : list Year.Event) :
  Pacing.paced evs1 -> Pacing.paced evs2 -> Pacing.paced (evs1 ++ evs2).
Proof.
  induction 1 as [|rq res evs Hok _ IH]; intros H2; simpl; [exact H2|].
  constructor; auto.
Qed.

Lemma paced_calls_succeed (evs : list Year.Event) rq res :
  Pacing.paced evs -> In (Year.EvFetch rq res) evs -> Year.ok res = true.
Proof.
  induction 1 as [|rq' res' evs Hok _ IH]; simpl; [tauto|].
  intros [H|[H|H]]; [congruence | discriminate | auto].
Qed.

Lemma paced_delayed (evs : list Year.Event) :
  Pacing.paced evs -> Pacing.delayAfterEveryCall evs = true.
Proof. induction 1; simpl; auto. Qed.

Lemma obeys_ret {A : Type} (a : A) : Pacing.obeys (@Year.ret World A a).
Proof. intros s. exists []. simpl. rewrite app_nil_r. split; [reflexivity|constructor]. Qed.

Lemma obeys_outOfFuel {A : Type} : Pacing.obeys (@Year.outOfFuel World A).
Proof. intros s. exists []. simpl. rewrite app_nil_r. split; [reflexivity|constructor]. Qed.

Lemma obeys_newDate : Pacing.obeys (Year.newDate clock).
Proof. intros s. exists []. simpl. rewrite app_nil_r. split; [reflexivity|constructor]. Qed.

Lemma obeys_bind {A B : Type} (m : Year.M World A) (k : A -> Year.M World B) :
  Pacing.obeys m -> (forall a, Pacing.obeys (k a)) -> Pacing.obeys (Year.bind m k).
Proof.
  intros Hm Hk s. unfold Year.bind.
  destruct (Hm s) as (evs1 & Ht1 & Hs1).
  destruct (m s) as [[a|e|] s1]; simpl in *.
  - destruct (Hk a s1) as (evs2 & Ht2 & Hs2).
    exists (evs1 ++ evs2). rewrite Ht2, Ht1, app_assoc. split; [reflexivity|].
    destruct (fst (k a s1)) as [b|[st tx|]|]; simpl in *.
    + now apply paced_app.
    + destruct Hs2 as (pre & rq & res & -> & Hp & Hrest).
      exists (evs1 ++ pre), rq, res. rewrite app_assoc.
      split; [reflexivity|]. split; [now apply paced_app | exact Hrest].
    + now apply paced_app.
    + now apply paced_app.
  - exists evs1. split; [exact Ht1|]. exact Hs1.
  - exists evs1. split; [exact Ht1|]. exact Hs1.
Qed.

Lemma obeys_ghSearch (rq : Year.Request) : Pacing.obeys (Year.ghSearch respond elapse rq).
Proof.
  intros s. unfold Year.ghSearch, Year.bind, Year.fetch.
  destruct (respond (Year.world s) rq) as [res w] eqn:Ef.
  destruct (Year.ok res) eqn:Hok; simpl.
  - exists [Year.EvFetch rq res; Year.EvSleep 2500].
    destruct (Year.json res) as [items|]; simpl; rewrite <- app_assoc;
      (split; [reflexivity|]); repeat constructor; exact Hok.
  - exists [Year.EvFetch rq res]. split; [reflexivity|].
    exists [], rq, res. repeat split; [constructor | exact Hok].
Qed.

Lemma obeys_pages fuel baseQuery from to page all :
  Pacing.obeys (Year.pages respond elapse fuel baseQuery from to page all).
Proof.
  revert page all. induction fuel as [|fuel IH]; intros page all; simpl.
  - apply obeys_outOfFuel.
  - apply obeys_bind; [apply obeys_ghSearch|].
    intros [items|]; [|apply obeys_ret].
    destruct (Z.of_nat (List.length items) <? 100); [apply obeys_ret | apply IH].
Qed.

Lemma obeys_chunks fuel pageFuel baseQuery cursor end_ stepDays all :
  Pacing.obeys
    (Year.chunks respond elapse addDays fuel pageFuel baseQuery cursor end_ stepDays all).
Proof.
  revert cursor all. induction fuel as [|fuel IH]; intros cursor all; simpl;
    destruct (cursor <? end_); try apply obeys_ret; try apply obeys_outOfFuel.
  apply obeys_bind; [apply obeys_pages|]. intros all'. apply IH.
Qed.

Lemma obeys_searchByDateChunks fuel pageFuel baseQuery start end_ stepDays :
  Pacing.obeys
    (Year.searchByDateChunks respond elapse addDays fuel pageFuel baseQuery start end_ stepDays).
Proof. apply obeys_chunks. Qed.

Lemma obeys_daysAgo n : Pacing.obeys (Year.daysAgo clock addDays n).
Proof. apply obeys_bind; [apply obeys_newDate | intros; apply obeys_ret]. Qed.

Lemma obeys_generateYear fuel pageFuel :
  Pacing.obeys
    (Year.generateYear respond elapse clock addDays sanitizeTitle parseDate fuel pageFuel).
Proof.
  unfold Year.generateYear, Year.derive.
  repeat (first [ apply obeys_ret
                | apply obeys_daysAgo
                | apply obeys_newDate
                | apply obeys_searchByDateChunks
                | apply obeys_bind; [|intros ?] ]).
Qed.

(** A run that met a non-success status ends in the error made of it. *)
Lemma shaped_failure {A : Type} (evs : list Year.Event) (o : Year.Outcome A) rq res :
  Pacing.shaped evs o ->
  In (Year.EvFetch rq res) evs ->
  Year.ok res = false ->
  o = Year.Thrown (Year.GitHubApiError (Year.status res) (Year.text res))
  /\ exists pre, evs = pre ++ [Year.EvFetch rq res].
Proof.
  intros Hs Hin Hok.
  assert (Hnp : ~ Pacing.paced evs).
  { intros Hp. pose proof (paced_calls_succeed _ _ Hp Hin). congruence. }
  destruct o as [a|[st tx|]|]; simpl in Hs; try contradiction.
  destruct Hs as (pre & rq' & res' & -> & Hp & Hok' & -> & ->).
  apply in_app_or in Hin. destruct Hin as [Hin|[Heq|[]]].
  - pose proof (paced_calls_succeed _ _ Hp Hin). congruence.
  - injection Heq as -> ->. split; [reflexivity|]. now exists pre.
Qed.
End FetcherFacts.

(** C9.  For an empty or inverted range, [start >= end],
    [searchByDateChunks] returns the empty list and leaves the world and the
    trace as they were: no search request is issued. *)
Theorem C9_empty_range_issues_no_request :
  forall (World : Type)
         (respond : World -> Year.Request -> Year.Response * World)
         (elapse : Z -> World -> World) (addDays : Z -> Z -> Z)
         (fuel pageFuel : nat) (baseQuery : string) (start end_ stepDays : Z)
         (s : Year.State World),
    end_ <= start ->
    Year.searchByDateChunks respond elapse addDays fuel pageFuel baseQuery
      start end_ stepDays s
    = (Year.Done [], s).
Proof.
  intros World respond elapse addDays fuel pageFuel baseQuery start end_ stepDays s H.
  unfold Year.searchByDateChunks.
  assert (E : (start <? end_) = false) by (apply Z.ltb_ge; exact H).
  destruct fuel; simpl; rewrite E; reflexivity.
Qed.

Lemma C9_witness :
  1710000000000 <= 1710000000000
  /\ Year.searchByDateChunks Sample.respond Sample.elapse Sample.addDays 0 0
       "org:CircuitVerse+is:pr" 1710000000000 1710000000000 30 Sample.start
     = (Year.Done [], Sample.start).
Proof.
  split; [lia|].
  apply (@C9_empty_range_issues_no_request nat Sample.respond Sample.elapse
           Sample.addDays 0 0 "org:CircuitVerse+is:pr"
           1710000000000 1710000000000 30 Sample.start).
  lia.
Defined.

(** C7.  When a search request of a fetch receives a non-success status,
    [searchByDateChunks] throws the error carrying that status and the
    response body, that request being the last thing it did; it returns no
    items, whatever the pages fetched before.  [generateYear] then throws the
    same error and produces no document, so nothing fetched in that or an
    earlier category reaches the output. *)
Theorem C7_non_success_status_aborts_the_fetch :
  forall (World : Type)
         (respond : World -> Year.Request -> Year.Response * World)
         (elapse : Z -> World -> World) (clock : World -> Z)
         (addDays : Z -> Z -> Z)
         (sanitizeTitle : option string -> option string)
         (parseDate : string -> option Z)
         (fuel pageFuel : nat),
    (forall (baseQuery : string) (start end_ stepDays : Z)
            (s s' : Year.State World) (o : Year.Outcome (list Year.GitHubItem))
            (evs : list Year.Event) (rq : Year.Request) (res : Year.Response),
        Year.searchByDateChunks respond elapse addDays fuel pageFuel baseQuery
          start end_ stepDays s = (o, s') ->
        Year.trace s' = Year.trace s ++ evs ->
        In (Year.EvFetch rq res) evs ->
        Year.ok res = false ->
        o = Year.Thrown (Year.GitHubApiError (Year.status res) (Year.text res))
        /\ (forall items, o <> Year.Done items)
        /\ exists pre, evs = pre ++ [Year.EvFetch rq res])
    /\ (forall (s s' : Year.State World) (o : Year.Outcome Year.Documents)
               (evs : list Year.Event) (rq : Year.Request) (res : Year.Response),
           Year.generateYear respond elapse clock addDays sanitizeTitle parseDate
             fuel pageFuel s = (o, s') ->
           Year.trace s' = Year.trace s ++ evs ->
           In (Year.EvFetch rq res) evs ->
           Year.ok res = false ->
           o = Year.Thrown (Year.GitHubApiError (Year.status res) (Year.text res))
           /\ (forall docs, o <> Year.Done docs)
           /\ exists pre, evs = pre ++ [Year.EvFetch rq res]).
Proof.
  intros World respond elapse clock addDays sanitizeTitle parseDate fuel pageFuel.
  split.
  - intros baseQuery start end_ stepDays s s' o evs rq res Hrun Htr Hin Hok.
    destruct (obeys_searchByDateChunks respond elapse addDays fuel pageFuel
                baseQuery start end_ stepDays s) as (evs' & Htr' & Hsh).
    rewrite Hrun in Htr', Hsh. simpl in Htr', Hsh.
    rewrite Htr in Htr'. apply app_inv_head in Htr'. subst evs'.
    destruct (@shaped_failure _ evs o rq res Hsh Hin Hok) as [-> Hlast].
    split; [reflexivity|]. split; [discriminate | exact Hlast].
  - intros s s' o evs rq res Hrun Htr Hin Hok.
    destruct (obeys_generateYear respond elapse clock addDays sanitizeTitle parseDate
                fuel pageFuel s) as (evs' & Htr' & Hsh).
    rewrite Hrun in Htr', Hsh. simpl in Htr', Hsh.
    rewrite Htr in Htr'. apply app_inv_head in Htr'. subst evs'.
    destruct (@shaped_failure _ evs o rq res Hsh Hin Hok) as [-> Hlast].
    split; [reflexivity|]. split; [discriminate | exact Hlast].
Qed.

(** A first page of 100 results, then a 403 on the second page: the run
    throws the 403 and the 100 results are lost with it. *)
Lemma C7_witness :
  let run :=
    Year.searchByDateChunks Sample.respond Sample.elapse Sample.addDays 5 5
      "org:CircuitVerse+is:pr" 1709596800000 1710460800000 30 Sample.start in
  fst run = Year.Thrown (Year.GitHubApiError 403 "rate limit exceeded")
  /\ List.length (Year.trace (snd run)) = 3%nat.
Proof.
  intros run. split; [|reflexivity].
  refine (proj1
            (proj1 (@C7_non_success_status_aborts_the_fetch nat Sample.respond
                      Sample.elapse (fun _ => 0) Sample.addDays Sample.keepTitle
                      (fun _ => None) 5%nat 5%nat)
               "org:CircuitVerse+is:pr" 1709596800000 1710460800000 30
               Sample.start (snd run) (fst run) (Year.trace (snd run))
               {| Year.rq_query := "org:CircuitVerse+is:pr"; Year.rq_from := 19787;
                  Year.rq_to := 19797; Year.rq_page := 2 |}
               Sample.rateLimited _ _ _ _)).
  - reflexivity.
  - reflexivity.
  - right. right. left. reflexivity.
  - reflexivity.
Defined.

(** C8, as the code has it.  [ghSearch] waits 2.5 s after a call that
    returned a success status, before it reads the body and before anything
    else happens; after a call that returned a non-success status it throws
    at once, without the delay.  So in every run of [searchByDateChunks] and
    of [generateYear] each successful call is directly followed by the delay,
    and a failed call is the last event of the run. *)
Theorem C8_delay_follows_each_successful_call :
  forall (World : Type)
         (respond : World -> Year.Request -> Year.Response * World)
         (elapse : Z -> World -> World) (clock : World -> Z)
         (addDays : Z -> Z -> Z)
         (sanitizeTitle : option string -> option string)
         (parseDate : string -> option Z),
    (forall (rq : Year.Request) (s : Year.State World),
        let res := fst (respond (Year.world s) rq) in
        let run := Year.ghSearch respond elapse rq s in
        (Year.ok res = true ->
         Year.trace (snd run) = Year.trace s ++ [Year.EvFetch rq res; Year.EvSleep 2500])
        /\ (Year.ok res = false ->
            Year.trace (snd run) = Year.trace s ++ [Year.EvFetch rq res]
            /\ fst run
               = Year.Thrown (Year.GitHubApiError (Year.status res) (Year.text res))))
    /\ (forall fuel pageFuel baseQuery start end_ stepDays,
           Pacing.obeys
             (Year.searchByDateChunks respond elapse addDays fuel pageFuel baseQuery
                start end_ stepDays))
    /\ (forall fuel pageFuel,
           Pacing.obeys
             (Year.generateYear respond elapse clock addDays sanitizeTitle parseDate
                fuel pageFuel)).
Proof.
  intros World respond elapse clock addDays sanitizeTitle parseDate.
  split; [|split].
  - intros rq s res run. subst res run.
    unfold Year.ghSearch, Year.bind, Year.fetch.
    destruct (respond (Year.world s) rq) as [res w]. simpl.
    split; intros Hok; rewrite Hok; simpl.
    + destruct (Year.json res); simpl; now rewrite <- app_assoc.
    + split; reflexivity.
  - intros. apply obeys_searchByDateChunks.
  - intros. apply obeys_generateYear.
Qed.

Lemma C8_witness :
  let run := Year.ghSearch Sample.respond Sample.elapse Sample.request Sample.start in
  Year.ok Sample.fullPage = true
  /\ Year.trace (snd run)
     = [Year.EvFetch Sample.request Sample.fullPage; Year.EvSleep 2500].
Proof.
  intros run. split; [reflexivity|].
  exact (proj1
           (proj1 (@C8_delay_follows_each_successful_call nat Sample.respond
                     Sample.elapse (fun _ => 0) Sample.addDays Sample.keepTitle
                     (fun _ => None))
              Sample.request Sample.start)
           eq_refl).
Defined.

(** The delay is not unconditional: a call answered 403 is followed by no
    delay, the error is thrown straight away. *)
Lemma C8_counterexample_no_delay_after_failed_call :
  let run := Year.ghSearch Sample.respond Sample.elapse Sample.request Sample.failing in
  fst run = Year.Thrown (Year.GitHubApiError 403 "rate limit exceeded")
  /\ Year.trace (snd run) = [Year.EvFetch Sample.request Sample.rateLimited]
  /\ Pacing.delayAfterEveryCall (Year.trace (snd run)) = false.
Proof. repeat split. Qed.

(** ** Date chunks *)

Section DateChunks.
Variable addDays : Z -> Z -> Z.
Variables end_ stepDays : Z.
Hypothesis addDays_later : forall d n, 0 < n -> d < addDays d n.
Hypothesis step_positive : 0 < stepDays.

(** The loop ends: the cursor moves forward by at least a millisecond each
    turn. *)
Lemma dateChunks_terminates (fuel : nat) (cursor : Z) :
  (Z.to_nat (end_ - cursor) <= fuel)%nat ->
  exists cs, Year.dateChunks addDays fuel cursor end_ stepDays = Some cs.
Proof.
  revert cursor. induction fuel as [|fuel IH]; intros cursor Hfuel; simpl;
    destruct (cursor <? end_) eqn:E; try (now eexists).
  - apply Z.ltb_lt in E. lia.
  - apply Z.ltb_lt in E.
    pose proof (addDays_later cursor step_positive) as Hnext.
    set (to := if end_ <? addDays cursor stepDays then end_ else addDays cursor stepDays).
    assert (Hto : cursor < to).
    { unfold to. destruct (end_ <? addDays cursor stepDays); lia. }
    destruct (IH to) as [cs Hcs]; [lia|].
    rewrite Hcs. now eexists.
Qed.

Lemma dateChunks_more_fuel (fuel fuel' : nat) (cursor : Z) cs :
  (fuel <= fuel')%nat ->
  Year.dateChunks addDays fuel cursor end_ stepDays = Some cs ->
  Year.dateChunks addDays fuel' cursor end_ stepDays = Some cs.
Proof.
  revert fuel' cursor cs. induction fuel as [|fuel IH]; intros fuel' cursor cs Hle; simpl;
    destruct (cursor <? end_) eqn:E; try discriminate.
  - intros [= <-]. destruct fuel'; simpl; now rewrite E.
  - destruct fuel' as [|fuel']; [lia|]. simpl. rewrite E.
    destruct (Year.dateChunks addDays fuel _ end_ stepDays) as [rest|] eqn:R;
      [|discriminate].
    intros [= <-]. rewrite (IH fuel' _ rest); [reflexivity | lia | exact R].
  - intros [= <-]. destruct fuel'; simpl; now rewrite E.
Qed.

Lemma dateChunks_tiles (fuel : nat) (cursor : Z) cs :
  cursor <= end_ ->
  Year.dateChunks addDays fuel cursor end_ stepDays = Some cs ->
  Chunks.tiles cursor end_ cs
  /\ Forall (fun c => snd c = Z.min (addDays (fst c) stepDays) end_) cs.
Proof.
  revert cursor cs. induction fuel as [|fuel IH]; intros cursor cs Hle; simpl;
    destruct (cursor <? end_) eqn:E; try discriminate.
  - intros [= <-]. apply Z.ltb_ge in E. simpl. split; [lia|constructor].
  - apply Z.ltb_lt in E.
    pose proof (addDays_later cursor step_positive) as Hnext.
    destruct (Year.dateChunks addDays fuel _ end_ stepDays) as [rest|] eqn:R;
      [|discriminate].
    intros [= <-].
    assert (Hto : (if end_ <? addDays cursor stepDays then end_ else addDays cursor stepDays)
                  = Z.min (addDays cursor stepDays) end_).
    { destruct (end_ <? addDays cursor stepDays) eqn:F;
        [apply Z.ltb_lt in F | apply Z.ltb_ge in F]; lia. }
    rewrite Hto in *.
    destruct (IH (Z.min (addDays cursor stepDays) end_) rest) as [Ht Hc];
      [lia | exact R |].
    split; [|constructor; [reflexivity | exact Hc]].
    simpl. repeat split; [lia | lia | exact Ht].
  - intros [= <-]. apply Z.ltb_ge in E. simpl. split; [lia|constructor].
Qed.
End DateChunks.

(** Tiling sub-ranges hold each instant of the range once, and no other. *)
Lemma tiles_contains_once (cs : list (Z * Z)) :
  forall lo hi t,
    Chunks.tiles lo hi cs ->
    List.length (filter (Chunks.contains t) cs)
    = if (lo <=? t) && (t <? hi) then 1%nat else 0%nat.
Proof.
  induction cs as [|[f u] cs IH]; intros lo hi t.
  - simpl. intros ->. destruct (hi <=? t) eqn:E1; destruct (t <? hi) eqn:E2;
      try reflexivity. apply Z.leb_le in E1. apply Z.ltb_lt in E2. lia.
  - cbn [Chunks.tiles fst snd]. intros (-> & Hlt & Hle & Ht).
    cbn [filter]. unfold Chunks.contains at 1. cbn [fst snd].
    pose proof (IH _ _ t Ht) as IHt.
    destruct (lo <=? t) eqn:E1; destruct (t <? u) eqn:E2;
      destruct (u <=? t) eqn:E3; destruct (t <? hi) eqn:E4;
      cbn [andb List.length] in *; rewrite IHt; try reflexivity;
      repeat match goal with
             | H : (_ <=? _) = true |- _ => apply Z.leb_le in H
             | H : (_ <=? _) = false |- _ => apply Z.leb_gt in H
             | H : (_ <? _) = true |- _ => apply Z.ltb_lt in H
             | H : (_ <? _) = false |- _ => apply Z.ltb_ge in H
             end; lia.
Qed.

Lemma tiles_bounds (cs : list (Z * Z)) :
  forall lo hi,
    Chunks.tiles lo hi cs ->
    lo <= hi
    /\ Forall (fun c => lo <= fst c /\ fst c < snd c /\ snd c <= hi) cs
    /\ snd (last cs (lo, lo)) = hi.
Proof.
  induction cs as [|[f u] cs IH]; intros lo hi; simpl.
  - intros ->. split; [lia|]. split; [constructor|reflexivity].
  - intros (-> & Hlt & Hle & Ht).
    destruct (IH _ _ Ht) as (H1 & H2 & H3).
    split; [lia|]. split.
    + constructor; [simpl; lia|].
      eapply Forall_impl; [|exact H2]. simpl. intros; lia.
    + destruct cs as [|c cs]; [simpl in *; lia|].
      rewrite <- H3. clear. revert c. induction cs as [|c' cs IHc]; intros c.
      * reflexivity.
      * exact (IHc c').
Qed.

(** Consecutive sub-ranges meet at one instant, so the requests of two
    consecutive sub-ranges name the same calendar day, as the end of one
    [created:from..to] and the start of the next. *)
Lemma tiles_adjacent (cs : list (Z * Z)) :
  forall lo hi (i : nat) c c',
    Chunks.tiles lo hi cs ->
    nth_error cs i = Some c ->
    nth_error cs (S i) = Some c' ->
    snd c = fst c' /\ Year.iso (snd c) = Year.iso (fst c').
Proof.
  induction cs as [|c0 cs IH]; intros lo hi i c c' Ht Hi Hi'.
  - destruct i; discriminate.
  - destruct Ht as (_ & _ & _ & Ht). destruct i as [|i].
    + injection Hi as <-. destruct cs as [|c1 cs]; [discriminate|].
      injection Hi' as <-. destruct Ht as (-> & _). auto.
    + exact (IH _ _ i c c' Ht Hi Hi').
Qed.

(** The cursor of the outer loop.  For [start < end] and a positive step,
    the outer loop of [searchByDateChunks] ends and its cursor passes through
    sub-ranges of instants that tile [start, end):
    the first starts at [start], each next one starts where the previous
    ended, none is empty; so every instant of [start, end) lies in exactly one
    sub-range and no instant outside lies in any.  Each sub-range ends at the
    step's end or at [end], whichever comes first, so none extends past
    [end], and the last ends at [end].  ([addDays] is the date arithmetic of
    [setDate], of which only that a positive number of days leads to a later
    date is used.) *)
Lemma dateChunks_tile_the_range :
  forall (addDays : Z -> Z -> Z) (start end_ stepDays : Z),
    (forall d n, 0 < n -> d < addDays d n) ->
    start < end_ ->
    0 < stepDays ->
    exists (fuel : nat) (cs : list (Z * Z)),
      (forall fuel', (fuel <= fuel')%nat ->
         Year.dateChunks addDays fuel' start end_ stepDays = Some cs)
      /\ Chunks.tiles start end_ cs
      /\ (forall t,
            List.length (filter (Chunks.contains t) cs)
            = if (start <=? t) && (t <? end_) then 1%nat else 0%nat)
      /\ Forall (fun c => snd c = Z.min (addDays (fst c) stepDays) end_) cs
      /\ Forall (fun c => start <= fst c /\ fst c < snd c /\ snd c <= end_) cs
      /\ snd (last cs (start, start)) = end_.
Proof.
  intros addDays start end_ stepDays Hlater Hlt Hstep.
  destruct (@dateChunks_terminates addDays end_ stepDays Hlater Hstep
              (Z.to_nat (end_ - start)) start (le_n _)) as [cs Hcs].
  exists (Z.to_nat (end_ - start)), cs.
  destruct (@dateChunks_tiles addDays end_ stepDays Hlater Hstep _ start cs
              ltac:(lia) Hcs) as [Ht Hc].
  destruct (@tiles_bounds cs start end_ Ht) as (_ & Hb & Hl).
  split; [|split; [|split; [|split; [|split]]]]; auto.
  - intros fuel' Hle. eapply dateChunks_more_fuel; eauto.
  - intros t. now apply tiles_contains_once.
Qed.

(** A year in steps of 30 days of 24 hours: twelve full sub-ranges and a
    last one of five days that ends at [end]. *)
Lemma dateChunks_tile_a_year :
  exists (fuel : nat) (cs : list (Z * Z)),
    Year.dateChunks Sample.addDays fuel 1678060800005 1709596800005 30 = Some cs
    /\ Chunks.tiles 1678060800005 1709596800005 cs
    /\ snd (last cs (1678060800005, 1678060800005)) = 1709596800005.
Proof.
  destruct (@dateChunks_tile_the_range Sample.addDays
              1678060800005 1709596800005 30
              ltac:(unfold Sample.addDays; intros; lia) ltac:(lia) ltac:(lia))
    as (fuel & cs & Hrun & Ht & _ & _ & _ & Hl).
  exists fuel, cs. split; [apply Hrun; apply le_n|]. split; [exact Ht | exact Hl].
Qed.

Example dateChunks_of_a_year :
  Year.dateChunks Sample.addDays 13 1678060800005 1709596800005 30
  = Some [(1678060800005, 1680652800005); (1680652800005, 1683244800005);
          (1683244800005, 1685836800005); (1685836800005, 1688428800005);
          (1688428800005, 1691020800005); (1691020800005, 1693612800005);
          (1693612800005, 1696204800005); (1696204800005, 1698796800005);
          (1698796800005, 1701388800005); (1701388800005, 1703980800005);
          (1703980800005, 1706572800005); (1706572800005, 1709164800005);
          (1709164800005, 1709596800005)].
Proof. reflexivity. Qed.

(** C2.  [searchByDateChunks] does not keep the sub-ranges it queries
    apart.  Its cursor passes from one sub-range to the next without overlap
    ([dateChunks_tile_the_range]), but each request names the calendar days of
    both bounds, [created:from..to], which the search reads with both days
    included: two consecutive requests both ask for the day on which their
    sub-ranges meet.  In a run started at 2024-03-05T00:00:00.005Z against a
    repository with one pull request, opened by alice on 2023-04-05, the
    thirty-day sub-ranges meet on that day: the requests that hold the day are
    those for 2023-03-06..2023-04-05 and for 2023-04-05..2023-05-05,
    [searchByDateChunks] returns the pull request twice, and the year document
    of [generateYear] gives alice two activities and 4 points for it.  (Were
    the last day of a request left out instead, no request would hold the day
    of [end] itself, on which the range [start, end) has its last
    instants.) *)
Theorem C2_boundary_day_is_queried_twice :
  let since := 1678060800005 in
  let now := 1709596800005 in
  let search :=
    Year.searchByDateChunks Boundary.respond Boundary.elapse Sample.addDays 13 2
      "org:CircuitVerse+is:pr" since now 30 Boundary.start in
  let sent := Requests.sent (Year.trace (snd search)) in
  fst search = Year.Done [Boundary.pr; Boundary.pr]
  /\ filter (Requests.covers Boundary.prDay) sent
     = [Boundary.request 19422 19452; Boundary.request 19452 19482]
  /\ (Year.iso (now - 1) = 19787
      /\ filter (Requests.coversBefore 19787) sent = [])
  /\ match fst (Year.generateYear Boundary.respond Boundary.elapse Boundary.clock
                  Sample.addDays Sample.keepTitle Sample2.parseDate 13 2
                  Boundary.start) with
     | Year.Done docs =>
         map (fun e => (Year.username e, Year.total_points e,
                        List.length (Year.raw_activities e)))
           (Year.year docs)
         = [("alice", 4, 2%nat)]
     | _ => False
     end.
Proof.
  cbv zeta. split; [vm_compute; reflexivity|]. split; [vm_compute; reflexivity|].
  split; [split; vm_compute; reflexivity|].
  vm_compute. reflexivity.
Qed.

(** ** The requests sent are those of the date chunks *)

Section RequestsSent.
Variable World : Type.
Variable respond : World -> Year.Request -> Year.Response * World.
Variable elapse : Z -> World -> World.
Variable addDays : Z -> Z -> Z.

Lemma sent_app (evs1 evs2 : list Year.Event) :
  Requests.sent (evs1 ++ evs2) = Requests.sent evs1 ++ Requests.sent evs2.
Proof.
  induction evs1 as [|[rq res|ms] evs1 IH]; simpl; [reflexivity| |exact IH].
  now rewrite IH.
Qed.

Lemma bind_Done {A B : Type} (m : Year.M World A) (k : A -> Year.M World B)
    (s s' : Year.State World) (b : B) :
  Year.bind m k s = (Year.Done b, s') ->
  exists a s1, m s = (Year.Done a, s1) /\ k a s1 = (Year.Done b, s').
Proof.
  unfold Year.bind. destruct (m s) as [[a|e|] s1]; try discriminate.
  intros H. now exists a, s1.
Qed.

(** One run of [ghSearch] sends one request. *)
Lemma ghSearch_sent (rq : Year.Request) (s : Year.State World) :
  exists evs,
    Year.trace (snd (Year.ghSearch respond elapse rq s)) = Year.trace s ++ evs
    /\ Requests.sent evs = [rq].
Proof.
  unfold Year.ghSearch, Year.bind, Year.fetch.
  destruct (respond (Year.world s) rq) as [res w].
  destruct (Year.ok res); simpl.
  - exists [Year.EvFetch rq res; Year.EvSleep 2500].
    destruct (Year.json res); simpl; now rewrite <- app_assoc.
  - now exists [Year.EvFetch rq res].
Qed.

(** The page loop asks for the pages [page], [page + 1], ... of one range,
    at least one when it completes. *)
Lemma pages_sent fuel baseQuery from to page all (s : Year.State World) :
  exists evs n,
    Year.trace (snd (Year.pages respond elapse fuel baseQuery from to page all s))
      = Year.trace s ++ evs
    /\ Requests.sent evs
       = map (fun i => {| Year.rq_query := baseQuery; Year.rq_from := from;
                          Year.rq_to := to; Year.rq_page := page + Z.of_nat i |})
           (seq 0 n)
    /\ (forall items,
          fst (Year.pages respond elapse fuel baseQuery from to page all s)
            = Year.Done items -> (1 <= n)%nat).
Proof.
  revert page all s. induction fuel as [|fuel IH]; intros page all s.
  - exists [], 0%nat. simpl. rewrite app_nil_r. repeat split. discriminate.
  - cbn [Year.pages]. unfold Year.bind.
    set (rq := {| Year.rq_query := baseQuery; Year.rq_from := from;
                  Year.rq_to := to; Year.rq_page := page |}).
    destruct (ghSearch_sent rq s) as (evs1 & Ht1 & Hs1).
    assert (Hone : Requests.sent evs1
                   = map (fun i => {| Year.rq_query := baseQuery; Year.rq_from := from;
                                      Year.rq_to := to;
                                      Year.rq_page := page + Z.of_nat i |})
                       (seq 0 1)).
    { rewrite Hs1. simpl. unfold rq. now rewrite Z.add_0_r. }
    destruct (Year.ghSearch respond elapse rq s) as [[[items|]|e|] s1]; simpl in Ht1.
    + destruct (Z.of_nat (List.length items) <? 100).
      * exists evs1, 1%nat. simpl. repeat split; auto.
      * destruct (IH (page + 1) (all ++ items) s1) as (evs2 & n & Ht2 & Hs2 & _).
        exists (evs1 ++ evs2), (S n).
        rewrite Ht2, Ht1, app_assoc, sent_app, Hs1, Hs2.
        split; [reflexivity|]. split; [|intros; lia].
        cbn [seq map]. unfold rq. rewrite Z.add_0_r. simpl. f_equal.
        rewrite <- seq_shift, map_map. apply map_ext. intros i.
        f_equal. lia.
    + exists evs1, 1%nat. simpl. repeat split; auto.
    + exists evs1, 1%nat. simpl. repeat split; auto.
    + exists evs1, 1%nat. simpl. repeat split; auto.
Qed.

Lemma later_pages_not_first baseQuery from to (l : list nat) :
  Forall (fun i => (1 <= i)%nat) l ->
  filter (fun rq => Year.rq_page rq =? 1)
    (map (fun i => {| Year.rq_query := baseQuery; Year.rq_from := from;
                      Year.rq_to := to; Year.rq_page := 1 + Z.of_nat i |}) l)
  = [].
Proof.
  induction 1 as [|i l Hi _ IH]; [reflexivity|].
  cbn [map filter Year.rq_page].
  destruct (1 + Z.of_nat i =? 1) eqn:E; [apply Z.eqb_eq in E; lia | exact IH].
Qed.

Lemma ranges_of_pages baseQuery from to n :
  (1 <= n)%nat ->
  Requests.ranges
    (map (fun i => {| Year.rq_query := baseQuery; Year.rq_from := from;
                      Year.rq_to := to; Year.rq_page := 1 + Z.of_nat i |})
       (seq 0 n))
  = [(from, to)].
Proof.
  destruct n as [|n]; [lia|]. intros _. unfold Requests.ranges.
  cbn [seq map filter Year.rq_page].
  replace (1 + Z.of_nat 0 =? 1) with true by reflexivity.
  rewrite later_pages_not_first; [reflexivity|].
  apply Forall_forall. intros i Hi. apply in_seq in Hi. lia.
Qed.

Lemma ranges_app (rqs1 rqs2 : list Year.Request) :
  Requests.ranges (rqs1 ++ rqs2) = Requests.ranges rqs1 ++ Requests.ranges rqs2.
Proof. unfold Requests.ranges. now rewrite filter_app, map_app. Qed.

(** A completed run of [searchByDateChunks] has asked, in order, for the
    calendar days of the sub-ranges of [dateChunks]. *)
Lemma chunks_sent fuel pageFuel baseQuery end_ stepDays :
  forall cursor all (s s' : Year.State World) items,
    Year.chunks respond elapse addDays fuel pageFuel baseQuery cursor end_ stepDays all s
      = (Year.Done items, s') ->
    exists evs cs,
      Year.trace s' = Year.trace s ++ evs
      /\ Year.dateChunks addDays fuel cursor end_ stepDays = Some cs
      /\ Requests.ranges (Requests.sent evs)
         = map (fun c => (Year.iso (fst c), Year.iso (snd c))) cs.
Proof.
  induction fuel as [|fuel IH]; intros cursor all s s' items; simpl;
    destruct (cursor <? end_) eqn:E.
  - discriminate.
  - intros [= <- <-]. exists [], []. now rewrite app_nil_r.
  - intros Hrun. apply bind_Done in Hrun. destruct Hrun as (all' & s1 & Hp & Hrest).
    destruct (pages_sent pageFuel baseQuery (Year.iso cursor)
                (Year.iso (if end_ <? addDays cursor stepDays then end_
                           else addDays cursor stepDays)) 1 all s)
      as (evs1 & n & Ht1 & Hs1 & Hn).
    rewrite Hp in Ht1, Hn. simpl in Ht1.
    specialize (Hn all' eq_refl).
    destruct (IH _ _ _ _ _ Hrest) as (evs2 & cs & Ht2 & Hcs & Hr2).
    exists (evs1 ++ evs2),
      ((cursor, if end_ <? addDays cursor stepDays then end_
                else addDays cursor stepDays) :: cs).
    rewrite Ht2, Ht1, app_assoc, Hcs, sent_app, ranges_app, Hs1, Hr2.
    rewrite ranges_of_pages by exact Hn.
    repeat split.
  - intros [= <- <-]. exists [], []. now rewrite app_nil_r.
Qed.
End RequestsSent.

(** ** The documents of a run *)

Section GenerateYear.
Variable World : Type.
Variable respond : World -> Year.Request -> Year.Response * World.
Variable elapse : Z -> World -> World.
Variable clock : World -> Z.
Variable addDays : Z -> Z -> Z.
Variable sanitizeTitle : option string -> option string.
Variable parseDate : string -> option Z.

Lemma derive_Done (source : list Year.UserEntry) (days : Z)
    (s s' : Year.State World) (out : list Year.Derived.Entry) :
  Year.derive clock addDays parseDate source days s = (Year.Done out, s') ->
  out = Year.derivePeriod parseDate (addDays (clock (Year.world s)) (- days)) source.
Proof. unfold Year.derive, Year.daysAgo, Year.bind, Year.newDate, Year.ret. congruence. Qed.

(** The documents of a completed run are the aggregation of what the three
    searches returned and the periods derived from it. *)
Lemma generateYear_documents fuel pageFuel (s s' : Year.State World)
    (docs : Year.Documents) :
  Year.generateYear respond elapse clock addDays sanitizeTitle parseDate fuel pageFuel s
    = (Year.Done docs, s') ->
  exists opened merged issues,
    Year.year docs = Year.yearEntries sanitizeTitle opened merged issues
    /\ Forall (fun period => exists cutoff,
                  period = Year.derivePeriod parseDate cutoff (Year.year docs))
         [Year.week docs; Year.twoWeek docs; Year.threeWeek docs;
          Year.month docs; Year.twoMonth docs].
Proof.
  unfold Year.generateYear. intros Hrun.
  apply bind_Done in Hrun. destruct Hrun as (since & s1 & _ & Hrun).
  apply bind_Done in Hrun. destruct Hrun as (now & s2 & _ & Hrun).
  apply bind_Done in Hrun. destruct Hrun as (opened & s3 & _ & Hrun).
  apply bind_Done in Hrun. destruct Hrun as (merged & s4 & _ & Hrun).
  apply bind_Done in Hrun. destruct Hrun as (issues & s5 & _ & Hrun).
  apply bind_Done in Hrun. destruct Hrun as (w1 & s6 & H1 & Hrun).
  apply bind_Done in Hrun. destruct Hrun as (w2 & s7 & H2 & Hrun).
  apply bind_Done in Hrun. destruct Hrun as (w3 & s8 & H3 & Hrun).
  apply bind_Done in Hrun. destruct Hrun as (m1 & s9 & H4 & Hrun).
  apply bind_Done in Hrun. destruct Hrun as (m2 & s10 & H5 & Hrun).
  apply derive_Done in H1, H2, H3, H4, H5.
  injection Hrun as <- _.
  exists opened, merged, issues. split; [reflexivity|]. cbn.
  repeat constructor; eexists; eassumption.
Qed.

(** Every entry of every document of a run has a total that agrees with
    its breakdown and with its activity log, and the year document has one
    [daily_activity] element per date. *)
Corollary generateYear_documents_consistent fuel pageFuel (s s' : Year.State World)
    (docs : Year.Documents) :
  Year.generateYear respond elapse clock addDays sanitizeTitle parseDate fuel pageFuel s
    = (Year.Done docs, s') ->
  Forall Invariant.yearEntry (Year.year docs)
  /\ Forall Daily.consistent (Year.year docs)
  /\ Forall (Forall Invariant.derivedEntry)
       [Year.week docs; Year.twoWeek docs; Year.threeWeek docs;
        Year.month docs; Year.twoMonth docs].
Proof.
  intros Hrun. destruct (generateYear_documents _ _ _ Hrun)
    as (opened & merged & issues & Hy & Hp).
  rewrite Hy. split; [apply yearEntries_invariant|].
  split; [apply yearEntries_daily|].
  eapply Forall_impl; [|exact Hp]. simpl.
  intros period [cutoff ->]. apply Forall_forall. intros d Hd.
  apply derivePeriod_In in Hd. destruct Hd as (e & _ & Hd).
  eapply deriveEntry_invariant. exact Hd.
Qed.
End GenerateYear.

(* ================================================================== *)
(** * Part III: further properties of the code *)
(* ================================================================== *)

(** ** Dictionaries filled by a loop *)

Section DictLookup.
Variables K V : Type.
Variable eqb : K -> K -> bool.
Hypothesis eqb_spec : forall a b, eqb a b = true <-> a = b.

Lemma eqb_same (k : K) : eqb k k = true.
Proof. now apply eqb_spec. Qed.

Lemma get_app (k : K) (o1 o2 : list (K * V)) :
  Js.get eqb k (o1 ++ o2)
  = match Js.get eqb k o1 with Some v => Some v | None => Js.get eqb k o2 end.
Proof.
  induction o1 as [|[k' v] o1 IH]; simpl; [reflexivity|].
  now destruct (eqb k k').
Qed.

Lemma get_alter (f : V -> V) (l k : K) (o : list (K * V)) :
  Js.get eqb k (Js.alter eqb f l o)
  = if eqb k l then option_map f (Js.get eqb k o) else Js.get eqb k o.
Proof.
  induction o as [|[k' v] o IH]; simpl.
  - now destruct (eqb k l).
  - destruct (eqb l k') eqn:E1; simpl.
    + apply eqb_spec in E1. subst k'.
      destruct (eqb k l) eqn:E2; reflexivity.
    + destruct (eqb k k') eqn:E2.
      * destruct (eqb k l) eqn:E3; [|reflexivity].
        apply eqb_spec in E2, E3. subst. rewrite eqb_same in E1. discriminate.
      * exact IH.
Qed.

Lemma get_ensure (l k : K) (v0 : V) (o : list (K * V)) :
  Js.get eqb k (Js.ensure eqb l v0 o)
  = match Js.get eqb k o with
    | Some v => Some v
    | None => if eqb k l then Some v0 else None
    end.
Proof.
  unfold Js.ensure. destruct (Js.get eqb l o) as [v|] eqn:E.
  - destruct (Js.get eqb k o) eqn:E2; [reflexivity|].
    destruct (eqb k l) eqn:E3; [|reflexivity].
    apply eqb_spec in E3. subst. congruence.
  - rewrite get_app. simpl. reflexivity.
Qed.

Lemma keys_alter (f : V -> V) (l : K) (o : list (K * V)) :
  map fst (Js.alter eqb f l o) = map fst o.
Proof.
  induction o as [|[k' v] o IH]; simpl; [reflexivity|].
  destruct (eqb l k'); simpl; [reflexivity | now rewrite IH].
Qed.

Lemma get_None_keys (k : K) (o : list (K * V)) :
  Js.get eqb k o = None <-> ~ In k (map fst o).
Proof.
  induction o as [|[k' v] o IH]; simpl; [tauto|].
  destruct (eqb k k') eqn:E.
  - apply eqb_spec in E. subst. split; [discriminate | intros H; exfalso; auto].
  - rewrite IH. split.
    + intros H [H1|H1]; [|auto]. subst. rewrite eqb_same in E. discriminate.
    + tauto.
Qed.

Lemma get_Some_keys (k : K) (v : V) (o : list (K * V)) :
  Js.get eqb k o = Some v -> In k (map fst o).
Proof.
  induction o as [|[k' v'] o IH]; simpl; [discriminate|].
  destruct (eqb k k') eqn:E.
  - apply eqb_spec in E. intros _. left. now symmetry.
  - intros H. right. now apply IH.
Qed.

Lemma NoDup_keys_ensure (l : K) (v0 : V) (o : list (K * V)) :
  NoDup (map fst o) -> NoDup (map fst (Js.ensure eqb l v0 o)).
Proof.
  intros H. unfold Js.ensure. destruct (Js.get eqb l o) eqn:E; [exact H|].
  rewrite map_app. simpl.
  apply Permutation_NoDup with (l := l :: map fst o).
  - apply Permutation_cons_append.
  - constructor; [now apply get_None_keys | exact H].
Qed.

Lemma In_get (k : K) (v : V) (o : list (K * V)) :
  NoDup (map fst o) -> (In (k, v) o <-> Js.get eqb k o = Some v).
Proof.
  induction o as [|[k' v'] o IH]; simpl; intros Hnd.
  - split; [tauto | discriminate].
  - inversion Hnd as [|? ? Hk Hrest]; subst.
    destruct (eqb k k') eqn:E.
    + apply eqb_spec in E. subst k'. split.
      * intros [H|H]; [congruence|]. exfalso. apply Hk.
        change k with (fst (k, v)). now apply in_map.
      * intros [= ->]. now left.
    + rewrite <- (IH Hrest). split; [|tauto].
      intros [H|H]; [|exact H]. injection H as -> ->.
      rewrite eqb_same in E. discriminate.
Qed.

Lemma values_In (v : V) (o : list (K * V)) :
  In v (Js.values o) <-> exists k, In (k, v) o.
Proof.
  unfold Js.values. rewrite in_map_iff. split.
  - intros [[k v'] [<- H]]. now exists k.
  - intros [k H]. now exists (k, v).
Qed.
End DictLookup.

(** A loop that, for each element, creates the bucket of its key if the key
    is new and then updates the bucket: the bucket of a key is the fold of the
    updates over the elements of that key, from the bucket created for the
    first of them; and every key has one bucket. *)
Section GroupFold.
Variables K V X : Type.
Variable eqb : K -> K -> bool.
Hypothesis eqb_spec : forall a b, eqb a b = true <-> a = b.
Variable key : X -> K.
Variable v0 : X -> V.
Variable h : X -> V -> V.

Let step (o : list (K * V)) (x : X) : list (K * V) :=
  Js.alter eqb (h x) (key x) (Js.ensure eqb (key x) (v0 x) o).

Lemma group_get (xs : list X) (k : K) :
  Js.get eqb k (fold_left step xs [])
  = match filter (fun x => eqb (key x) k) xs with
    | [] => None
    | x0 :: rest => Some (fold_left (fun v x => h x v) rest (h x0 (v0 x0)))
    end.
Proof.
  induction xs as [|x xs IH] using rev_ind; [reflexivity|].
  rewrite fold_left_app, filter_app. cbn [fold_left filter].
  unfold step at 1. rewrite (@get_alter _ _ eqb eqb_spec), (@get_ensure _ _ eqb eqb_spec), IH.
  destruct (eqb (key x) k) eqn:E1.
  - apply eqb_spec in E1. subst k. rewrite (@eqb_same _ eqb eqb_spec).
    destruct (filter (fun x1 => eqb (key x1) (key x)) xs) as [|x0 rest]; simpl.
    + reflexivity.
    + now rewrite fold_left_app.
  - destruct (eqb k (key x)) eqn:E2.
    + apply eqb_spec in E2. subst k. rewrite (@eqb_same _ eqb eqb_spec) in E1. discriminate.
    + rewrite app_nil_r. now destruct (filter _ xs).
Qed.

Lemma group_NoDup (xs : list X) : NoDup (map fst (fold_left step xs [])).
Proof.
  induction xs as [|x xs IH] using rev_ind; [constructor|].
  rewrite fold_left_app. cbn [fold_left]. unfold step at 1.
  rewrite keys_alter. now apply (@NoDup_keys_ensure _ _ eqb eqb_spec).
Qed.

Lemma group_key_present (xs : list X) (k : K) :
  In k (map fst (fold_left step xs [])) <-> exists x, In x xs /\ key x = k.
Proof.
  destruct (Js.get eqb k (fold_left step xs [])) as [v|] eqn:E.
  - split; intros _.
    + rewrite group_get in E.
      destruct (filter (fun x => eqb (key x) k) xs) as [|x0 rest] eqn:F; [discriminate|].
      assert (Hin : In x0 (filter (fun x => eqb (key x) k) xs)) by (rewrite F; now left).
      apply filter_In in Hin. destruct Hin as [Hin Hk]. apply eqb_spec in Hk.
      now exists x0.
    + exact (@get_Some_keys _ _ eqb eqb_spec _ _ _ E).
  - split.
    + intros H. apply (@get_None_keys _ _ eqb eqb_spec) in E. contradiction.
    + intros [x [Hin Hk]]. exfalso. rewrite group_get in E.
      destruct (filter (fun x => eqb (key x) k) xs) as [|x0 rest] eqn:F; [|discriminate].
      assert (Hx : In x (filter (fun x => eqb (key x) k) xs)).
      { apply filter_In. split; [exact Hin|]. now apply eqb_spec. }
      rewrite F in Hx. exact Hx.
Qed.
End GroupFold.

(** ** The contributor map as a function of the event stream *)

Lemma filter_filter {A : Type} (p q : A -> bool) (l : list A) :
  filter p (filter q l) = filter (fun x => q x && p x) l.
Proof.
  induction l as [|x l IH]; simpl; [reflexivity|].
  destruct (q x); simpl; [destruct (p x); now rewrite IH | exact IH].
Qed.

Lemma filter_all {A : Type} (p : A -> bool) (l : list A) :
  Forall (fun x => p x = true) l -> filter p l = l.
Proof.
  induction 1 as [|x l Hx _ IH]; simpl; [reflexivity|]. now rewrite Hx, IH.
Qed.

Lemma filter_head_find {A : Type} (p : A -> bool) (l : list A) x rest :
  filter p l = x :: rest -> find p l = Some x.
Proof.
  induction l as [|y l IH]; simpl; [discriminate|].
  destruct (p y); [congruence | exact IH].
Qed.

Lemma sumOf_perm {A : Type} (f : A -> Z) (l1 l2 : list A) :
  Permutation l1 l2 -> sumOf f l1 = sumOf f l2.
Proof. induction 1; simpl; lia. Qed.

Lemma string_eqb_spec (a b : string) : String.eqb a b = true <-> a = b.
Proof. apply String.eqb_eq. Qed.

Section YearStream.
Variable sanitizeTitle : option string -> option string.

(** One turn of the loops of [generateYear] on a tagged item. *)
Let foldTagged (users : list (string * Year.UserEntry)) (t : Stream.Tagged) :=
  Year.foldItem sanitizeTitle (Stream.tg_type t) (fun _ => Stream.tg_when t)
    (Stream.tg_points t) users (Stream.tg_item t).

Let keyU (t : Stream.Tagged) : string := Year.loginOf (Year.user (Stream.tg_item t)).

Let freshU (t : Stream.Tagged) : Year.UserEntry :=
  {| Year.username := Year.loginOf (Year.user (Stream.tg_item t));
     Year.name := Year.user_name (Year.user (Stream.tg_item t));
     Year.avatar_url := Year.user_avatar_url (Year.user (Stream.tg_item t));
     Year.role := Some "Contributor";
     Year.total_points := 0;
     Year.activity_breakdown := [];
     Year.daily_activity := [];
     Year.raw_activities := [] |}.

Let addU (t : Stream.Tagged) (e : Year.UserEntry) : Year.UserEntry :=
  Year.addActivity sanitizeTitle e (Stream.tg_type t) (Stream.tg_when t)
    (Stream.tg_points t)
    (Some {| Year.meta_title := Year.item_title (Stream.tg_item t);
             Year.meta_link := Year.html_url (Stream.tg_item t) |}).

Let stepU (users : list (string * Year.UserEntry)) (t : Stream.Tagged) :=
  Js.alter String.eqb (addU t) (keyU t) (Js.ensure String.eqb (keyU t) (freshU t) users).

Lemma fold_foldItem_tagged ty when pts items users :
  fold_left (Year.foldItem sanitizeTitle ty when pts) items users
  = fold_left foldTagged
      (map (fun it => {| Stream.tg_type := ty; Stream.tg_when := when it;
                         Stream.tg_points := pts; Stream.tg_item := it |}) items)
      users.
Proof.
  revert users. induction items as [|it items IH]; intros users; simpl; [reflexivity|].
  now rewrite IH.
Qed.

Lemma foldCategories_tagged opened merged issues :
  Year.foldCategories sanitizeTitle opened merged issues
  = fold_left foldTagged (Stream.tagged opened merged issues) [].
Proof.
  unfold Year.foldCategories, Stream.tagged.
  rewrite !fold_left_app, !fold_foldItem_tagged. reflexivity.
Qed.

Lemma foldTagged_human (ts : list Stream.Tagged) users :
  fold_left foldTagged ts users = fold_left stepU (filter Stream.human ts) users.
Proof.
  revert users. induction ts as [|t ts IH]; intros users; simpl; [reflexivity|].
  unfold Stream.human at 1.
  unfold foldTagged at 2. unfold Year.foldItem.
  destruct (Year.isBotUser (Year.user (Stream.tg_item t))); simpl; apply IH.
Qed.

(** What the loops make of the items of one contributor, from the entry
    created for the first of them. *)
Lemma entry_fold (evs : list Stream.Tagged) (e0 : Year.UserEntry) :
  let e := fold_left (fun e t => addU t e) evs e0 in
  Year.username e = Year.username e0
  /\ Year.name e = Year.name e0
  /\ Year.avatar_url e = Year.avatar_url e0
  /\ Year.role e = Year.role e0
  /\ Year.total_points e = Year.total_points e0 + sumOf Stream.tg_points evs
  /\ Year.raw_activities e
     = Year.raw_activities e0 ++ map (Stream.rawOf sanitizeTitle) evs.
Proof.
  revert e0. induction evs as [|t evs IH]; intros e0; simpl.
  - rewrite app_nil_r. repeat split; lia.
  - destruct (IH (addU t e0)) as (H1 & H2 & H3 & H4 & H5 & H6).
    rewrite H1, H2, H3, H4, H5, H6. unfold addU, Year.addActivity. simpl.
    rewrite <- app_assoc. repeat split; lia.
Qed.

(** The entry stored under a login. *)
Lemma users_lookup opened merged issues (l : string) :
  Js.get String.eqb l (Year.foldCategories sanitizeTitle opened merged issues)
  = match filter (Stream.isFor l) (Stream.tagged opened merged issues) with
    | [] => None
    | t0 :: rest => Some (fold_left (fun e t => addU t e) rest (addU t0 (freshU t0)))
    end.
Proof.
  rewrite foldCategories_tagged, foldTagged_human.
  unfold stepU.
  rewrite (@group_get _ _ _ String.eqb string_eqb_spec keyU freshU addU).
  rewrite filter_filter. reflexivity.
Qed.

Lemma users_NoDup opened merged issues :
  NoDup (map fst (Year.foldCategories sanitizeTitle opened merged issues)).
Proof.
  rewrite foldCategories_tagged, foldTagged_human. unfold stepU.
  apply (@group_NoDup _ _ _ String.eqb string_eqb_spec keyU freshU addU).
Qed.

Lemma tagged_points_positive opened merged issues :
  Forall (fun t => 0 < Stream.tg_points t) (Stream.tagged opened merged issues).
Proof.
  unfold Stream.tagged. rewrite !Forall_app. repeat split;
    apply Forall_forall; intros t Ht; apply in_map_iff in Ht;
    destruct Ht as [it [<- _]]; reflexivity.
Qed.

Lemma sumOf_positive {A : Type} (f : A -> Z) (l : list A) :
  Forall (fun x => 0 < f x) l -> 0 <= sumOf f l.
Proof. induction 1; simpl; lia. Qed.

(** An entry of the map: its key is its username, it comes from the items
    of that login, the first of which gave its identity. *)
Lemma users_entry opened merged issues (l : string) (e : Year.UserEntry) :
  In (l, e) (Year.foldCategories sanitizeTitle opened merged issues) ->
  exists t0 rest,
    filter (Stream.isFor l) (Stream.tagged opened merged issues) = t0 :: rest
    /\ Year.username e = l
    /\ Year.name e = Year.user_name (Year.user (Stream.tg_item t0))
    /\ Year.avatar_url e = Year.user_avatar_url (Year.user (Stream.tg_item t0))
    /\ Year.role e = Some "Contributor"
    /\ Year.raw_activities e
       = Stream.logOf sanitizeTitle l (Stream.tagged opened merged issues)
    /\ 0 < Year.total_points e.
Proof.
  intros Hin.
  apply (@In_get _ _ String.eqb string_eqb_spec l e _ (users_NoDup opened merged issues)) in Hin.
  rewrite users_lookup in Hin.
  destruct (filter (Stream.isFor l) (Stream.tagged opened merged issues))
    as [|t0 rest] eqn:F; [discriminate|].
  injection Hin as <-. exists t0, rest. split; [reflexivity|].
  assert (H0 : In t0 (filter (Stream.isFor l) (Stream.tagged opened merged issues)))
    by (rewrite F; now left).
  apply filter_In in H0. destruct H0 as [Hin0 Hfor].
  unfold Stream.isFor in Hfor. apply andb_true_iff in Hfor. destruct Hfor as [_ Hl].
  apply String.eqb_eq in Hl.
  destruct (entry_fold rest (addU t0 (freshU t0))) as (H1 & H2 & H3 & H4 & H5 & H6).
  rewrite H1, H2, H3, H4, H5, H6. unfold Stream.logOf. rewrite F.
  unfold addU, freshU, Year.addActivity. simpl.
  repeat split; auto.
  assert (Hpos : Forall (fun t => 0 < Stream.tg_points t) (t0 :: rest)).
  { rewrite <- F. apply Forall_forall. intros t Ht. apply filter_In in Ht.
    destruct Ht as [Ht _].
    pose proof (tagged_points_positive opened merged issues) as Hp.
    rewrite Forall_forall in Hp. now apply Hp. }
  inversion Hpos as [|? ? Hp0 Hprest]; subst.
  pose proof (sumOf_positive _ Hprest). lia.
Qed.

(** No entry is dropped by the filter [total_points > 0]: the entries of
    the year document are those of the map, sorted. *)
Lemma yearEntries_all opened merged issues :
  Year.yearEntries sanitizeTitle opened merged issues
  = Js.sort (fun a b => Year.total_points b - Year.total_points a)
      (Js.values (Year.foldCategories sanitizeTitle opened merged issues)).
Proof.
  unfold Year.yearEntries. f_equal. apply filter_all.
  apply Forall_forall. intros e He. apply values_In in He. destruct He as [l He].
  apply users_entry in He. destruct He as (_ & _ & _ & _ & _ & _ & _ & _ & Hpos).
  now apply Z.ltb_lt.
Qed.
Lemma users_usernames opened merged issues :
  map Year.username (Js.values (Year.foldCategories sanitizeTitle opened merged issues))
  = map fst (Year.foldCategories sanitizeTitle opened merged issues).
Proof.
  unfold Js.values. rewrite map_map. apply map_ext_in. intros [l e] Hin.
  apply users_entry in Hin. destruct Hin as (_ & _ & _ & Hu & _). exact Hu.
Qed.

Lemma users_points (hs : list Stream.Tagged) users :
  sumOf Year.total_points (Js.values (fold_left stepU hs users))
  = sumOf Year.total_points (Js.values users) + sumOf Stream.tg_points hs.
Proof.
  revert users. induction hs as [|t hs IH]; intros users; [simpl; lia|].
  cbn [fold_left]. rewrite IH. unfold stepU.
  rewrite sum_ensure_alter with (delta := Stream.tg_points t);
    [simpl; lia | apply String.eqb_refl | reflexivity | intros; reflexivity].
Qed.

Lemma human_points_of_category ty (when : Year.GitHubItem -> string) pts items :
  sumOf Stream.tg_points
    (filter Stream.human
       (map (fun it => {| Stream.tg_type := ty; Stream.tg_when := when it;
                          Stream.tg_points := pts; Stream.tg_item := it |}) items))
  = pts * Z.of_nat (List.length
                      (filter (fun it => negb (Year.isBotUser (Year.user it))) items)).
Proof.
  induction items as [|it items IH]; simpl; [lia|].
  unfold Stream.human at 1. simpl.
  destruct (Year.isBotUser (Year.user it)); simpl; rewrite IH; lia.
Qed.

Lemma yearEntries_points opened merged issues :
  sumOf Year.total_points (Year.yearEntries sanitizeTitle opened merged issues)
  = sumOf Stream.tg_points
      (filter Stream.human (Stream.tagged opened merged issues)).
Proof.
  rewrite yearEntries_all.
  rewrite <- (sumOf_perm _ (sort_perm _ _)).
  rewrite foldCategories_tagged, foldTagged_human, users_points. reflexivity.
Qed.

End YearStream.

(** X1.  Every entry of the year document holds, as its log, exactly the
    items of its login that are not a bot's, in the order they were folded
    (pull requests opened, then merged, then issues), each with the kind, the
    timestamp and the points of its category; its role is "Contributor", and
    its name and avatar are those of the first such item: later items of the
    login do not change them. *)
Theorem X1_year_entry_holds_its_contributors_events :
  forall (sanitizeTitle : option string -> option string)
         (opened merged issues : list Year.GitHubItem),
    let ts := Stream.tagged opened merged issues in
    Forall
      (fun e =>
         Year.raw_activities e = Stream.logOf sanitizeTitle (Year.username e) ts
         /\ Year.role e = Some "Contributor"
         /\ exists t0,
             find (Stream.isFor (Year.username e)) ts = Some t0
             /\ Year.name e = Year.user_name (Year.user (Stream.tg_item t0))
             /\ Year.avatar_url e
                = Year.user_avatar_url (Year.user (Stream.tg_item t0)))
      (Year.yearEntries sanitizeTitle opened merged issues).
Proof.
  intros sanitizeTitle opened merged issues ts.
  apply Forall_forall. intros e He.
  rewrite yearEntries_all in He. apply sort_In in He.
  apply values_In in He. destruct He as [l He].
  apply users_entry in He.
  destruct He as (t0 & rest & F & Hu & Hn & Ha & Hr & Hlog & _).
  rewrite Hu. split; [exact Hlog|]. split; [exact Hr|].
  exists t0. split; [|split; assumption].
  eapply filter_head_find. exact F.
Qed.

(** X2.  The year document has one entry per contributor: usernames do not
    repeat, and a login has an entry exactly when some fetched item of that
    login is not a bot's. *)
Theorem X2_year_entries_one_per_contributor :
  forall (sanitizeTitle : option string -> option string)
         (opened merged issues : list Year.GitHubItem),
    let entries := Year.yearEntries sanitizeTitle opened merged issues in
    NoDup (map Year.username entries)
    /\ forall l,
         In l (map Year.username entries)
         <-> existsb (Stream.isFor l) (Stream.tagged opened merged issues) = true.
Proof.
  intros sanitizeTitle opened merged issues entries.
  assert (Hperm : Permutation
                    (map fst (Year.foldCategories sanitizeTitle opened merged issues))
                    (map Year.username entries)).
  { unfold entries. rewrite yearEntries_all, <- users_usernames.
    apply Permutation_map, sort_perm. }
  split.
  - eapply Permutation_NoDup; [exact Hperm | apply users_NoDup].
  - intros l. split.
    + intros Hin. apply (Permutation_in _ (Permutation_sym Hperm)) in Hin.
      apply in_map_iff in Hin. destruct Hin as [[l' e] [Hl Hin]]. simpl in Hl. subst l'.
      apply users_entry in Hin. destruct Hin as (t0 & rest & F & _).
      apply existsb_exists. exists t0.
      assert (H0 : In t0 (filter (Stream.isFor l) (Stream.tagged opened merged issues)))
        by (rewrite F; now left).
      now apply filter_In in H0.
    + intros Hex. apply (Permutation_in _ Hperm).
      destruct (Js.get String.eqb l
                  (Year.foldCategories sanitizeTitle opened merged issues)) as [e|] eqn:E.
      * eapply get_Some_keys; [apply string_eqb_spec | exact E].
      * exfalso. rewrite users_lookup in E.
        destruct (filter (Stream.isFor l) (Stream.tagged opened merged issues)) eqn:F;
          [|discriminate].
        apply filter_nil_existsb in F. congruence.
Qed.

(** X3.  The year document is ranked: its entries are in descending order
    of [total_points], and every one of them has a positive total. *)
Theorem X3_year_entries_ranked_and_positive :
  forall (sanitizeTitle : option string -> option string)
         (opened merged issues : list Year.GitHubItem),
    let entries := Year.yearEntries sanitizeTitle opened merged issues in
    descendingBy Year.total_points entries
    /\ Forall (fun e => 0 < Year.total_points e) entries.
Proof.
  intros sanitizeTitle opened merged issues entries. split.
  - apply sort_descending.
  - apply Forall_forall. intros e He. unfold entries, Year.yearEntries in He.
    apply sort_In in He. apply filter_In in He. destruct He as [_ He].
    now apply Z.ltb_lt.
Qed.

(** X4.  No point is lost or invented by the aggregation: the totals of the
    year document add up to 2 for every pull request opened, 5 for every pull
    request merged and 1 for every issue opened, bots' items left out. *)
Theorem X4_year_totals_add_up_to_the_scored_items :
  forall (sanitizeTitle : option string -> option string)
         (opened merged issues : list Year.GitHubItem),
    let scored := fun items =>
      Z.of_nat (List.length
                  (filter (fun it => negb (Year.isBotUser (Year.user it))) items)) in
    sumOf Year.total_points (Year.yearEntries sanitizeTitle opened merged issues)
    = 2 * scored opened + 5 * scored merged + 1 * scored issues.
Proof.
  intros sanitizeTitle opened merged issues scored.
  rewrite yearEntries_points. unfold Stream.tagged.
  rewrite !filter_app, !sumOf_app, !human_points_of_category.
  unfold scored, Year.POINTS_PR_OPENED, Year.POINTS_PR_MERGED, Year.POINTS_ISSUE_OPENED.
  lia.
Qed.

(** ** The rebuild loop and the aggregates kept by [addActivity] *)

Lemma sumOf_cons {A : Type} (f : A -> Z) (x : A) (l : list A) :
  sumOf f (x :: l) = f x + sumOf f l.
Proof. reflexivity. Qed.

Section RebuildFacts.

Let bumpBucket (a : Year.RawActivity) (b : Year.Bucket) : Year.Bucket :=
  {| Year.count := Year.count b + 1; Year.points := Year.points b + Year.act_points a |}.

Let zeroBucket (a : Year.RawActivity) : Year.Bucket :=
  {| Year.count := 0; Year.points := 0 |}.

Let dayOf (a : Year.RawActivity) : string := Js.beforeT (Year.occured_at a).

Let bumpDay (a : Year.RawActivity) (d : Year.DailyEntry) : Year.DailyEntry :=
  {| Year.date := Year.date d;
     Year.day_count := Year.day_count d + 1;
     Year.day_points := Year.day_points d + Year.act_points a |}.

Let zeroDay (a : Year.RawActivity) : Year.DailyEntry :=
  {| Year.date := dayOf a; Year.day_count := 0; Year.day_points := 0 |}.

Lemma rebuildStep_fields (acc : Year.Rebuilt) (a : Year.RawActivity) :
  Year.breakdown (Year.rebuildStep acc a)
  = Js.alter Year.ActivityType_eqb (bumpBucket a) (Year.type a)
      (Js.ensure Year.ActivityType_eqb (Year.type a) (zeroBucket a) (Year.breakdown acc))
  /\ Year.daily (Year.rebuildStep acc a)
     = Js.alter String.eqb (bumpDay a) (dayOf a)
         (Js.ensure String.eqb (dayOf a) (zeroDay a) (Year.daily acc))
  /\ Year.total (Year.rebuildStep acc a) = Year.total acc + Year.act_points a.
Proof.
  unfold Year.rebuildStep. cbn [Year.breakdown Year.daily Year.total].
  rewrite !alter_alter. repeat split.
Qed.

Lemma rebuild_snoc (acts : list Year.RawActivity) (a : Year.RawActivity) :
  Year.rebuild (acts ++ [a]) = Year.rebuildStep (Year.rebuild acts) a.
Proof. unfold Year.rebuild. now rewrite fold_left_app. Qed.

Lemma rebuild_breakdown_fold (acts : list Year.RawActivity) :
  Year.breakdown (Year.rebuild acts)
  = fold_left
      (fun o a =>
         Js.alter Year.ActivityType_eqb (bumpBucket a) (Year.type a)
           (Js.ensure Year.ActivityType_eqb (Year.type a) (zeroBucket a) o))
      acts [].
Proof.
  induction acts as [|a acts IH] using rev_ind; [reflexivity|].
  rewrite rebuild_snoc, fold_left_app. cbn [fold_left].
  destruct (rebuildStep_fields (Year.rebuild acts) a) as [-> _]. now rewrite IH.
Qed.

Lemma rebuild_daily_fold (acts : list Year.RawActivity) :
  Year.daily (Year.rebuild acts)
  = fold_left
      (fun o a =>
         Js.alter String.eqb (bumpDay a) (dayOf a)
           (Js.ensure String.eqb (dayOf a) (zeroDay a) o))
      acts [].
Proof.
  induction acts as [|a acts IH] using rev_ind; [reflexivity|].
  rewrite rebuild_snoc, fold_left_app. cbn [fold_left].
  destruct (rebuildStep_fields (Year.rebuild acts) a) as (_ & -> & _). now rewrite IH.
Qed.

Lemma bucket_fold (l : list Year.RawActivity) (b0 : Year.Bucket) :
  let b := fold_left (fun b a => bumpBucket a b) l b0 in
  Year.count b = Year.count b0 + Z.of_nat (List.length l)
  /\ Year.points b = Year.points b0 + sumOf Year.act_points l.
Proof.
  revert b0. induction l as [|a l IH]; intros b0.
  - simpl. lia.
  - cbn [fold_left]. destruct (IH (bumpBucket a b0)) as [H1 H2].
    cbv zeta. rewrite H1, H2. unfold bumpBucket.
    cbn [Year.count Year.points List.length]. rewrite ?sumOf_cons.
    split; lia.
Qed.

Lemma day_fold (l : list Year.RawActivity) (d0 : Year.DailyEntry) :
  let d := fold_left (fun d a => bumpDay a d) l d0 in
  Year.date d = Year.date d0
  /\ Year.day_count d = Year.day_count d0 + Z.of_nat (List.length l)
  /\ Year.day_points d = Year.day_points d0 + sumOf Year.act_points l.
Proof.
  revert d0. induction l as [|a l IH]; intros d0.
  - simpl. split; [reflexivity|]. split; lia.
  - cbn [fold_left]. destruct (IH (bumpDay a d0)) as (H1 & H2 & H3).
    cbv zeta. rewrite H1, H2, H3. unfold bumpDay.
    cbn [Year.date Year.day_count Year.day_points List.length]. rewrite ?sumOf_cons.
    split; [reflexivity|]. split; lia.
Qed.

(** The breakdown the rebuild loop computes. *)
Lemma rebuild_breakdownCounts (acts : list Year.RawActivity) :
  Buckets.breakdownCounts Year.type Year.act_points
    (Year.breakdown (Year.rebuild acts)) acts.
Proof.
  rewrite rebuild_breakdown_fold. unfold Buckets.breakdownCounts.
  pose proof (@group_NoDup _ _ _ Year.ActivityType_eqb ActivityType_eqb_eq
                Year.type zeroBucket bumpBucket acts) as Hnd.
  split; [exact Hnd|]. split.
  - apply Forall_forall. intros [ty b] Hin. cbn [fst snd].
    apply (@In_get _ _ Year.ActivityType_eqb ActivityType_eqb_eq ty b _ Hnd) in Hin.
    rewrite (@group_get _ _ _ Year.ActivityType_eqb ActivityType_eqb_eq
               Year.type zeroBucket bumpBucket) in Hin.
    destruct (filter (fun x => Year.ActivityType_eqb (Year.type x) ty) acts)
      as [|a0 rest]; [discriminate|].
    injection Hin as <-. split; [discriminate|].
    destruct (bucket_fold rest (bumpBucket a0 (zeroBucket a0))) as [H1 H2].
    cbv zeta in H1, H2. rewrite H1, H2. unfold bumpBucket, zeroBucket.
    cbn [Year.count Year.points List.length]. rewrite ?sumOf_cons.
    split; lia.
  - apply Forall_forall. intros a Ha.
    apply (@group_key_present _ _ _ Year.ActivityType_eqb ActivityType_eqb_eq
             Year.type zeroBucket bumpBucket).
    now exists a.
Qed.

Lemma rebuild_daily_keys (acts : list Year.RawActivity) :
  map Year.date (Js.values (Year.daily (Year.rebuild acts)))
  = map fst (Year.daily (Year.rebuild acts)).
Proof.
  unfold Js.values. rewrite map_map. apply map_ext_in. intros [k d] Hin. cbn [fst snd].
  rewrite rebuild_daily_fold in Hin.
  pose proof (@group_NoDup _ _ _ String.eqb string_eqb_spec dayOf zeroDay bumpDay acts)
    as Hnd.
  apply (@In_get _ _ String.eqb string_eqb_spec k d _ Hnd) in Hin.
  rewrite (@group_get _ _ _ String.eqb string_eqb_spec dayOf zeroDay bumpDay) in Hin.
  destruct (filter (fun x => String.eqb (dayOf x) k) acts) as [|a0 rest] eqn:F;
    [discriminate|].
  injection Hin as <-.
  destruct (day_fold rest (bumpDay a0 (zeroDay a0))) as (H1 & _).
  cbv zeta in H1. rewrite H1. unfold bumpDay, zeroDay. cbn [Year.date].
  assert (H0 : In a0 (filter (fun x => String.eqb (dayOf x) k) acts))
    by (rewrite F; now left).
  apply filter_In in H0. destruct H0 as [_ H0]. now apply String.eqb_eq in H0.
Qed.

End RebuildFacts.

Section KeptAggregates.
Variable sanitizeTitle : option string -> option string.

Lemma map_eq_Forall {A B : Type} (f g : A -> B) (l : list A) :
  map f l = map g l -> Forall (fun x => f x = g x) l.
Proof.
  induction l as [|x l IH]; simpl; intros H; [constructor|].
  injection H as H1 H2. constructor; auto.
Qed.

Lemma daily_keyed (acts : list Year.RawActivity) :
  Forall (fun kd => Year.date (snd kd) = fst kd) (Year.daily (Year.rebuild acts)).
Proof.
  apply map_eq_Forall. pose proof (rebuild_daily_keys acts) as H.
  unfold Js.values in H. now rewrite map_map in H.
Qed.

Lemma find_keyed (day : string) (D : list (string * Year.DailyEntry)) :
  Forall (fun kd => Year.date (snd kd) = fst kd) D ->
  find (fun d => String.eqb (Year.date d) day) (Js.values D) = Js.get String.eqb day D.
Proof.
  induction 1 as [|[k d] D Hk _ IH]; simpl; [reflexivity|].
  simpl in Hk. rewrite Hk, (String.eqb_sym day k).
  destruct (String.eqb k day); [reflexivity | exact IH].
Qed.

Lemma alter_keyed_values (day : string) (f : Year.DailyEntry -> Year.DailyEntry)
    (D : list (string * Year.DailyEntry)) :
  Forall (fun kd => Year.date (snd kd) = fst kd) D ->
  Js.values (Js.alter String.eqb f day D)
  = Js.updateFirst (fun d => String.eqb (Year.date d) day) f (Js.values D).
Proof.
  induction 1 as [|[k d] D Hk _ IH]; simpl; [reflexivity|].
  simpl in Hk. rewrite Hk, (String.eqb_sym day k).
  destruct (String.eqb k day); [reflexivity|].
  change (Js.values ((k, d) :: Js.alter String.eqb f day D))
    with (d :: Js.values (Js.alter String.eqb f day D)).
  now rewrite IH.
Qed.

Lemma alter_app_fresh {V : Type} (f : V -> V) (k : string) (v : V)
    (D : list (string * V)) :
  Js.get String.eqb k D = None ->
  Js.alter String.eqb f k (D ++ [(k, v)]) = D ++ [(k, f v)].
Proof.
  induction D as [|[k' v'] D IH]; simpl.
  - intros _. now rewrite String.eqb_refl.
  - destruct (String.eqb k k'); [discriminate|]. intros H. now rewrite IH.
Qed.

(** [addActivity] keeps the aggregates in step with what the rebuild loop
    of [derivePeriod] makes of the log. *)
Lemma addActivity_inStep (e : Year.UserEntry) ty when pts meta :
  Buckets.inStep e ->
  Buckets.inStep (Year.addActivity sanitizeTitle e ty when pts meta).
Proof.
  intros (Ht & Hb & Hd). unfold Buckets.inStep.
  set (e' := Year.addActivity sanitizeTitle e ty when pts meta).
  assert (Hraw : exists a,
    Year.raw_activities e' = Year.raw_activities e ++ [a]
    /\ Year.type a = ty /\ Year.occured_at a = when /\ Year.act_points a = pts).
  { eexists. split; [reflexivity|]. repeat split. }
  destruct Hraw as (a & Hraw & Hty & Hwhen & Hpts).
  rewrite Hraw, rebuild_snoc.
  set (r := Year.rebuild (Year.raw_activities e)) in *.
  pose proof (daily_keyed (Year.raw_activities e)) as Hkeyed. fold r in Hkeyed.
  unfold Year.rebuildStep. cbn [Year.total Year.breakdown Year.daily].
  rewrite Hty, Hwhen, Hpts.
  unfold e', Year.addActivity.
  cbn [Year.total_points Year.activity_breakdown Year.daily_activity].
  rewrite Ht, Hb, Hd. split; [reflexivity|]. split; [reflexivity|].
  rewrite find_keyed by exact Hkeyed. rewrite alter_alter.
  unfold Js.ensure.
  destruct (Js.get String.eqb (Js.beforeT when) (Year.daily r)) as [d|] eqn:E.
  - now rewrite alter_keyed_values by exact Hkeyed.
  - rewrite alter_app_fresh by exact E. unfold Js.values. rewrite map_app. reflexivity.
Qed.

Lemma fold_foldItem_inStep ty when pts items users :
  Forall Buckets.inStep (Js.values users) ->
  Forall Buckets.inStep
    (Js.values (fold_left (Year.foldItem sanitizeTitle ty when pts) items users)).
Proof.
  revert users. induction items as [|it items IH]; simpl; intros users H.
  - exact H.
  - apply IH. unfold Year.foldItem.
    destruct (Year.isBotUser (Year.user it)); [exact H|].
    apply Forall_values_alter; [intros; now apply addActivity_inStep|].
    apply Forall_values_ensure; [|exact H].
    repeat split.
Qed.

Lemma yearEntries_inStep opened merged issues :
  Forall Buckets.inStep (Year.yearEntries sanitizeTitle opened merged issues).
Proof.
  unfold Year.yearEntries, Year.foldCategories.
  apply Forall_forall. intros e He.
  apply sort_In in He. apply filter_In in He. destruct He as [He _].
  revert e He. apply Forall_forall.
  do 3 apply fold_foldItem_inStep. constructor.
Qed.




End KeptAggregates.




(** ** Buckets of the derived documents *)

Lemma filter_map_comm {A B : Type} (p : B -> bool) (g : A -> B) (l : list A) :
  filter p (map g l) = map g (filter (fun x => p (g x)) l).
Proof.
  induction l as [|x l IH]; simpl; [reflexivity|].
  destruct (p (g x)); simpl; now rewrite IH.
Qed.

Lemma breakdownCounts_map {A B : Type} (g : A -> B)
    (kind : B -> Year.ActivityType) (pts : B -> Z) bd (acts : list A) :
  Buckets.breakdownCounts (fun a => kind (g a)) (fun a => pts (g a)) bd acts ->
  Buckets.breakdownCounts kind pts bd (map g acts).
Proof.
  intros (Hnd & Hb & Hc). split; [exact Hnd|]. split.
  - eapply Forall_impl; [|exact Hb]. cbv zeta. intros tb (Hne & Hn & Hp).
    rewrite filter_map_comm, length_map, sumOf_map.
    split; [|split; assumption].
    intros Hnil. apply map_eq_nil in Hnil. contradiction.
  - apply Forall_forall. intros b Hb'. apply in_map_iff in Hb'.
    destruct Hb' as [a [<- Ha]]. rewrite Forall_forall in Hc. now apply Hc.
Qed.



(** X7.  In the year document and in every derived document the
    breakdown has one bucket per activity kind that occurs among the entry's
    activities and none for a kind that does not; the bucket's count is the
    number of the entry's activities of that kind and its points are the sum
    of their points. *)
Theorem X7_breakdown_buckets_count_the_activities :
  forall (sanitizeTitle : option string -> option string)
         (parseDate : string -> option Z)
         (opened merged issues : list Year.GitHubItem)
         (cutoff : Z) (source : list Year.UserEntry),
    Forall
      (fun e =>
         Buckets.breakdownCounts Year.type Year.act_points
           (Year.activity_breakdown e) (Year.raw_activities e))
      (Year.yearEntries sanitizeTitle opened merged issues)
    /\ Forall
         (fun d =>
            Buckets.breakdownCounts Year.Derived.type Year.Derived.points
              (Year.Derived.activity_breakdown d) (Year.Derived.activities d))
         (Year.derivePeriod parseDate cutoff source).
Proof.
  intros sanitizeTitle parseDate opened merged issues cutoff source. split.
  - eapply Forall_impl; [|apply yearEntries_inStep]. intros e (_ & -> & _).
    apply rebuild_breakdownCounts.
  - apply Forall_forall. intros d Hd.
    apply derivePeriod_In in Hd. destruct Hd as (e & _ & Hd).
    apply deriveEntry_Some in Hd. destruct Hd as (_ & _ & _ & -> & _ & ->).
    apply breakdownCounts_map. apply rebuild_breakdownCounts.
Qed.


(** ** Periods and their cutoffs *)

Lemma filter_ext_in_bool {A : Type} (p q : A -> bool) (l : list A) :
  (forall x, In x l -> p x = q x) -> filter p l = filter q l.
Proof.
  induction l as [|x l IH]; simpl; intros H; [reflexivity|].
  rewrite (H x) by now left. rewrite IH; [reflexivity|]. intros y Hy. apply H. now right.
Qed.

(** X9.  A later cutoff gives a sub-period: every contributor of the period
    derived with the later cutoff is a contributor of the period derived with
    the earlier one, with the same identity, and the activities listed for the
    later cutoff are those listed for the earlier one that are at or after the
    later cutoff, in the same order. *)
Theorem X9_a_later_cutoff_gives_a_sub_period :
  forall (parseDate : string -> option Z) (c1 c2 : Z) (source : list Year.UserEntry),
    c1 <= c2 ->
    Forall
      (fun d2 =>
         exists d1,
           In d1 (Year.derivePeriod parseDate c1 source)
           /\ Year.Derived.username d1 = Year.Derived.username d2
           /\ Year.Derived.name d1 = Year.Derived.name d2
           /\ Year.Derived.activities d2
              = filter
                  (fun a => match parseDate (Year.Derived.occured_at a) with
                            | Some t => c2 <=? t
                            | None => false
                            end)
                  (Year.Derived.activities d1))
      (Year.derivePeriod parseDate c2 source).
Proof.
  intros parseDate c1 c2 source Hle.
  apply Forall_forall. intros d2 Hd2.
  apply derivePeriod_In in Hd2. destruct Hd2 as (e & He & Hd2).
  assert (Hsub : filter (Year.inRange parseDate c2)
                   (filter (Year.inRange parseDate c1) (Year.raw_activities e))
                 = filter (Year.inRange parseDate c2) (Year.raw_activities e)).
  { rewrite filter_filter. apply filter_ext_in_bool. intros a _.
    unfold Year.inRange. destruct (parseDate (Year.occured_at a)) as [t|]; [|reflexivity].
    destruct (c2 <=? t) eqn:E2; [|apply andb_false_r].
    apply Z.leb_le in E2. rewrite andb_true_r. apply Z.leb_le. lia. }
  unfold Year.deriveEntry in Hd2.
  destruct (filter (Year.inRange parseDate c2) (Year.raw_activities e))
    as [|a2 acts2] eqn:F2; [discriminate|].
  destruct (Year.deriveEntry parseDate c1 e) as [d1|] eqn:Hd1.
  - exists d1. split; [apply derivePeriod_In; now exists e|].
    unfold Year.deriveEntry in Hd1.
    destruct (filter (Year.inRange parseDate c1) (Year.raw_activities e))
      as [|a1 acts1] eqn:F1; [discriminate|].
    injection Hd1 as <-. injection Hd2 as <-.
    cbn [Year.Derived.username Year.Derived.name Year.Derived.activities].
    split; [reflexivity|]. split; [reflexivity|].
    change (Year.toActivity e a1 :: map (Year.toActivity e) acts1)
      with (map (Year.toActivity e) (a1 :: acts1)).
    change (Year.toActivity e a2 :: map (Year.toActivity e) acts2)
      with (map (Year.toActivity e) (a2 :: acts2)).
    rewrite filter_map_comm. cbn [Year.toActivity Year.Derived.occured_at].
    change (fun x => match parseDate (Year.occured_at x) with
                     | Some t => c2 <=? t
                     | None => false
                     end) with (Year.inRange parseDate c2).
    now rewrite Hsub.
  - exfalso. unfold Year.deriveEntry in Hd1.
    destruct (filter (Year.inRange parseDate c1) (Year.raw_activities e)) eqn:F1;
      [|discriminate].
    simpl in Hsub. congruence.
Qed.

Lemma X9_witness :
  1709000000000 <= 1710000000000
  /\ Forall
       (fun d2 =>
          exists d1,
            In d1 (Year.derivePeriod Sample2.parseDate 1709000000000 Sample2.entries)
            /\ Year.Derived.username d1 = Year.Derived.username d2)
       (Year.derivePeriod Sample2.parseDate 1710000000000 Sample2.entries).
Proof.
  split; [lia|].
  eapply Forall_impl;
    [|exact (@X9_a_later_cutoff_gives_a_sub_period Sample2.parseDate
               1709000000000 1710000000000 Sample2.entries ltac:(lia))].
  intros d2 (d1 & H1 & H2 & _). exists d1. auto.
Defined.

(** ** What a completed fetch returns *)

Lemma map_seq_succ {B : Type} (g : nat -> B) (m : nat) :
  map g (seq 0 (S m)) = g 0%nat :: map (fun i => g (S i)) (seq 0 m).
Proof.
  change (seq 0 (S m)) with (0%nat :: seq 1 m).
  rewrite <- seq_shift, map_cons, map_map. reflexivity.
Qed.

Section CompletedRuns.
Variable World : Type.
Variable respond : World -> Year.Request -> Year.Response * World.
Variable elapse : Z -> World -> World.
Variable addDays : Z -> Z -> Z.

Lemma received_app (evs1 evs2 : list Year.Event) :
  Answers.received (evs1 ++ evs2) = Answers.received evs1 ++ Answers.received evs2.
Proof.
  induction evs1 as [|[rq res|ms] evs1 IH]; simpl; [reflexivity| |exact IH].
  now rewrite IH, app_assoc.
Qed.

Lemma answers_app (evs1 evs2 : list Year.Event) :
  Answers.answers (evs1 ++ evs2) = Answers.answers evs1 ++ Answers.answers evs2.
Proof.
  induction evs1 as [|[rq res|ms] evs1 IH]; simpl; [reflexivity| |exact IH].
  now rewrite IH.
Qed.

(** A call of [ghSearch] that returns has met a success status and a body
    that parsed, and has waited. *)
Lemma ghSearch_Done (rq : Year.Request) (s s1 : Year.State World)
    (r : option (list Year.GitHubItem)) :
  Year.ghSearch respond elapse rq s = (Year.Done r, s1) ->
  exists res,
    Year.trace s1 = Year.trace s ++ [Year.EvFetch rq res; Year.EvSleep 2500]
    /\ Year.ok res = true
    /\ Year.json res = Some r.
Proof.
  unfold Year.ghSearch, Year.bind, Year.fetch.
  destruct (respond (Year.world s) rq) as [res w].
  destruct (Year.ok res) eqn:Hok; simpl; [|discriminate].
  destruct (Year.json res) as [r'|] eqn:Hj; simpl; [|discriminate].
  intros [= <- <-]. exists res. simpl. rewrite <- app_assoc. auto.
Qed.

(** The page loop, when it completes. *)
Lemma pages_run fuel baseQuery from to :
  forall page all (s s' : Year.State World) items,
    Year.pages respond elapse fuel baseQuery from to page all s = (Year.Done items, s') ->
    exists evs n front last,
      Year.trace s' = Year.trace s ++ evs
      /\ Requests.sent evs
         = map (fun i => {| Year.rq_query := baseQuery; Year.rq_from := from;
                            Year.rq_to := to; Year.rq_page := page + Z.of_nat i |})
             (seq 0 (S n))
      /\ items = all ++ Answers.received evs
      /\ Answers.answers evs = front ++ [last]
      /\ Forall (fun res => Answers.fullPage res = true) front
      /\ Answers.fullPage last = false
      /\ Forall (fun res => Year.ok res = true) (Answers.answers evs).
Proof.
  induction fuel as [|fuel IH]; intros page all s s' items; [discriminate|].
  cbn [Year.pages]. intros Hrun. apply bind_Done in Hrun.
  destruct Hrun as (r & s1 & Hg & Hrest).
  apply ghSearch_Done in Hg. destruct Hg as (res & Ht1 & Hok & Hj).
  set (rq := {| Year.rq_query := baseQuery; Year.rq_from := from;
                Year.rq_to := to; Year.rq_page := page |}) in *.
  assert (Hstop : forall items0,
    (r = None /\ items0 = []) \/ (r = Some items0 /\ (Z.of_nat (List.length items0) <? 100) = true) ->
    Answers.itemsOf res = items0 /\ Answers.fullPage res = false).
  { intros items0 [[-> ->]|[-> Hlt]]; unfold Answers.itemsOf, Answers.fullPage;
      rewrite Hj; [auto|].
    split; [reflexivity|]. apply Z.ltb_lt in Hlt. apply Z.leb_gt. lia. }
  assert (Hfinish : forall items0,
    Answers.itemsOf res = items0 -> Answers.fullPage res = false ->
    s' = s1 -> items = all ++ items0 ->
    exists evs n front last,
      Year.trace s' = Year.trace s ++ evs
      /\ Requests.sent evs
         = map (fun i => {| Year.rq_query := baseQuery; Year.rq_from := from;
                            Year.rq_to := to; Year.rq_page := page + Z.of_nat i |})
             (seq 0 (S n))
      /\ items = all ++ Answers.received evs
      /\ Answers.answers evs = front ++ [last]
      /\ Forall (fun res => Answers.fullPage res = true) front
      /\ Answers.fullPage last = false
      /\ Forall (fun res => Year.ok res = true) (Answers.answers evs)).
  { intros items0 Hi Hf -> ->.
    exists [Year.EvFetch rq res; Year.EvSleep 2500], 0%nat, [], res.
    split; [exact Ht1|]. simpl. rewrite Hi, app_nil_r, Z.add_0_r.
    repeat split; auto. }
  destruct r as [items0|].
  - destruct (Z.of_nat (List.length items0) <? 100) eqn:Hlt.
    + injection Hrest as <- <-.
      destruct (Hstop items0 (or_intror (conj eq_refl Hlt))) as [Hi Hf].
      now apply (Hfinish items0).
    + apply IH in Hrest.
      destruct Hrest as (evs & n & front & last & Ht2 & Hs & Hit & Ha & Hfull & Hlast & Hoks).
      exists ([Year.EvFetch rq res; Year.EvSleep 2500] ++ evs), (S n), (res :: front), last.
      rewrite Ht2, Ht1, <- app_assoc. split; [reflexivity|].
      assert (Hi : Answers.itemsOf res = items0)
        by (unfold Answers.itemsOf; now rewrite Hj).
      assert (Hf : Answers.fullPage res = true).
      { unfold Answers.fullPage. rewrite Hj. apply Z.ltb_ge in Hlt.
        apply Z.leb_le. lia. }
      cbn [app Requests.sent Answers.received Answers.answers].
      rewrite Hs, Hit, Hi, Ha, <- app_assoc.
      split.
      { rewrite (map_seq_succ _ (S n)). rewrite Z.add_0_r. f_equal.
        apply map_ext. intros i. f_equal. lia. }
      split; [reflexivity|]. split; [reflexivity|].
      split; [now constructor|]. split; [exact Hlast|].
      rewrite <- Ha. now constructor.
  - injection Hrest as <- <-.
    destruct (Hstop [] (or_introl (conj eq_refl eq_refl))) as [Hi Hf].
    apply (Hfinish []); auto. now rewrite app_nil_r.
Qed.

Lemma sent_queries_app (q : string) (evs1 evs2 : list Year.Event) :
  Forall (fun rq => Year.rq_query rq = q) (Requests.sent evs1) ->
  Forall (fun rq => Year.rq_query rq = q) (Requests.sent evs2) ->
  Forall (fun rq => Year.rq_query rq = q) (Requests.sent (evs1 ++ evs2)).
Proof. intros H1 H2. rewrite sent_app. apply Forall_app. now split. Qed.

(** The chunk loop, when it completes. *)
Lemma chunks_run fuel pageFuel baseQuery end_ stepDays :
  forall cursor all (s s' : Year.State World) items,
    Year.chunks respond elapse addDays fuel pageFuel baseQuery cursor end_ stepDays all s
      = (Year.Done items, s') ->
    exists evs,
      Year.trace s' = Year.trace s ++ evs
      /\ Forall (fun rq => Year.rq_query rq = baseQuery) (Requests.sent evs)
      /\ items = all ++ Answers.received evs
      /\ Forall (fun res => Year.ok res = true) (Answers.answers evs).
Proof.
  induction fuel as [|fuel IH]; intros cursor all s s' items; simpl;
    destruct (cursor <? end_) eqn:E.
  - discriminate.
  - intros [= <- <-]. exists []. simpl. rewrite !app_nil_r. repeat split; constructor.
  - intros Hrun. apply bind_Done in Hrun. destruct Hrun as (all' & s1 & Hp & Hrest).
    apply pages_run in Hp.
    destruct Hp as (evs1 & n & front & last & Ht1 & Hs1 & Hit1 & _ & _ & _ & Hok1).
    apply IH in Hrest. destruct Hrest as (evs2 & Ht2 & Hq2 & Hit2 & Hok2).
    exists (evs1 ++ evs2). rewrite Ht2, Ht1, <- app_assoc. split; [reflexivity|].
    split; [|split].
    + apply sent_queries_app; [|exact Hq2]. rewrite Hs1.
      apply Forall_forall. intros rq Hrq. apply in_map_iff in Hrq.
      destruct Hrq as [i [<- _]]. reflexivity.
    + rewrite Hit2, Hit1, received_app, app_assoc. reflexivity.
    + rewrite answers_app. apply Forall_app. now split.
  - intros [= <- <-]. exists []. simpl. rewrite !app_nil_r. repeat split; constructor.
Qed.
End CompletedRuns.

(** X10.  A call of [searchByDateChunks] that returns has sent requests for
    its base query only, every one answered with a success status; the date
    ranges it asked for are, in order, the calendar days of the bounds of the
    sub-ranges of its outer loop; and what it returns is the items of all the
    responses, in the order received, none dropped and none repeated. *)
Theorem X10_a_completed_search_returns_what_it_received :
  forall (World : Type)
         (respond : World -> Year.Request -> Year.Response * World)
         (elapse : Z -> World -> World) (addDays : Z -> Z -> Z)
         (fuel pageFuel : nat) (baseQuery : string) (start end_ stepDays : Z)
         (s s' : Year.State World) (items : list Year.GitHubItem)
         (evs : list Year.Event),
    Year.searchByDateChunks respond elapse addDays fuel pageFuel baseQuery
      start end_ stepDays s = (Year.Done items, s') ->
    Year.trace s' = Year.trace s ++ evs ->
    items = Answers.received evs
    /\ Forall (fun rq => Year.rq_query rq = baseQuery) (Requests.sent evs)
    /\ Forall (fun res => Year.ok res = true) (Answers.answers evs)
    /\ exists cs,
         Year.dateChunks addDays fuel start end_ stepDays = Some cs
         /\ Requests.ranges (Requests.sent evs)
            = map (fun c => (Year.iso (fst c), Year.iso (snd c))) cs.
Proof.
  intros World respond elapse addDays fuel pageFuel baseQuery start end_ stepDays
    s s' items evs Hrun Htr.
  unfold Year.searchByDateChunks in Hrun.
  pose proof Hrun as Hrun'.
  apply chunks_run in Hrun. destruct Hrun as (evs1 & Ht1 & Hq & Hit & Hok).
  apply chunks_sent in Hrun'. destruct Hrun' as (evs2 & cs & Ht2 & Hcs & Hr).
  rewrite Htr in Ht1, Ht2. apply app_inv_head in Ht1, Ht2. subst evs1 evs2.
  split; [exact Hit|]. split; [exact Hq|]. split; [exact Hok|]. now exists cs.
Qed.

Lemma X10_witness :
  let run :=
    Year.searchByDateChunks Sample4.single Sample4.elapse Sample.addDays 5 5
      "org:CircuitVerse+is:issue" 1703548800005 1709596800005 30 Sample4.start in
  fst run = Year.Done (Answers.received (Year.trace (snd run)))
  /\ List.length (Answers.received (Year.trace (snd run))) = 3%nat.
Proof.
  intros run. split; [|reflexivity].
  assert (H : run = (Year.Done (repeat (Sample.item (Sample.human "alice")
                                          "2024-03-05T09:00:00Z") 3), snd run))
    by reflexivity.
  destruct (@X10_a_completed_search_returns_what_it_received unit Sample4.single
              Sample4.elapse Sample.addDays 5%nat 5%nat "org:CircuitVerse+is:issue"
              1703548800005 1709596800005 30 Sample4.start (snd run) _
              (Year.trace (snd run)) H eq_refl) as [Hitems _].
  rewrite <- Hitems. reflexivity.
Defined.

(** X11.  The page loop of one sub-range, when it completes, has asked for
    the pages [page], [page + 1], ... in order, at least one; every response
    but the last held a full page of 100 items or more, and the last did not
    (fewer items, or no [items] at all); the items of all of them are appended
    to those collected before. *)
Theorem X11_paging_stops_at_the_first_short_page :
  forall (World : Type)
         (respond : World -> Year.Request -> Year.Response * World)
         (elapse : Z -> World -> World)
         (fuel : nat) (baseQuery : string) (from to page : Z)
         (all : list Year.GitHubItem)
         (s s' : Year.State World) (items : list Year.GitHubItem)
         (evs : list Year.Event),
    Year.pages respond elapse fuel baseQuery from to page all s = (Year.Done items, s') ->
    Year.trace s' = Year.trace s ++ evs ->
    exists n front last,
      Requests.sent evs
      = map (fun i => {| Year.rq_query := baseQuery; Year.rq_from := from;
                         Year.rq_to := to; Year.rq_page := page + Z.of_nat i |})
          (seq 0 (S n))
      /\ Answers.answers evs = front ++ [last]
      /\ Forall (fun res => Answers.fullPage res = true) front
      /\ Answers.fullPage last = false
      /\ items = all ++ Answers.received evs.
Proof.
  intros World respond elapse fuel baseQuery from to page all s s' items evs Hrun Htr.
  apply pages_run in Hrun.
  destruct Hrun as (evs1 & n & front & last & Ht1 & Hs & Hit & Ha & Hfull & Hlast & _).
  rewrite Htr in Ht1. apply app_inv_head in Ht1. subst evs1.
  exists n, front, last. auto.
Qed.

Lemma X11_witness :
  let run :=
    Year.pages Sample4.paged Sample4.elapse 5 "org:CircuitVerse+is:pr" 19787 19817 1 []
      Sample4.start in
  exists n front last,
    map Year.rq_page (Requests.sent (Year.trace (snd run)))
    = map (fun i => 1 + Z.of_nat i) (seq 0 (S n))
    /\ Answers.answers (Year.trace (snd run)) = front ++ [last]
    /\ List.length front = 2%nat.
Proof.
  intros run.
  assert (H : run = (Year.Done (Answers.received (Year.trace (snd run))), snd run))
    by reflexivity.
  destruct (@X11_paging_stops_at_the_first_short_page unit Sample4.paged
              Sample4.elapse 5%nat "org:CircuitVerse+is:pr" 19787 19817 1 []
              Sample4.start (snd run) _ (Year.trace (snd run)) H eq_refl)
    as (n & front & last & Hs & Ha & _).
  exists n, front, last. split; [|split; [exact Ha|]].
  - rewrite Hs, map_map. reflexivity.
  - apply (f_equal (@List.length _)) in Ha. rewrite length_app in Ha.
    change (List.length (Answers.answers (Year.trace (snd run)))) with 3%nat in Ha.
    simpl in Ha. lia.
Defined.

(** ** The year document as a function of the responses *)

Section EndToEnd.
Variable World : Type.
Variable respond : World -> Year.Request -> Year.Response * World.
Variable elapse : Z -> World -> World.
Variable clock : World -> Z.
Variable addDays : Z -> Z -> Z.
Variable sanitizeTitle : option string -> option string.
Variable parseDate : string -> option Z.

Lemma receivedFor_app (q : string) (evs1 evs2 : list Year.Event) :
  Answers.receivedFor q (evs1 ++ evs2)
  = Answers.receivedFor q evs1 ++ Answers.receivedFor q evs2.
Proof.
  induction evs1 as [|[rq res|ms] evs1 IH]; simpl; [reflexivity| |exact IH].
  destruct (String.eqb (Year.rq_query rq) q); [|exact IH].
  now rewrite IH, app_assoc.
Qed.

Lemma receivedFor_same (q : string) (evs : list Year.Event) :
  Forall (fun rq => Year.rq_query rq = q) (Requests.sent evs) ->
  Answers.receivedFor q evs = Answers.received evs.
Proof.
  induction evs as [|[rq res|ms] evs IH]; simpl; intros H; [reflexivity| |auto].
  inversion H as [|? ? Hq Hrest]; subst.
  rewrite String.eqb_refl. now rewrite IH.
Qed.

Lemma receivedFor_other (q q' : string) (evs : list Year.Event) :
  q' <> q ->
  Forall (fun rq => Year.rq_query rq = q') (Requests.sent evs) ->
  Answers.receivedFor q evs = [].
Proof.
  intros Hne. induction evs as [|[rq res|ms] evs IH]; simpl; intros H; [reflexivity| |auto].
  inversion H as [|? ? Hq Hrest]; subst.
  apply String.eqb_neq in Hne. rewrite Hne. auto.
Qed.

Lemma daysAgo_Done (n d : Z) (s s' : Year.State World) :
  Year.daysAgo clock addDays n s = (Year.Done d, s') -> s' = s.
Proof. unfold Year.daysAgo, Year.bind, Year.newDate, Year.ret. congruence. Qed.

Lemma derive_Done_state (source : list Year.UserEntry) (days : Z)
    (s s' : Year.State World) (out : list Year.Derived.Entry) :
  Year.derive clock addDays parseDate source days s = (Year.Done out, s') -> s' = s.
Proof. unfold Year.derive, Year.daysAgo, Year.bind, Year.newDate, Year.ret. congruence. Qed.

Lemma generateYear_run fuel pageFuel (s s' : Year.State World) (docs : Year.Documents) :
  Year.generateYear respond elapse clock addDays sanitizeTitle parseDate fuel pageFuel s
    = (Year.Done docs, s') ->
  exists evs1 evs2 evs3,
    Year.trace s' = Year.trace s ++ evs1 ++ evs2 ++ evs3
    /\ Forall (fun rq => Year.rq_query rq = "org:CircuitVerse+is:pr") (Requests.sent evs1)
    /\ Forall (fun rq => Year.rq_query rq = "org:CircuitVerse+is:pr+is:merged")
         (Requests.sent evs2)
    /\ Forall (fun rq => Year.rq_query rq = "org:CircuitVerse+is:issue")
         (Requests.sent evs3)
    /\ Year.year docs
       = Year.yearEntries sanitizeTitle (Answers.received evs1) (Answers.received evs2)
           (Answers.received evs3).
Proof.
  unfold Year.generateYear. intros Hrun.
  apply bind_Done in Hrun. destruct Hrun as (since & s1 & H1 & Hrun).
  apply daysAgo_Done in H1. subst s1.
  apply bind_Done in Hrun. destruct Hrun as (now & s2 & H2 & Hrun).
  injection H2 as _ <-.
  apply bind_Done in Hrun. destruct Hrun as (opened & s3 & Ho & Hrun).
  apply bind_Done in Hrun. destruct Hrun as (merged & s4 & Hm & Hrun).
  apply bind_Done in Hrun. destruct Hrun as (issues & s5 & Hi & Hrun).
  apply bind_Done in Hrun. destruct Hrun as (w1 & s6 & D1 & Hrun).
  apply bind_Done in Hrun. destruct Hrun as (w2 & s7 & D2 & Hrun).
  apply bind_Done in Hrun. destruct Hrun as (w3 & s8 & D3 & Hrun).
  apply bind_Done in Hrun. destruct Hrun as (m1 & s9 & D4 & Hrun).
  apply bind_Done in Hrun. destruct Hrun as (m2 & s10 & D5 & Hrun).
  apply derive_Done_state in D1, D2, D3, D4, D5. subst s6 s7 s8 s9 s10.
  injection Hrun as <- <-.
  unfold Year.searchByDateChunks in Ho, Hm, Hi.
  apply chunks_run in Ho, Hm, Hi.
  destruct Ho as (evs1 & T1 & Q1 & I1 & _).
  destruct Hm as (evs2 & T2 & Q2 & I2 & _).
  destruct Hi as (evs3 & T3 & Q3 & I3 & _).
  exists evs1, evs2, evs3.
  rewrite T3, T2, T1, <- !app_assoc. split; [reflexivity|].
  split; [exact Q1|]. split; [exact Q2|]. split; [exact Q3|].
  cbn [Year.year]. subst opened merged issues. reflexivity.
Qed.
End EndToEnd.

(** X12.  The year document of a completed run is the aggregation of what
    the three searches received: the items answered to the requests for pull
    requests as opened, those answered to the requests for merged pull
    requests as merged, those answered to the requests for issues as issues;
    each derived period is [derivePeriod] of that year document at some
    cutoff. *)
Theorem X12_year_document_from_the_responses :
  forall (World : Type)
         (respond : World -> Year.Request -> Year.Response * World)
         (elapse : Z -> World -> World) (clock : World -> Z)
         (addDays : Z -> Z -> Z)
         (sanitizeTitle : option string -> option string)
         (parseDate : string -> option Z)
         (fuel pageFuel : nat) (s s' : Year.State World)
         (docs : Year.Documents) (evs : list Year.Event),
    Year.generateYear respond elapse clock addDays sanitizeTitle parseDate
      fuel pageFuel s = (Year.Done docs, s') ->
    Year.trace s' = Year.trace s ++ evs ->
    Year.year docs
    = Year.yearEntries sanitizeTitle
        (Answers.receivedFor "org:CircuitVerse+is:pr" evs)
        (Answers.receivedFor "org:CircuitVerse+is:pr+is:merged" evs)
        (Answers.receivedFor "org:CircuitVerse+is:issue" evs)
    /\ Forall (fun period => exists cutoff,
                 period = Year.derivePeriod parseDate cutoff (Year.year docs))
         [Year.week docs; Year.twoWeek docs; Year.threeWeek docs;
          Year.month docs; Year.twoMonth docs].
Proof.
  intros World respond elapse clock addDays sanitizeTitle parseDate fuel pageFuel
    s s' docs evs Hrun Htr.
  split.
  - apply generateYear_run in Hrun.
    destruct Hrun as (evs1 & evs2 & evs3 & Ht & Q1 & Q2 & Q3 & Hy).
    rewrite Htr in Ht. apply app_inv_head in Ht. subst evs.
    rewrite !receivedFor_app.
    rewrite (@receivedFor_same "org:CircuitVerse+is:pr" evs1 Q1).
    rewrite (@receivedFor_same "org:CircuitVerse+is:pr+is:merged" evs2 Q2).
    rewrite (@receivedFor_same "org:CircuitVerse+is:issue" evs3 Q3).
    rewrite (@receivedFor_other "org:CircuitVerse+is:pr"
               "org:CircuitVerse+is:pr+is:merged" evs2 ltac:(discriminate) Q2).
    rewrite (@receivedFor_other "org:CircuitVerse+is:pr"
               "org:CircuitVerse+is:issue" evs3 ltac:(discriminate) Q3).
    rewrite (@receivedFor_other "org:CircuitVerse+is:pr+is:merged"
               "org:CircuitVerse+is:pr" evs1 ltac:(discriminate) Q1).
    rewrite (@receivedFor_other "org:CircuitVerse+is:pr+is:merged"
               "org:CircuitVerse+is:issue" evs3 ltac:(discriminate) Q3).
    rewrite (@receivedFor_other "org:CircuitVerse+is:issue"
               "org:CircuitVerse+is:pr" evs1 ltac:(discriminate) Q1).
    rewrite (@receivedFor_other "org:CircuitVerse+is:issue"
               "org:CircuitVerse+is:pr+is:merged" evs2 ltac:(discriminate) Q2).
    simpl. rewrite !app_nil_r. exact Hy.
  - apply generateYear_documents in Hrun.
    destruct Hrun as (_ & _ & _ & _ & Hp). exact Hp.
Qed.

Lemma X12_witness :
  let run :=
    Year.generateYear Sample4.single Sample4.elapse Sample4.clock Sample.addDays
      Sample.keepTitle Sample2.parseDate 20 5 Sample4.start in
  exists docs,
    fst run = Year.Done docs
    /\ map (fun e => (Year.username e, Year.total_points e)) (Year.year docs)
       = [("alice", 104)].
Proof.
  intros run.
  destruct (fst run) as [docs|e|] eqn:Eo.
  - exists docs. split; [reflexivity|].
    assert (H : run = (Year.Done docs, snd run))
      by (rewrite <- Eo; apply surjective_pairing).
    destruct (@X12_year_document_from_the_responses unit Sample4.single Sample4.elapse
                Sample4.clock Sample.addDays Sample.keepTitle Sample2.parseDate
                20%nat 5%nat Sample4.start (snd run) docs (Year.trace (snd run))
                H eq_refl) as [Hy _].
    rewrite Hy. vm_compute. reflexivity.
  - vm_compute in Eo. discriminate Eo.
  - vm_compute in Eo. discriminate Eo.
Defined.

(** ** [sanitizeTitle] *)

Example sanitizeTitle_of_the_example :
  Title.sanitizeTitle (Some Title.example)
  = Some [70; 105; 120; 32; 67; 111; 109; 109; 101; 110; 116; 97; 116; 111; 114;
          32; 45; 32; 115; 111; 109; 101; 116; 104; 105; 110; 103].
Proof. reflexivity. Qed.

Section TitleFacts.

Lemma trimStart_suffix (s : list Z) : exists pre, s = pre ++ Title.trimStart s
  /\ Forall (fun c => Title.isSpace c = true) pre.
Proof.
  induction s as [|c s IH]; simpl.
  - exists []. split; [reflexivity|constructor].
  - destruct (Title.isSpace c) eqn:E.
    + destruct IH as (pre & Hs & Hp). exists (c :: pre). simpl.
      split; [now rewrite <- Hs | now constructor].
    + exists []. split; [reflexivity|constructor].
Qed.

Lemma trimStart_startsClean (s : list Z) : Title.startsClean (Title.trimStart s) = true.
Proof.
  induction s as [|c s IH]; simpl; [reflexivity|].
  destruct (Title.isSpace c) eqn:E; [exact IH|]. simpl. now rewrite E.
Qed.

Lemma trimStart_clean (s : list Z) : Title.startsClean s = true -> Title.trimStart s = s.
Proof.
  destruct s as [|c s]; simpl; [reflexivity|].
  intros H. apply negb_true_iff in H. now rewrite H.
Qed.

Lemma trimEnd_prefix (s : list Z) : exists post, s = Title.trimEnd s ++ post
  /\ Forall (fun c => Title.isSpace c = true) post.
Proof.
  unfold Title.trimEnd. destruct (trimStart_suffix (rev s)) as (pre & Hs & Hp).
  exists (rev pre). split.
  - rewrite <- rev_app_distr, <- Hs. now rewrite rev_involutive.
  - now apply Forall_rev.
Qed.

Lemma Forall_trim (P : Z -> Prop) (s : list Z) : Forall P s -> Forall P (Title.trim s).
Proof.
  intros H. unfold Title.trim.
  destruct (trimStart_suffix s) as (pre & Hs & _).
  destruct (trimEnd_prefix (Title.trimStart s)) as (post & He & _).
  rewrite Hs, He in H. apply Forall_app in H. destruct H as [_ H].
  apply Forall_app in H. tauto.
Qed.

Lemma Forall_collapseFrom (P : Z -> Prop) (b : bool) (s : list Z) :
  P 32 -> Forall P s -> Forall P (Title.collapseFrom b s).
Proof.
  intros H32 H. revert b. induction H as [|c s Hc _ IH]; intros b; simpl; [constructor|].
  destruct (Title.isSpace c); [destruct b|]; try constructor; auto.
Qed.

Lemma Forall_replaceColons (s : list Z) :
  Forall (fun c => c <> 91 /\ c <> 93) s ->
  Forall (fun c => c <> 91 /\ c <> 93 /\ c <> 58) (Title.replaceColons s).
Proof.
  induction 1 as [|c s [H1 H2] _ IH]; simpl; [constructor|].
  destruct (c =? 58) eqn:E.
  - simpl. repeat constructor; try lia. exact IH.
  - apply Z.eqb_neq in E. simpl. constructor; [tauto | exact IH].
Qed.

Lemma Forall_removeBrackets (s : list Z) :
  Forall (fun c => c <> 91 /\ c <> 93) (Title.removeBrackets s).
Proof.
  apply Forall_forall. intros c Hc. unfold Title.removeBrackets in Hc.
  apply filter_In in Hc. destruct Hc as [_ Hc].
  apply negb_true_iff, orb_false_iff in Hc. destruct Hc as [H1 H2].
  apply Z.eqb_neq in H1, H2. tauto.
Qed.

Lemma sanitizeTitle_Some (t : option (list Z)) (s : list Z) :
  Title.sanitizeTitle t = Some s ->
  exists s0, t = Some s0 /\ s0 <> []
    /\ s = Title.trim (Title.collapseSpaces (Title.replaceColons (Title.removeBrackets s0))).
Proof.
  destruct t as [[|c s0]|]; simpl; try discriminate.
  intros [= <-]. exists (c :: s0). repeat split. discriminate.
Qed.
End TitleFacts.

(** X13.  A sanitized title holds no bracket and no colon: whatever the
    title, the result of [sanitizeTitle] has no code unit 91, 93 or 58. *)
Theorem X13_sanitized_title_has_no_bracket_or_colon :
  forall (t : option (list Z)) (s : list Z),
    Title.sanitizeTitle t = Some s ->
    Forall (fun c => c <> 91 /\ c <> 93 /\ c <> 58) s.
Proof.
  intros t s H. apply sanitizeTitle_Some in H. destruct H as (s0 & _ & _ & ->).
  apply Forall_trim. apply Forall_collapseFrom; [lia|].
  apply Forall_replaceColons, Forall_removeBrackets.
Qed.

Lemma X13_witness :
  Forall (fun c => c <> 91 /\ c <> 93 /\ c <> 58)
    [70; 105; 120; 32; 67; 111; 109; 109; 101; 110; 116; 97; 116; 111; 114;
     32; 45; 32; 115; 111; 109; 101; 116; 104; 105; 110; 103].
Proof.
  exact (@X13_sanitized_title_has_no_bracket_or_colon (Some Title.example) _ eq_refl).
Defined.

Section TitleSpacing.

Lemma collapseFrom_clean (b : bool) (s : list Z) :
  Title.startsClean s = true -> Title.collapseFrom b s = Title.collapseFrom false s.
Proof.
  destruct s as [|c s]; simpl; [reflexivity|].
  intros H. apply negb_true_iff in H. now rewrite H.
Qed.

Lemma collapseFrom_startsClean_true (s : list Z) :
  Title.startsClean (Title.collapseFrom true s) = true.
Proof.
  induction s as [|c s IH]; simpl; [reflexivity|].
  destruct (Title.isSpace c) eqn:E; [exact IH|]. simpl. now rewrite E.
Qed.

Lemma collapseFrom_singleSpaced (b : bool) (s : list Z) :
  Title.singleSpaced (Title.collapseFrom b s) = true.
Proof.
  revert b. induction s as [|c s IH]; intros b; simpl; [reflexivity|].
  destruct (Title.isSpace c) eqn:E.
  - destruct b; [apply IH|].
    simpl. rewrite collapseFrom_startsClean_true, IH. reflexivity.
  - simpl. rewrite E, IH. reflexivity.
Qed.

Lemma singleSpaced_app (s1 s2 : list Z) :
  Title.singleSpaced (s1 ++ s2) = true -> Title.singleSpaced s1 = true /\ Title.singleSpaced s2 = true.
Proof.
  induction s1 as [|c s1 IH]; simpl; [auto|].
  intros H. apply andb_true_iff in H. destruct H as [Hc Hr].
  destruct (IH Hr) as [H1 H2]. split; [|exact H2].
  rewrite H1, andb_true_r.
  destruct (Title.isSpace c); [|reflexivity].
  apply andb_true_iff in Hc. destruct Hc as [Hc Hs]. rewrite Hc. simpl.
  destruct s1 as [|d s1]; [reflexivity | exact Hs].
Qed.

Lemma trim_singleSpaced (s : list Z) :
  Title.singleSpaced s = true -> Title.singleSpaced (Title.trim s) = true.
Proof.
  intros H. unfold Title.trim.
  destruct (trimStart_suffix s) as (pre & Hs & _).
  destruct (trimEnd_prefix (Title.trimStart s)) as (post & He & _).
  rewrite Hs in H. apply singleSpaced_app in H. destruct H as [_ H].
  rewrite He in H. apply singleSpaced_app in H. tauto.
Qed.

Lemma trimStart_rev_startsClean (s : list Z) :
  Title.startsClean s = true -> Title.startsClean (Title.trimEnd s) = true.
Proof.
  destruct s as [|c s]; [reflexivity|]. simpl. intros Hc.
  unfold Title.trimEnd. simpl.
  destruct (trimStart_suffix (rev s ++ [c])) as (pre & Hs & Hp).
  assert (Hlast : exists front, Title.trimStart (rev s ++ [c]) = front ++ [c]).
  { clear Hs Hp pre. induction (rev s) as [|d l IH]; simpl.
    - apply negb_true_iff in Hc. rewrite Hc. now exists [].
    - destruct (Title.isSpace d); [exact IH|]. now exists (d :: l). }
  destruct Hlast as [front ->]. rewrite rev_app_distr. simpl. exact Hc.
Qed.

Lemma trim_startsClean (s : list Z) : Title.startsClean (Title.trim s) = true.
Proof. unfold Title.trim. apply trimStart_rev_startsClean, trimStart_startsClean. Qed.

Lemma trim_endsClean (s : list Z) : Title.startsClean (rev (Title.trim s)) = true.
Proof.
  unfold Title.trim, Title.trimEnd. rewrite rev_involutive. apply trimStart_startsClean.
Qed.
End TitleSpacing.

(** X14.  A sanitized title is normally spaced: it neither starts nor ends
    with white space, and every white space in it is one plain space that no
    other white space follows. *)
Theorem X14_sanitized_title_is_normally_spaced :
  forall (t : option (list Z)) (s : list Z),
    Title.sanitizeTitle t = Some s ->
    Title.startsClean s = true
    /\ Title.startsClean (rev s) = true
    /\ Title.singleSpaced s = true.
Proof.
  intros t s H. apply sanitizeTitle_Some in H. destruct H as (s0 & _ & _ & ->).
  split; [apply trim_startsClean|]. split; [apply trim_endsClean|].
  apply trim_singleSpaced, collapseFrom_singleSpaced.
Qed.

Lemma X14_witness :
  Title.singleSpaced
    [70; 105; 120; 32; 67; 111; 109; 109; 101; 110; 116; 97; 116; 111; 114;
     32; 45; 32; 115; 111; 109; 101; 116; 104; 105; 110; 103] = true.
Proof.
  exact (proj2 (proj2 (@X14_sanitized_title_is_normally_spaced
                         (Some Title.example) _ eq_refl))).
Defined.

Section TitleFixpoint.

Lemma replaceColons_id (s : list Z) :
  Forall (fun c => c <> 58) s -> Title.replaceColons s = s.
Proof.
  unfold Title.replaceColons.
  induction 1 as [|c s Hc _ IH]; simpl; [reflexivity|].
  apply Z.eqb_neq in Hc. rewrite Hc. simpl. now rewrite IH.
Qed.

Lemma collapse_id (s : list Z) :
  Title.singleSpaced s = true -> Title.collapseFrom false s = s.
Proof.
  induction s as [|c s IH]; simpl; [reflexivity|].
  intros H. apply andb_true_iff in H. destruct H as [Hc Hr].
  destruct (Title.isSpace c).
  - apply andb_true_iff in Hc. destruct Hc as [Hc Hs]. apply Z.eqb_eq in Hc. subst c.
    rewrite (collapseFrom_clean true s Hs), (IH Hr). reflexivity.
  - now rewrite (IH Hr).
Qed.

Lemma trim_id (s : list Z) :
  Title.startsClean s = true -> Title.startsClean (rev s) = true -> Title.trim s = s.
Proof.
  intros H1 H2. unfold Title.trim, Title.trimEnd.
  rewrite (trimStart_clean s H1), (trimStart_clean (rev s) H2). apply rev_involutive.
Qed.

Lemma filter_nonspace_spaces (pre : list Z) :
  Forall (fun c => Title.isSpace c = true) pre ->
  filter (fun c => negb (Title.isSpace c)) pre = [].
Proof. induction 1 as [|c pre Hc _ IH]; simpl; [reflexivity|]. now rewrite Hc. Qed.

Lemma filter_nonspace_trim (s : list Z) :
  filter (fun c => negb (Title.isSpace c)) (Title.trim s)
  = filter (fun c => negb (Title.isSpace c)) s.
Proof.
  unfold Title.trim.
  destruct (trimStart_suffix s) as (pre & Hs & Hp).
  destruct (trimEnd_prefix (Title.trimStart s)) as (post & He & Hq).
  rewrite Hs at 2. rewrite He at 2.
  rewrite !filter_app, (filter_nonspace_spaces Hp), (filter_nonspace_spaces Hq).
  now rewrite app_nil_r.
Qed.

Lemma filter_nonspace_collapse (b : bool) (s : list Z) :
  filter (fun c => negb (Title.isSpace c)) (Title.collapseFrom b s)
  = filter (fun c => negb (Title.isSpace c)) s.
Proof.
  revert b. induction s as [|c s IH]; intros b; simpl; [reflexivity|].
  destruct (Title.isSpace c) eqn:E; simpl.
  - destruct b; simpl; apply IH.
  - rewrite E. simpl. now rewrite IH.
Qed.

Lemma filter_nonspace_replaceColons (s : list Z) :
  filter (fun c => negb (Title.isSpace c)) (Title.replaceColons s)
  = filter (fun c => negb (Title.isSpace c)) (map (fun c => if c =? 58 then 45 else c) s).
Proof.
  induction s as [|c s IH]; [reflexivity|].
  change (Title.replaceColons (c :: s))
    with ((if c =? 58 then [32; 45; 32] else [c]) ++ Title.replaceColons s).
  rewrite filter_app, IH. cbn [map].
  destruct (c =? 58) eqn:E.
  - reflexivity.
  - cbn [filter]. destruct (negb (Title.isSpace c)); reflexivity.
Qed.
End TitleFixpoint.

(** X15.  Sanitizing is idempotent but for one case: a sanitized title that
    is not empty is left as it is by [sanitizeTitle]; the empty text, which
    [sanitizeTitle] can return (for a title of brackets and white space
    only), is turned into [null] when sanitized again. *)
Theorem X15_sanitizing_twice :
  forall (t : option (list Z)) (s : list Z),
    Title.sanitizeTitle t = Some s ->
    Title.sanitizeTitle (Some s) = match s with [] => None | _ :: _ => Some s end.
Proof.
  intros t s H.
  destruct s as [|c s]; [reflexivity|].
  assert (Hchars : Forall (fun c => c <> 91 /\ c <> 93 /\ c <> 58) (c :: s)).
  { apply sanitizeTitle_Some in H. destruct H as (s0 & _ & _ & ->).
    apply Forall_trim. apply Forall_collapseFrom; [lia|].
    apply Forall_replaceColons, Forall_removeBrackets. }
  assert (Hspace : Title.startsClean (c :: s) = true
                   /\ Title.startsClean (rev (c :: s)) = true
                   /\ Title.singleSpaced (c :: s) = true).
  { apply sanitizeTitle_Some in H. destruct H as (s0 & _ & _ & ->).
    split; [apply trim_startsClean|]. split; [apply trim_endsClean|].
    apply trim_singleSpaced, collapseFrom_singleSpaced. }
  destruct Hspace as (H1 & H2 & H3).
  unfold Title.sanitizeTitle. f_equal.
  assert (Hb : Title.removeBrackets (c :: s) = c :: s).
  { apply filter_all. eapply Forall_impl; [|exact Hchars].
    intros d (Ha & Hb & _). apply Z.eqb_neq in Ha, Hb. now rewrite Ha, Hb. }
  rewrite Hb, replaceColons_id.
  - unfold Title.collapseSpaces. rewrite (collapse_id _ H3). now apply trim_id.
  - eapply Forall_impl; [|exact Hchars]. intros d (_ & _ & H58). exact H58.
Qed.

Lemma X15_witness :
  Title.sanitizeTitle (Some [91; 93; 32]) = Some []
  /\ Title.sanitizeTitle (Some []) = None.
Proof.
  split; [reflexivity|].
  exact (@X15_sanitizing_twice (Some [91; 93; 32]) [] eq_refl).
Defined.

(** X16.  Sanitizing changes nothing but brackets, colons and white space:
    the code units of the result that are not white space are those of the
    title, in order, with the brackets left out and every colon turned into a
    hyphen. *)
Theorem X16_sanitizing_keeps_the_other_characters :
  forall (s0 s : list Z),
    Title.sanitizeTitle (Some s0) = Some s ->
    filter (fun c => negb (Title.isSpace c)) s
    = filter (fun c => negb (Title.isSpace c))
        (map (fun c => if c =? 58 then 45 else c) (Title.removeBrackets s0)).
Proof.
  intros s0 s H. apply sanitizeTitle_Some in H.
  destruct H as (s1 & [= <-] & _ & ->).
  rewrite filter_nonspace_trim. unfold Title.collapseSpaces.
  rewrite filter_nonspace_collapse. apply filter_nonspace_replaceColons.
Qed.

Lemma X16_witness :
  filter (fun c => negb (Title.isSpace c))
    [70; 105; 120; 32; 67; 111; 109; 109; 101; 110; 116; 97; 116; 111; 114;
     32; 45; 32; 115; 111; 109; 101; 116; 104; 105; 110; 103]
  = filter (fun c => negb (Title.isSpace c))
      (map (fun c => if c =? 58 then 45 else c) (Title.removeBrackets Title.example)).
Proof.
  exact (@X16_sanitizing_keeps_the_other_characters Title.example _ eq_refl).
Defined.

(** ** Recent activities *)

Section RecentFacts.
Variable parseDate : string -> option Z.
Variable localeCompare : string -> string -> Z.
Variable cutoff : Z.

Let stepR (groups : list (string * list Recent.Item))
    (p : Year.UserEntry * Year.RawActivity) :=
  Js.alter String.eqb (fun l => l ++ [Recent.toItem (fst p) (snd p)]) (Recent.dayOf p)
    (Js.ensure String.eqb (Recent.dayOf p) [] groups).

Lemma collect_inner (e : Year.UserEntry) (acts : list Year.RawActivity) groups :
  fold_left (Recent.addAct parseDate cutoff e) acts groups
  = fold_left stepR (filter (Recent.kept parseDate cutoff) (map (pair e) acts)) groups.
Proof.
  revert groups. induction acts as [|a acts IH]; intros groups; simpl; [reflexivity|].
  rewrite IH. unfold Recent.addAct at 1. unfold Recent.kept at 2, Recent.dayOf at 1.
  cbn [snd]. destruct (Recent.tooOld parseDate cutoff (Js.beforeT (Year.occured_at a)));
    reflexivity.
Qed.

Lemma collect_pairs (entries : list Year.UserEntry) groups :
  fold_left
    (fun groups entry =>
       fold_left (Recent.addAct parseDate cutoff entry) (Year.raw_activities entry) groups)
    entries groups
  = fold_left stepR (filter (Recent.kept parseDate cutoff) (Recent.pairs entries)) groups.
Proof.
  revert groups. induction entries as [|e entries IH]; intros groups; simpl; [reflexivity|].
  rewrite IH, collect_inner, filter_app, fold_left_app. reflexivity.
Qed.

Lemma items_fold (rest : list (Year.UserEntry * Year.RawActivity)) (l0 : list Recent.Item) :
  fold_left (fun l p => l ++ [Recent.toItem (fst p) (snd p)]) rest l0
  = l0 ++ map (fun p => Recent.toItem (fst p) (snd p)) rest.
Proof.
  revert l0. induction rest as [|p rest IH]; intros l0; simpl.
  - now rewrite app_nil_r.
  - rewrite IH, <- app_assoc. reflexivity.
Qed.

Lemma collect_lookup (entries : list Year.UserEntry) (day : string) :
  Js.get String.eqb day (Recent.collect parseDate cutoff entries)
  = match filter (fun p => Recent.kept parseDate cutoff p && String.eqb (Recent.dayOf p) day)
            (Recent.pairs entries) with
    | [] => None
    | ps => Some (map (fun p => Recent.toItem (fst p) (snd p)) ps)
    end.
Proof.
  unfold Recent.collect. rewrite collect_pairs. unfold stepR.
  rewrite (@group_get _ _ _ String.eqb string_eqb_spec Recent.dayOf (fun _ => [])
             (fun p l => l ++ [Recent.toItem (fst p) (snd p)])).
  rewrite filter_filter.
  destruct (filter _ (Recent.pairs entries)) as [|p0 rest]; [reflexivity|].
  now rewrite items_fold.
Qed.

Lemma collect_NoDup (entries : list Year.UserEntry) :
  NoDup (map fst (Recent.collect parseDate cutoff entries)).
Proof.
  unfold Recent.collect. rewrite collect_pairs. unfold stepR.
  apply (@group_NoDup _ _ _ String.eqb string_eqb_spec Recent.dayOf (fun _ => [])
           (fun p l => l ++ [Recent.toItem (fst p) (snd p)])).
Qed.

Lemma collect_keys (entries : list Year.UserEntry) (day : string) :
  In day (map fst (Recent.collect parseDate cutoff entries))
  <-> exists p, In p (filter (Recent.kept parseDate cutoff) (Recent.pairs entries))
                /\ Recent.dayOf p = day.
Proof.
  unfold Recent.collect. rewrite collect_pairs. unfold stepR.
  apply (@group_key_present _ _ _ String.eqb string_eqb_spec Recent.dayOf (fun _ => [])
           (fun p l => l ++ [Recent.toItem (fst p) (snd p)])).
Qed.

Lemma collect_counts (ps : list (Year.UserEntry * Year.RawActivity)) groups :
  sumOf (fun l => Z.of_nat (List.length l)) (Js.values (fold_left stepR ps groups))
  = sumOf (fun l => Z.of_nat (List.length l)) (Js.values groups)
    + Z.of_nat (List.length ps)
  /\ sumOf (sumOf Recent.points) (Js.values (fold_left stepR ps groups))
     = sumOf (sumOf Recent.points) (Js.values groups)
       + sumOf (fun p => Year.act_points (snd p)) ps.
Proof.
  revert groups. induction ps as [|p ps IH]; intros groups; [simpl; lia|].
  cbn [fold_left]. destruct (IH (stepR groups p)) as [H1 H2]. rewrite H1, H2.
  unfold stepR.
  rewrite sum_ensure_alter with (delta := 1);
    [| apply String.eqb_refl | reflexivity
     | intros l; rewrite length_app; simpl; lia].
  rewrite sum_ensure_alter with (delta := Year.act_points (snd p));
    [| apply String.eqb_refl | reflexivity
     | intros l; rewrite sumOf_app; simpl; lia].
  cbn [List.length]. rewrite sumOf_cons. split; lia.
Qed.

Lemma generateRecentActivities_perm (entries : list Year.UserEntry) :
  Permutation
    (map (fun p => {| Recent.date := fst p; Recent.items := snd p |})
       (Recent.collect parseDate cutoff entries))
    (Recent.generateRecentActivities parseDate localeCompare cutoff entries).
Proof. unfold Recent.generateRecentActivities. apply Permutation_map, sort_perm. Qed.
End RecentFacts.

(** X17.  The recent-activities document has one group per day, whatever the
    locale's ordering of the dates: dates do not repeat; a day has a group
    exactly when some activity of that day is listed (its day does not parse
    to a date before the cutoff); and the group holds one item for each listed
    activity of the day, contributors in document order and the activities of
    a contributor in log order. *)
Theorem X17_recent_activities_are_grouped_by_day :
  forall (parseDate : string -> option Z) (localeCompare : string -> string -> Z)
         (cutoff : Z) (entries : list Year.UserEntry),
    let out := Recent.generateRecentActivities parseDate localeCompare cutoff entries in
    let listed := filter (Recent.kept parseDate cutoff) (Recent.pairs entries) in
    NoDup (map Recent.date out)
    /\ Forall
         (fun g =>
            Recent.items g <> []
            /\ Recent.items g
               = map (fun p => Recent.toItem (fst p) (snd p))
                   (filter (fun p => String.eqb (Recent.dayOf p) (Recent.date g)) listed))
         out
    /\ Forall (fun p => In (Recent.dayOf p) (map Recent.date out)) listed.
Proof.
  intros parseDate localeCompare cutoff entries out listed.
  pose proof (generateRecentActivities_perm parseDate localeCompare cutoff entries) as Hperm.
  fold out in Hperm.
  assert (Hdates : Permutation (map fst (Recent.collect parseDate cutoff entries))
                     (map Recent.date out)).
  { rewrite <- Hperm, map_map. simpl. reflexivity. }
  split; [|split].
  - eapply Permutation_NoDup; [exact Hdates | apply collect_NoDup].
  - apply Forall_forall. intros g Hg.
    apply (Permutation_in _ (Permutation_sym Hperm)) in Hg.
    apply in_map_iff in Hg. destruct Hg as [[day l] [<- Hin]]. cbn [Recent.date Recent.items fst snd].
    apply (@In_get _ _ String.eqb string_eqb_spec day l _
             (collect_NoDup parseDate cutoff entries)) in Hin.
    rewrite collect_lookup in Hin. unfold listed. rewrite filter_filter.
    revert Hin.
    clear. destruct (filter _ (Recent.pairs entries)) as [|p0 rest]; [intros Hin; discriminate Hin|].
    intros Hin. injection Hin as <-. split; [discriminate | reflexivity].
  - apply Forall_forall. intros p Hp.
    apply (Permutation_in _ Hdates). apply collect_keys. now exists p.
Qed.

(** X18.  Nothing listed is lost or repeated by the grouping: the groups of
    the recent-activities document hold together as many items as there are
    listed activities, and the points of the items add up to the points of
    those activities. *)
Theorem X18_recent_activities_keep_every_listed_activity :
  forall (parseDate : string -> option Z) (localeCompare : string -> string -> Z)
         (cutoff : Z) (entries : list Year.UserEntry),
    let out := Recent.generateRecentActivities parseDate localeCompare cutoff entries in
    let listed := filter (Recent.kept parseDate cutoff) (Recent.pairs entries) in
    sumOf (fun g => Z.of_nat (List.length (Recent.items g))) out
    = Z.of_nat (List.length listed)
    /\ sumOf (fun g => sumOf Recent.points (Recent.items g)) out
       = sumOf (fun p => Year.act_points (snd p)) listed.
Proof.
  intros parseDate localeCompare cutoff entries out listed.
  pose proof (generateRecentActivities_perm parseDate localeCompare cutoff entries) as Hperm.
  fold out in Hperm.
  rewrite <- !(sumOf_perm _ Hperm), !sumOf_map. cbn [Recent.items snd].
  unfold Recent.collect. rewrite collect_pairs.
  destruct (collect_counts listed []) as [H1 H2]. fold listed.
  unfold Js.values in H1, H2. rewrite !sumOf_map in H1, H2.
  simpl in H1, H2. rewrite H1, H2. split; lia.
Qed.

(** ** The per-period generator's entries *)

Lemma isBotUser_same (u : Year.GitHubUser) :
  PerPeriod.isBotUser u = Year.isBotUser u.
Proof.
  unfold PerPeriod.isBotUser, Year.isBotUser.
  destruct (Js.truthy (Year.login u)), (Js.truthy (Year.user_type u) && _); reflexivity.
Qed.

Lemma isBotUser_admitted (u : Year.GitHubUser) :
  Year.isBotUser u = false <-> Compare.admitted u.
Proof.
  unfold Year.isBotUser, Year.loginOf, Year.typeOf, Js.truthy, Compare.admitted.
  destruct (Year.login u) as [l|]; cbn [negb].
  2:{ split; [discriminate | intros (l & H & _); discriminate H]. }
  destruct (String.eqb l EmptyString) eqn:El; cbn [negb].
  { apply String.eqb_eq in El. subst l.
    split; [discriminate | intros (l & H & Hl & _); injection H as <-; now elim Hl]. }
  assert (Hne : l <> EmptyString) by (intros ->; now rewrite String.eqb_refl in El).
  assert (Hend : Js.endsWith l "[bot]" = false <-> forall p, l <> (p ++ "[bot]")%string).
  { destruct (Js.endsWith l "[bot]") eqn:E.
    - apply endsWith_spec in E. destruct E as [p Hp].
      split; [discriminate | intros H; now elim (H p)].
    - split; [|reflexivity]. intros _ p Hp.
      assert (H : Js.endsWith l "[bot]" = true) by (apply endsWith_spec; now exists p).
      rewrite E in H. discriminate H. }
  destruct (Year.user_type u) as [k|]; cbn [andb].
  - destruct (String.eqb k EmptyString) eqn:Ek; cbn [negb andb].
    + apply String.eqb_eq in Ek. subst k. rewrite Hend. split.
      * intros H. exists l. repeat split; auto.
      * intros (l' & H & _ & Hb & _). injection H as <-. exact Hb.
    + destruct (String.eqb k "User") eqn:Eu; cbn [negb].
      * apply String.eqb_eq in Eu. subst k. rewrite Hend. split.
        -- intros H. exists l. repeat split; auto.
        -- intros (l' & H & _ & Hb & _). injection H as <-. exact Hb.
      * split; [discriminate|]. intros (_ & _ & _ & _ & [H | [H | H]]).
        -- discriminate H.
        -- injection H as ->. now rewrite String.eqb_refl in Ek.
        -- injection H as ->. now rewrite String.eqb_refl in Eu.
  - rewrite Hend. split.
    + intros H. exists l. repeat split; auto.
    + intros (l' & H & _ & Hb & _). injection H as <-. exact Hb.
Qed.

(** X19.  The bot filters of the two scripts, which test the login and the
    account kind in opposite orders, decide alike on every actor; and an
    actor is let through exactly when it has a non-empty login that does not
    end in [[bot]] and its account kind is absent, empty or [User]. *)
Theorem X19_both_scripts_skip_the_same_actors :
  forall u : Year.GitHubUser,
    PerPeriod.isBotUser u = Year.isBotUser u
    /\ (Year.isBotUser u = false <-> Compare.admitted u).
Proof.
  intros u. split; [apply isBotUser_same | apply isBotUser_admitted].
Qed.

Section PerPeriodFacts.

Lemma perPeriod_zero_entry (u : Year.GitHubUser) :
  Compare.consistent
    {| PerPeriod.username := Year.loginOf u;
       PerPeriod.name := Year.user_name u;
       PerPeriod.avatar_url := Year.user_avatar_url u;
       PerPeriod.role := Some "Contributor";
       PerPeriod.total_points := 0;
       PerPeriod.activity_breakdown := [];
       PerPeriod.daily_activity := [] |}.
Proof. unfold Compare.consistent. simpl. repeat split; constructor. Qed.

Lemma perPeriod_addActivity_consistent (e : PerPeriod.UserEntry) ty when pts :
  Compare.consistent e -> Compare.consistent (PerPeriod.addActivity e ty when pts).
Proof.
  intros (Ht & Hd & Hc & H1). unfold PerPeriod.addActivity.
  destruct when as [d|]; [|now repeat split].
  destruct (String.eqb d EmptyString); [now repeat split|].
  unfold Compare.consistent.
  cbn [PerPeriod.total_points PerPeriod.activity_breakdown PerPeriod.daily_activity].
  rewrite alter_alter.
  rewrite sum_ensure_alter with (delta := pts);
    [|apply String.eqb_refl|reflexivity|intros; simpl; lia].
  rewrite sum_ensure_alter with (delta := 1);
    [|apply String.eqb_refl|reflexivity|intros; simpl; lia].
  rewrite sumOf_app, length_app, Nat2Z.inj_add. simpl.
  split; [lia|]. split; [lia|]. split; [lia|].
  apply Forall_app. split; [exact H1|]. now constructor.
Qed.

Lemma perPeriod_fold_consistent ty when pts items users :
  Forall Compare.consistent (Js.values users) ->
  Forall Compare.consistent
    (Js.values (fold_left (PerPeriod.foldItem ty when pts) items users)).
Proof.
  revert users. induction items as [|it items IH]; simpl; intros users H; [exact H|].
  apply IH. unfold PerPeriod.foldItem.
  destruct (PerPeriod.isBotUser (PerPeriod.user it)); [exact H|].
  apply Forall_values_alter; [intros; now apply perPeriod_addActivity_consistent|].
  apply Forall_values_ensure; [apply perPeriod_zero_entry | exact H].
Qed.
End PerPeriodFacts.

(** X20.  Every entry the per-period script writes is consistent, whatever
    the search results hold (timestamps may be missing): its total is the sum
    of the points of its breakdown buckets and the sum of the points of its
    daily elements, every daily element counts one event, and there are as
    many daily elements as the breakdown counts events.  The entries are in
    descending order of total, and every total is positive. *)
Theorem X20_perPeriod_entries_are_consistent_and_ranked :
  forall prs merged issues : list PerPeriod.Item,
    let entries := PerPeriod.entries prs merged issues in
    Forall (fun e => Compare.consistent e /\ 0 < PerPeriod.total_points e) entries
    /\ descendingBy PerPeriod.total_points entries.
Proof.
  intros prs merged issues entries. split.
  - apply Forall_forall. intros e He. unfold entries, PerPeriod.entries in He.
    apply sort_In in He. apply filter_In in He. destruct He as [He Hpos].
    split; [|now apply Z.ltb_lt in Hpos].
    clear Hpos. revert e He. apply Forall_forall.
    do 3 apply perPeriod_fold_consistent. constructor.
  - apply sort_descending.
Qed.

(** ** The two generators on the same search results *)

Section DictMap.
Variables K K' V V' : Type.
Variable eqb : K -> K -> bool.
Variable eqb' : K' -> K' -> bool.
Variable kf : K -> K'.
Variable vf : V -> V'.
Hypothesis eqb_kf : forall a b, eqb' (kf a) (kf b) = eqb a b.

Let conv (o : list (K * V)) : list (K' * V') :=
  map (fun p => (kf (fst p), vf (snd p))) o.

Lemma get_conv (k : K) (o : list (K * V)) :
  Js.get eqb' (kf k) (conv o) = option_map vf (Js.get eqb k o).
Proof.
  induction o as [|[k' v] o IH]; simpl; [reflexivity|].
  rewrite eqb_kf. destruct (eqb k k'); [reflexivity | exact IH].
Qed.

Lemma ensure_conv (k : K) (v0 : V) (o : list (K * V)) :
  conv (Js.ensure eqb k v0 o) = Js.ensure eqb' (kf k) (vf v0) (conv o).
Proof.
  unfold Js.ensure. rewrite get_conv.
  destruct (Js.get eqb k o); simpl; [reflexivity|].
  unfold conv. now rewrite map_app.
Qed.

Lemma alter_conv (h : V -> V) (h' : V' -> V') (k : K) (o : list (K * V)) :
  (forall v, vf (h v) = h' (vf v)) ->
  conv (Js.alter eqb h k o) = Js.alter eqb' h' (kf k) (conv o).
Proof.
  intros Hh. induction o as [|[k' v] o IH]; simpl; [reflexivity|].
  rewrite eqb_kf. destruct (eqb k k'); simpl; [now rewrite Hh|].
  f_equal. exact IH.
Qed.
End DictMap.

Section SortMap.
Variables A B : Type.
Variable f : A -> B.
Variable cmpA : A -> A -> Z.
Variable cmpB : B -> B -> Z.
Hypothesis cmp_f : forall a b, cmpB (f a) (f b) = cmpA a b.

Lemma insert_map (x : A) (l : list A) :
  map f (Js.insert cmpA x l) = Js.insert cmpB (f x) (map f l).
Proof.
  induction l as [|y l IH]; simpl; [reflexivity|].
  rewrite cmp_f. destruct (cmpA x y <=? 0); simpl; [reflexivity|]. now rewrite IH.
Qed.

Lemma sort_map (l : list A) : map f (Js.sort cmpA l) = Js.sort cmpB (map f l).
Proof.
  induction l as [|x l IH]; simpl; [reflexivity|].
  unfold Js.sort in *. rewrite insert_map. now rewrite IH.
Qed.
End SortMap.

Section SameResults.
Variable sanitizeTitle : option string -> option string.

Let convU (users : list (string * Year.UserEntry)) : list (string * PerPeriod.UserEntry) :=
  map (fun p => (fst p, Compare.perEvent (snd p))) users.

Lemma typeName_eqb (a b : Year.ActivityType) :
  String.eqb (Compare.typeName a) (Compare.typeName b) = Year.ActivityType_eqb a b.
Proof. destruct a, b; reflexivity. Qed.

Lemma addActivity_perEvent (e : Year.UserEntry) ty when pts meta :
  when <> EmptyString ->
  PerPeriod.addActivity (Compare.perEvent e) (Compare.typeName ty) (Some when) pts
  = Compare.perEvent (Year.addActivity sanitizeTitle e ty when pts meta).
Proof.
  intros Hne. unfold PerPeriod.addActivity.
  destruct (String.eqb when EmptyString) eqn:E;
    [apply String.eqb_eq in E; contradiction|].
  unfold Compare.perEvent, Year.addActivity.
  cbn [PerPeriod.username PerPeriod.name PerPeriod.avatar_url PerPeriod.role
       PerPeriod.total_points PerPeriod.activity_breakdown PerPeriod.daily_activity
       Year.username Year.name Year.avatar_url Year.role Year.total_points
       Year.activity_breakdown Year.raw_activities].
  f_equal.
  - rewrite (@alter_conv _ _ _ _ Year.ActivityType_eqb String.eqb Compare.typeName
               Compare.bucket typeName_eqb _
               (fun b => {| PerPeriod.count := PerPeriod.count b;
                            PerPeriod.points := PerPeriod.points b + pts |}))
      by reflexivity.
    rewrite (@alter_conv _ _ _ _ Year.ActivityType_eqb String.eqb Compare.typeName
               Compare.bucket typeName_eqb _
               (fun b => {| PerPeriod.count := PerPeriod.count b + 1;
                            PerPeriod.points := PerPeriod.points b |}))
      by reflexivity.
    rewrite (@ensure_conv _ _ _ _ Year.ActivityType_eqb String.eqb Compare.typeName
               Compare.bucket typeName_eqb).
    reflexivity.
  - rewrite map_app. reflexivity.
Qed.

Lemma fold_foldItem_perEvent ty (when : Year.GitHubItem -> string)
    (when' : PerPeriod.Item -> option string) pts items users :
  (forall it, when' (Compare.untyped it) = Some (when it)) ->
  Forall (fun it => when it <> EmptyString) items ->
  fold_left (PerPeriod.foldItem (Compare.typeName ty) when' pts)
    (map Compare.untyped items) (convU users)
  = convU (fold_left (Year.foldItem sanitizeTitle ty when pts) items users).
Proof.
  intros Hw Hitems. revert users.
  induction Hitems as [|it items Hit _ IH]; intros users; [reflexivity|].
  cbn [map fold_left]. rewrite <- IH. f_equal.
  unfold PerPeriod.foldItem, Year.foldItem.
  cbn [Compare.untyped PerPeriod.user]. rewrite isBotUser_same.
  destruct (Year.isBotUser (Year.user it)); [reflexivity|].
  unfold convU.
  rewrite (@alter_conv _ _ _ _ String.eqb String.eqb (fun k => k) Compare.perEvent
             (fun a b => eq_refl) _
             (fun entry => PerPeriod.addActivity entry (Compare.typeName ty)
                             (when' (Compare.untyped it)) pts)).
  - unfold Year.ensureUser, PerPeriod.ensureUser.
    rewrite (@ensure_conv _ _ _ _ String.eqb String.eqb (fun k => k) Compare.perEvent
               (fun a b => eq_refl)).
    reflexivity.
  - intros v. rewrite Hw. symmetry. now apply addActivity_perEvent.
Qed.

Lemma entries_perEvent (prs merged issues : list Year.GitHubItem) :
  Forall (fun it => Year.created_at it <> EmptyString) prs ->
  Forall (fun it => Year.closed_at it <> EmptyString) merged ->
  Forall (fun it => Year.created_at it <> EmptyString) issues ->
  PerPeriod.entries (map Compare.untyped prs) (map Compare.untyped merged)
    (map Compare.untyped issues)
  = map Compare.perEvent (Year.yearEntries sanitizeTitle prs merged issues).
Proof.
  intros H1 H2 H3. unfold PerPeriod.entries, Year.yearEntries, Year.foldCategories.
  cbv zeta.
  pose proof (@fold_foldItem_perEvent Year.PR_opened Year.created_at PerPeriod.created_at
                2 prs [] (fun it => eq_refl) H1) as E1.
  set (u1 := fold_left (Year.foldItem sanitizeTitle Year.PR_opened Year.created_at 2)
               prs []) in *.
  pose proof (@fold_foldItem_perEvent Year.PR_merged Year.closed_at PerPeriod.closed_at
                5 merged u1 (fun it => eq_refl) H2) as E2.
  set (u2 := fold_left (Year.foldItem sanitizeTitle Year.PR_merged Year.closed_at 5)
               merged u1) in *.
  pose proof (@fold_foldItem_perEvent Year.Issue_opened Year.created_at PerPeriod.created_at
                1 issues u2 (fun it => eq_refl) H3) as E3.
  set (u3 := fold_left (Year.foldItem sanitizeTitle Year.Issue_opened Year.created_at 1)
               issues u2) in *.
  change (convU []) with (@nil (string * PerPeriod.UserEntry)) in E1.
  cbn [Compare.typeName] in E1, E2, E3.
  rewrite E1, E2, E3.
  change (fold_left
            (Year.foldItem sanitizeTitle Year.Issue_opened Year.created_at
               Year.POINTS_ISSUE_OPENED) issues
            (fold_left
               (Year.foldItem sanitizeTitle Year.PR_merged Year.closed_at
                  Year.POINTS_PR_MERGED) merged
               (fold_left
                  (Year.foldItem sanitizeTitle Year.PR_opened Year.created_at
                     Year.POINTS_PR_OPENED) prs [])))
    with u3.
  unfold convU, Js.values. rewrite map_map. cbn [snd].
  rewrite <- (map_map snd Compare.perEvent).
  rewrite filter_map_comm.
  rewrite <- (@sort_map _ _ Compare.perEvent
                (fun a b => Year.total_points b - Year.total_points a)
                (fun a b => PerPeriod.total_points b - PerPeriod.total_points a)
                (fun a b => eq_refl)).
  reflexivity.
Qed.
End SameResults.

(** X21.  On search results that all carry their timestamp, the per-period
    script computes the entries of the year script: the same contributors in
    the same order with the same totals and breakdown buckets.  Only
    [daily_activity] differs: the per-period entry has one element of count 1
    for each logged event of the year entry, in log order. *)
Theorem X21_perPeriod_entries_are_the_year_entries_per_event :
  forall (sanitizeTitle : option string -> option string)
         (prs merged issues : list Year.GitHubItem),
    Forall (fun it => Year.created_at it <> EmptyString) prs ->
    Forall (fun it => Year.closed_at it <> EmptyString) merged ->
    Forall (fun it => Year.created_at it <> EmptyString) issues ->
    PerPeriod.entries (map Compare.untyped prs) (map Compare.untyped merged)
      (map Compare.untyped issues)
    = map Compare.perEvent (Year.yearEntries sanitizeTitle prs merged issues).
Proof. intros. now apply entries_perEvent. Qed.

Lemma X21_witness :
  PerPeriod.entries
    (map Compare.untyped
       [Sample.item (Sample.human "alice") "2024-03-05T09:00:00Z";
        Sample.item (Sample.human "bob") "2024-03-06T10:00:00Z";
        Sample.item (Sample.human "alice") "2024-03-05T17:30:00Z"])
    (map Compare.untyped [Sample.item (Sample.human "bob") "2024-03-07T08:00:00Z"])
    (map Compare.untyped [])
  = map Compare.perEvent
      (Year.yearEntries Sample.keepTitle
         [Sample.item (Sample.human "alice") "2024-03-05T09:00:00Z";
          Sample.item (Sample.human "bob") "2024-03-06T10:00:00Z";
          Sample.item (Sample.human "alice") "2024-03-05T17:30:00Z"]
         [Sample.item (Sample.human "bob") "2024-03-07T08:00:00Z"]
         []).
Proof.
  apply X21_perPeriod_entries_are_the_year_entries_per_event.
  - repeat constructor; discriminate.
  - repeat constructor; discriminate.
  - constructor.
Defined.

(** ** The per-period generator's documents *)

Section PeriodDocuments.

Let human (it : Periods.Item) : bool :=
  negb (PerPeriod.isBotUser (PerPeriod.user (Periods.base it))).

Lemma turn_fold (c : Periods.Category) (items : list Periods.Item)
    (st : list (string * PerPeriod.UserEntry) * list Periods.ActivityItem) :
  fold_left (Periods.turn c) items st
  = (fold_left
       (PerPeriod.foldItem (Periods.cat_key c) (Periods.cat_when c) (Periods.cat_points c))
       (map Periods.base items) (fst st),
     snd st ++ map (Periods.toActivity c) (filter human items)).
Proof.
  revert st. induction items as [|it items IH]; intros [users acts].
  - simpl. now rewrite app_nil_r.
  - cbn [fold_left map filter]. rewrite IH. unfold Periods.turn, PerPeriod.foldItem, human.
    cbn [fst snd].
    destruct (PerPeriod.isBotUser (PerPeriod.user (Periods.base it))); cbn [negb fst snd].
    + reflexivity.
    + cbn [map]. now rewrite <- app_assoc.
Qed.

Lemma document_fields (name : string) (prs merged issues : list Periods.Item) :
  Periods.entries (Periods.document name prs merged issues)
  = PerPeriod.entries (map Periods.base prs) (map Periods.base merged)
      (map Periods.base issues)
  /\ Periods.activities (Periods.document name prs merged issues)
     = map (Periods.toActivity Periods.prsOpened) (filter human prs)
       ++ map (Periods.toActivity Periods.prsMerged) (filter human merged)
       ++ map (Periods.toActivity Periods.issuesOpened) (filter human issues).
Proof.
  unfold Periods.document, Periods.output, PerPeriod.entries. cbv zeta.
  rewrite !turn_fold. cbn [fst snd Periods.entries Periods.activities].
  split; [reflexivity|]. now rewrite <- app_assoc.
Qed.

(** The timestamp a loop reads is the one its listed activity carries. *)
Lemma dated_toActivity (c : Periods.Category) (it : Periods.Item) :
  In c [Periods.prsOpened; Periods.prsMerged; Periods.issuesOpened] ->
  Periods.dated (Periods.toActivity c it)
  = Js.truthy (Periods.cat_when c (Periods.base it)).
Proof.
  intros [<- | [<- | [<- | []]]]; unfold Periods.dated; cbn;
    [apply orb_false_r | reflexivity | apply orb_false_r].
Qed.

Lemma addActivity_total (e : PerPeriod.UserEntry) ty when pts :
  PerPeriod.total_points (PerPeriod.addActivity e ty when pts)
  = PerPeriod.total_points e + (if Js.truthy when then pts else 0).
Proof.
  unfold PerPeriod.addActivity, Js.truthy. destruct when as [d|]; [|lia].
  destruct (String.eqb d EmptyString); cbn; lia.
Qed.

Lemma turn_fold_totals (c : Periods.Category) (items : list Periods.Item)
    (st : list (string * PerPeriod.UserEntry) * list Periods.ActivityItem) :
  In c [Periods.prsOpened; Periods.prsMerged; Periods.issuesOpened] ->
  let st' := fold_left (Periods.turn c) items st in
  (sumOf PerPeriod.total_points (Js.values (fst st))
   = sumOf Periods.points (filter Periods.dated (snd st)) ->
   sumOf PerPeriod.total_points (Js.values (fst st'))
   = sumOf Periods.points (filter Periods.dated (snd st')))
  /\ (Forall (fun e => 0 <= PerPeriod.total_points e) (Js.values (fst st)) ->
      Forall (fun e => 0 <= PerPeriod.total_points e) (Js.values (fst st'))).
Proof.
  intros Hc. cbv zeta. revert st.
  induction items as [|it items IH]; intros st; [now split|].
  cbn [fold_left]. destruct (IH (Periods.turn c st it)) as [IH1 IH2].
  assert (Hpts : 0 <= Periods.cat_points c)
    by (destruct Hc as [<- | [<- | [<- | []]]]; cbn; lia).
  split; intros H.
  - apply IH1. unfold Periods.turn.
    destruct (PerPeriod.isBotUser (PerPeriod.user (Periods.base it))); [exact H|].
    cbn [fst snd]. unfold PerPeriod.ensureUser.
    rewrite sum_ensure_alter
      with (delta := if Js.truthy (Periods.cat_when c (Periods.base it))
                     then Periods.cat_points c else 0);
      [| apply String.eqb_refl | reflexivity | intros; apply addActivity_total].
    rewrite filter_app, sumOf_app, H. cbn [filter].
    rewrite dated_toActivity by exact Hc.
    destruct (Js.truthy (Periods.cat_when c (Periods.base it))); cbn; lia.
  - apply IH2. unfold Periods.turn.
    destruct (PerPeriod.isBotUser (PerPeriod.user (Periods.base it))); [exact H|].
    cbn [fst snd].
    apply Forall_values_alter.
    + intros e He. rewrite addActivity_total.
      destruct (Js.truthy (Periods.cat_when c (Periods.base it))); lia.
    + apply Forall_values_ensure; [cbn; lia | exact H].
Qed.

Lemma sumOf_filter_positive {A : Type} (f : A -> Z) (l : list A) :
  Forall (fun x => 0 <= f x) l -> sumOf f (filter (fun x => 0 <? f x) l) = sumOf f l.
Proof.
  induction 1 as [|x l Hx _ IH]; [reflexivity|]. cbn [filter].
  destruct (0 <? f x) eqn:E.
  - rewrite !sumOf_cons, IH. reflexivity.
  - apply Z.ltb_ge in E. rewrite sumOf_cons, IH. lia.
Qed.
End PeriodDocuments.

(** X22.  The document of a period, from the items of its three searches:
    its entries are those of the contributor map folded over the items, and
    its activities list one element for each item that is not a bot's, pull
    requests opened first, then merged, then issues, each in the order
    received.  An item is listed whether or not it has a timestamp. *)
Theorem X22_period_document_lists_every_human_item :
  forall (name : string) (prs merged issues : list Periods.Item),
    let human := fun it => negb (PerPeriod.isBotUser (PerPeriod.user (Periods.base it))) in
    let d := Periods.document name prs merged issues in
    Periods.entries d
    = PerPeriod.entries (map Periods.base prs) (map Periods.base merged)
        (map Periods.base issues)
    /\ Periods.activities d
       = map (Periods.toActivity Periods.prsOpened) (filter human prs)
         ++ map (Periods.toActivity Periods.prsMerged) (filter human merged)
         ++ map (Periods.toActivity Periods.issuesOpened) (filter human issues).
Proof. intros name prs merged issues human d. apply document_fields. Qed.

(** X23.  In a period document the totals of the entries add up to the
    points of the listed activities that carry a timestamp: an item without
    one is listed with its points and counted for nobody, so the totals never
    exceed the points listed. *)
Theorem X23_period_totals_are_the_points_of_the_dated_activities :
  forall (name : string) (prs merged issues : list Periods.Item),
    let d := Periods.document name prs merged issues in
    sumOf PerPeriod.total_points (Periods.entries d)
    = sumOf Periods.points (filter Periods.dated (Periods.activities d))
    /\ sumOf PerPeriod.total_points (Periods.entries d)
       <= sumOf Periods.points (Periods.activities d).
Proof.
  intros name prs merged issues d.
  assert (Hsum :
    sumOf PerPeriod.total_points (Periods.entries d)
    = sumOf Periods.points (filter Periods.dated (Periods.activities d))).
  { unfold d, Periods.document, Periods.output. cbv zeta.
    cbn [Periods.entries Periods.activities].
    rewrite <- (sumOf_perm _ (sort_perm _ _)).
    set (st1 := fold_left (Periods.turn Periods.prsOpened) prs ([], [])).
    set (st2 := fold_left (Periods.turn Periods.prsMerged) merged st1).
    set (st3 := fold_left (Periods.turn Periods.issuesOpened) issues st2).
    destruct (@turn_fold_totals Periods.prsOpened prs ([], [])) as [A1 B1];
      [cbn; tauto|].
    destruct (@turn_fold_totals Periods.prsMerged merged st1) as [A2 B2];
      [cbn; tauto|].
    destruct (@turn_fold_totals Periods.issuesOpened issues st2) as [A3 B3];
      [cbn; tauto|].
    fold st1 in A1, B1. fold st2 in A2, B2. fold st3 in A3, B3.
    rewrite sumOf_filter_positive.
    - apply A3, A2, A1. reflexivity.
    - apply B3, B2, B1. constructor. }
  split; [exact Hsum|]. rewrite Hsum.
  assert (Hle : forall l : list Periods.ActivityItem,
             Forall (fun a => 0 <= Periods.points a) l ->
             sumOf Periods.points (filter Periods.dated l) <= sumOf Periods.points l).
  { induction 1 as [|a l Ha _ IH]; [cbn; lia|]. cbn [filter].
    destruct (Periods.dated a); rewrite ?sumOf_cons; lia. }
  apply Hle. unfold d.
  destruct (document_fields name prs merged issues) as [_ ->].
  rewrite !Forall_app. repeat split; apply Forall_forall; intros a Ha;
    apply in_map_iff in Ha; destruct Ha as [it [<- _]]; cbn; lia.
Qed.

(** ** Runs of the per-period generator *)

Section PeriodRuns.
Variable World : Type.
Variable respond : World -> Periods.Request -> Periods.Response * World.
Variable clock : World -> Z.
Variable addDays : Z -> Z -> Z.

(** One call of [gh]: one request, and a result that depends on the
    response alone. *)
Lemma gh_run (rq : Periods.Request) (s : Periods.State World) :
  Periods.gh respond rq s
  = let res := fst (respond (Periods.world s) rq) in
    (if negb (Periods.ok res)
     then Periods.Thrown (Periods.GitHubApiError (Periods.status res) (Periods.text res))
     else match Periods.json res with
          | Some body => Periods.Done body
          | None => Periods.Thrown Periods.JsonSyntaxError
          end,
     {| Periods.world := snd (respond (Periods.world s) rq);
        Periods.trace := Periods.trace s ++ [(rq, res)];
        Periods.written := Periods.written s |}).
Proof.
  unfold Periods.gh, Periods.bind, Periods.fetch, Periods.throw, Periods.ret.
  destruct (respond (Periods.world s) rq) as [res w]. cbn [fst snd].
  destruct (Periods.ok res); cbn [negb]; [|reflexivity].
  destruct (Periods.json res); reflexivity.
Qed.

Lemma generate_Done (name : string) (days : Z) (s s' : Periods.State World) :
  Periods.generate respond clock addDays name days s = (Periods.Done tt, s') ->
  let since := addDays (clock (Periods.world s)) (- days) in
  let rq := fun c => {| Periods.rq_query := Periods.cat_query c;
                        Periods.rq_since := since |} in
  exists r1 r2 r3 b1 b2 b3,
    Periods.trace s'
    = Periods.trace s
      ++ [(rq Periods.prsOpened, r1); (rq Periods.prsMerged, r2);
          (rq Periods.issuesOpened, r3)]
    /\ (Periods.ok r1 = true /\ Periods.json r1 = Some b1)
    /\ (Periods.ok r2 = true /\ Periods.json r2 = Some b2)
    /\ (Periods.ok r3 = true /\ Periods.json r3 = Some b3)
    /\ Periods.written s'
       = Periods.written s
         ++ [Periods.document name (Periods.itemsOf b1) (Periods.itemsOf b2)
               (Periods.itemsOf b3)].
Proof.
  unfold Periods.generate, Periods.dateISO, Periods.newDate.
  unfold Periods.bind at 1 2. unfold Periods.ret at 1. cbv zeta.
  set (since := addDays (clock (Periods.world s)) (- days)).
  unfold Periods.bind at 1. rewrite gh_run. cbv zeta.
  set (r1 := fst (respond (Periods.world s) _)).
  set (s1 := {| Periods.world := _ |}).
  destruct (Periods.ok r1) eqn:O1; cbn [negb]; [|discriminate].
  destruct (Periods.json r1) as [b1|] eqn:J1; [|discriminate].
  unfold Periods.bind at 1. rewrite gh_run. cbv zeta.
  set (r2 := fst (respond (Periods.world s1) _)).
  set (s2 := {| Periods.world := _ |}).
  destruct (Periods.ok r2) eqn:O2; cbn [negb]; [|discriminate].
  destruct (Periods.json r2) as [b2|] eqn:J2; [|discriminate].
  unfold Periods.bind at 1. rewrite gh_run. cbv zeta.
  set (r3 := fst (respond (Periods.world s2) _)).
  set (s3 := {| Periods.world := _ |}).
  destruct (Periods.ok r3) eqn:O3; cbn [negb]; [|discriminate].
  destruct (Periods.json r3) as [b3|] eqn:J3; [|discriminate].
  unfold Periods.writeFile. intros H. injection H as <-.
  exists r1, r2, r3, b1, b2, b3. unfold s3, s2, s1.
  cbn [Periods.trace Periods.written]. rewrite <- !app_assoc.
  repeat split; auto.
Qed.

(** What one [generate] leaves behind: its document after three requests,
    or an error after at most three and nothing written. *)
Lemma generate_outcome (name : string) (days : Z) (s s' : Periods.State World)
    (o : Periods.Outcome unit) :
  Periods.generate respond clock addDays name days s = (o, s') ->
  match o with
  | Periods.Done _ =>
      (exists d, Periods.period d = name
                 /\ Periods.written s' = Periods.written s ++ [d])
      /\ List.length (Periods.trace s') = (List.length (Periods.trace s) + 3)%nat
  | Periods.Thrown _ =>
      Periods.written s' = Periods.written s
      /\ (List.length (Periods.trace s) < List.length (Periods.trace s')
          <= List.length (Periods.trace s) + 3)%nat
  end.
Proof.
  unfold Periods.generate, Periods.dateISO, Periods.newDate.
  unfold Periods.bind at 1 2. unfold Periods.ret at 1. cbv zeta.
  unfold Periods.bind at 1. rewrite gh_run. cbv zeta.
  set (r1 := fst (respond (Periods.world s) _)).
  set (s1 := {| Periods.world := _ |}).
  assert (L1 : List.length (Periods.trace s1) = (List.length (Periods.trace s) + 1)%nat)
    by (unfold s1; cbn [Periods.trace]; now rewrite length_app).
  assert (W1 : Periods.written s1 = Periods.written s) by reflexivity.
  clearbody s1.
  destruct (Periods.ok r1); cbn [negb];
    [|intros H; injection H as <- <-; split; [exact W1 | lia]].
  destruct (Periods.json r1) as [b1|];
    [|intros H; injection H as <- <-; split; [exact W1 | lia]].
  unfold Periods.bind at 1. rewrite gh_run. cbv zeta.
  set (r2 := fst (respond (Periods.world s1) _)).
  set (s2 := {| Periods.world := _ |}).
  assert (L2 : List.length (Periods.trace s2) = (List.length (Periods.trace s) + 2)%nat)
    by (unfold s2; cbn [Periods.trace]; rewrite length_app, L1; cbn; lia).
  assert (W2 : Periods.written s2 = Periods.written s) by exact W1.
  clearbody s2.
  destruct (Periods.ok r2); cbn [negb];
    [|intros H; injection H as <- <-; split; [exact W2 | lia]].
  destruct (Periods.json r2) as [b2|];
    [|intros H; injection H as <- <-; split; [exact W2 | lia]].
  unfold Periods.bind at 1. rewrite gh_run. cbv zeta.
  set (r3 := fst (respond (Periods.world s2) _)).
  set (s3 := {| Periods.world := _ |}).
  assert (L3 : List.length (Periods.trace s3) = (List.length (Periods.trace s) + 3)%nat)
    by (unfold s3; cbn [Periods.trace]; rewrite length_app, L2; cbn; lia).
  assert (W3 : Periods.written s3 = Periods.written s) by exact W2.
  clearbody s3.
  destruct (Periods.ok r3); cbn [negb];
    [|intros H; injection H as <- <-; split; [exact W3 | lia]].
  destruct (Periods.json r3) as [b3|];
    [|intros H; injection H as <- <-; split; [exact W3 | lia]].
  unfold Periods.writeFile. intros H. injection H as <- <-.
  cbn [Periods.trace Periods.written].
  split; [|exact L3]. eexists. split; [|rewrite W3; reflexivity]. reflexivity.
Qed.

Lemma generateAll_cons (p : string * Z) (ps : list (string * Z)) (s : Periods.State World) :
  Periods.generateAll respond clock addDays (p :: ps) s
  = Periods.bind (Periods.generate respond clock addDays (fst p) (snd p))
      (fun _ => Periods.generateAll respond clock addDays ps) s.
Proof.
  destruct ps as [|q ps]; [|reflexivity].
  cbn [Periods.generateAll]. unfold Periods.bind, Periods.ret.
  destruct (Periods.generate respond clock addDays (fst p) (snd p) s) as [[[]|e] s'];
    reflexivity.
Qed.

Lemma generateAll_outcome (ps : list (string * Z)) (s : Periods.State World) :
  let r := Periods.generateAll respond clock addDays ps s in
  exists n,
    map Periods.period (Periods.written (snd r))
    = map Periods.period (Periods.written s) ++ firstn n (map fst ps)
    /\ match fst r with
       | Periods.Done _ =>
           n = List.length ps
           /\ List.length (Periods.trace (snd r))
              = (List.length (Periods.trace s) + 3 * List.length ps)%nat
       | Periods.Thrown _ =>
           (n < List.length ps)%nat
           /\ (List.length (Periods.trace s) + 3 * n
               < List.length (Periods.trace (snd r))
               <= List.length (Periods.trace s) + 3 * n + 3)%nat
       end.
Proof.
  cbv zeta. revert s. induction ps as [|p ps IH]; intros s.
  - exists 0%nat. cbn. rewrite app_nil_r. split; [reflexivity | lia].
  - rewrite generateAll_cons. unfold Periods.bind.
    destruct (Periods.generate respond clock addDays (fst p) (snd p) s)
      as [[[]|e] s1] eqn:G; apply generate_outcome in G; cbn [fst snd].
    + destruct G as [[d [Hd Hw]] Hl].
      destruct (IH s1) as [n [Hn Ho]]. exists (S n). split.
      * rewrite Hn, Hw, map_app, <- app_assoc. cbn [map firstn app]. now rewrite Hd.
      * destruct (fst (Periods.generateAll respond clock addDays ps s1)); cbn [List.length]; lia.
    + destruct G as [Hw Hl]. exists 0%nat. cbn [firstn List.length].
      rewrite app_nil_r, Hw. split; [reflexivity | lia].
Qed.
End PeriodRuns.

(** X24.  A [generate] that completes has sent exactly three requests, for
    pull requests opened, pull requests merged and issues, all with the one
    instant computed before the first; each was answered with a success
    status and a body that parsed; and it has written one document, the one
    of the items of these three first pages.  No further page is asked for. *)
Theorem X24_a_completed_generate_wrote_the_first_pages :
  forall (World : Type)
         (respond : World -> Periods.Request -> Periods.Response * World)
         (clock : World -> Z) (addDays : Z -> Z -> Z)
         (name : string) (days : Z) (s s' : Periods.State World),
    Periods.generate respond clock addDays name days s = (Periods.Done tt, s') ->
    let since := addDays (clock (Periods.world s)) (- days) in
    let rq := fun c => {| Periods.rq_query := Periods.cat_query c;
                          Periods.rq_since := since |} in
    exists r1 r2 r3 b1 b2 b3,
      Periods.trace s'
      = Periods.trace s
        ++ [(rq Periods.prsOpened, r1); (rq Periods.prsMerged, r2);
            (rq Periods.issuesOpened, r3)]
      /\ (Periods.ok r1 = true /\ Periods.json r1 = Some b1)
      /\ (Periods.ok r2 = true /\ Periods.json r2 = Some b2)
      /\ (Periods.ok r3 = true /\ Periods.json r3 = Some b3)
      /\ Periods.written s'
         = Periods.written s
           ++ [Periods.document name (Periods.itemsOf b1) (Periods.itemsOf b2)
                 (Periods.itemsOf b3)].
Proof.
  intros World respond clock addDays name days s s' H.
  exact (@generate_Done World respond clock addDays name days s s' H).
Qed.

Lemma X24_witness :
  let s' := snd (Periods.generate Sample5.respond Sample5.clock Sample.addDays
                   "week" 7 Sample5.start) in
  let rq := fun c => {| Periods.rq_query := Periods.cat_query c;
                        Periods.rq_since := 1708992000005 |} in
  exists r1 r2 r3 b1 b2 b3,
    Periods.trace s'
    = [(rq Periods.prsOpened, r1); (rq Periods.prsMerged, r2);
       (rq Periods.issuesOpened, r3)]
    /\ (Periods.ok r1 = true /\ Periods.json r1 = Some b1)
    /\ (Periods.ok r2 = true /\ Periods.json r2 = Some b2)
    /\ (Periods.ok r3 = true /\ Periods.json r3 = Some b3)
    /\ Periods.written s'
       = [Periods.document "week" (Periods.itemsOf b1) (Periods.itemsOf b2)
            (Periods.itemsOf b3)].
Proof.
  exact (@X24_a_completed_generate_wrote_the_first_pages unit Sample5.respond
           Sample5.clock Sample.addDays "week" 7 Sample5.start _ eq_refl).
Defined.

(** X25.  A run writes the period documents in the order week, 2week,
    3week, month, 2month, year, and never skips one.  If it completes, all
    six are written after eighteen requests.  If a request fails (a
    non-success status, or a body that does not parse), the run stops there:
    the documents of the [n] periods before are written and stay written, the
    failing period and the later ones are not, and between [3n + 1] and
    [3n + 3] requests have been sent. *)
Theorem X25_a_run_writes_the_periods_in_order_until_a_failure :
  forall (World : Type)
         (respond : World -> Periods.Request -> Periods.Response * World)
         (clock : World -> Z) (addDays : Z -> Z -> Z) (w : World),
    let r := Periods.run respond clock addDays
               {| Periods.world := w; Periods.trace := []; Periods.written := [] |} in
    exists n,
      map Periods.period (Periods.written (snd r)) = firstn n (map fst Periods.periods)
      /\ match fst r with
         | Periods.Done _ =>
             n = 6%nat /\ List.length (Periods.trace (snd r)) = 18%nat
         | Periods.Thrown _ =>
             (n < 6)%nat
             /\ (3 * n < List.length (Periods.trace (snd r)) <= 3 * n + 3)%nat
         end.
Proof.
  intros World respond clock addDays w r.
  pose proof (@generateAll_outcome World respond clock addDays Periods.periods
                {| Periods.world := w; Periods.trace := []; Periods.written := [] |}) as H.
  cbv zeta in H. change (Periods.generateAll respond clock addDays Periods.periods) with
    (Periods.run respond clock addDays) in H.
  fold r in H. destruct H as [n [Hn Ho]]. exists n. split; [exact Hn|].
  destruct (fst r); cbn [List.length Periods.periods Periods.trace] in Ho; lia.
Qed.

(** ** Days that are array indices *)

(** Two pull requests of alice whose timestamps are the bare years 2024 and
    2023, in that order: the year document lists the days as they came, the
    derived document lists them as [Object.values] does, in numeric order. *)
Example index_days_come_first_in_a_derived_document :
  let year := Year.yearEntries Sample.keepTitle Sample6.opened [] [] in
  map (fun e => map Year.date (Year.daily_activity e)) year = [["2024"; "2023"]]
  /\ map (fun d => map Year.date (Year.Derived.daily_activity d))
       (Year.derivePeriod Sample6.parseDate 0 year)
     = [["2023"; "2024"]].
Proof. split; reflexivity. Qed.
